(** * k3d: the cluster lifecycle backend (package run)

    A shallow embedding of [CreateCluster], [DeleteCluster], [StopCluster],
    [StartCluster] and [AddNode], the backend functions behind the CLI
    commands, together with the properties of the specification that concern
    them.

    The Go functions talk to a container runtime.  The runtime is a [World]
    (containers, networks, volumes, local directories) on which every call
    is recorded; whether a call fails is decided by an [Oracle] that sees the
    calls made so far.  Go's [int] is the 64-bit signed integer. *)

From Stdlib Require Import ZArith List String Ascii Bool Lia DecimalString.
Import ListNotations.
Open Scope string_scope.
Open Scope list_scope.
Open Scope Z_scope.

Set Implicit Arguments.

(** ** Go strings and integers *)

Module GoInt.
Definition MinInt : Z := - 2 ^ 63.
Definition MaxInt : Z := 2 ^ 63 - 1.
Definition MaxUint64 : Z := 2 ^ 64 - 1.

(** Two's complement wrap-around of the 64-bit [int]. *)
Definition wrap (z : Z) : Z := (z + 2 ^ 63) mod 2 ^ 64 - 2 ^ 63.

Definition add (a b : Z) : Z := wrap (a + b).

Definition inRange (z : Z) : bool := (MinInt <=? z) && (z <=? MaxInt).
End GoInt.

Module GoStrings.

(** [strings.Split(s, sep)] for a one-byte separator: always at least one
    field. *)
Fixpoint Split (s : string) (sep : ascii) : list string :=
  match s with
  | EmptyString => [EmptyString]
  | String c rest =>
      if Ascii.eqb c sep then EmptyString :: Split rest sep
      else match Split rest sep with
           | [] => [String c EmptyString]
           | h :: t => String c h :: t
           end
  end.

(** [strings.SplitN(s, sep, 2)] for a one-byte separator: the text before
    the first separator, and the rest when there is a separator. *)
Fixpoint SplitN2 (s : string) (sep : ascii) : list string :=
  match s with
  | EmptyString => [EmptyString]
  | String c rest =>
      if Ascii.eqb c sep then [EmptyString; rest]
      else match SplitN2 rest sep with
           | [] => [String c EmptyString]
           | h :: t => String c h :: t
           end
  end.

Inductive NumError := ErrSyntax | ErrRange.

Definition digit (c : ascii) : option Z :=
  let n := Z.of_N (N_of_ascii c) in
  if (48 <=? n) && (n <=? 57) then Some (n - 48) else None.

(** The digits as [strconv.ParseUint] reads them: a byte that is no digit
    is a syntax error, and the scan ends with a range error at the digit
    with which the value no longer fits 64 bits. *)
Fixpoint digits (s : string) (acc : Z) : Z + NumError :=
  match s with
  | EmptyString => inl acc
  | String c rest =>
      match digit c with
      | Some d =>
          if GoInt.MaxUint64 <? 10 * acc + d then inr ErrRange
          else digits rest (10 * acc + d)
      | None => inr ErrSyntax
      end
  end.

(** [strconv.Atoi]: an optional sign, then one or more decimal digits; a
    value that does not fit [int] is a range error. *)
Definition Atoi (s : string) : Z + NumError :=
  let '(neg, body) :=
    match s with
    | String "-"%char r => (true, r)
    | String "+"%char r => (false, r)
    | _ => (false, s)
    end in
  match body with
  | EmptyString => inr ErrSyntax
  | _ =>
      match digits body 0 with
      | inr err => inr err
      | inl v =>
          let z := if neg then - v else v in
          if GoInt.inRange z then inl z else inr ErrRange
      end
  end.

(** [strconv.Itoa]. *)
Definition Itoa (z : Z) : string := NilZero.string_of_int (Z.to_int z).

End GoStrings.
Import GoStrings.


(** ** Data model *)

(** Labels of a runtime object and label filters ([filters.Args] restricted
    to the "label" key, each entry a key and its value). *)
Definition Labels := list (string * string).

Fixpoint label (k : string) (ls : Labels) : option string :=
  match ls with
  | [] => None
  | (k', v) :: rest => if String.eqb k k' then Some v else label k rest
  end.

Definition hasLabel (ls : Labels) (kv : string * string) : bool :=
  match label (fst kv) ls with
  | Some v => String.eqb v (snd kv)
  | None => false
  end.

Definition matches (flt : Labels) (ls : Labels) : bool :=
  forallb (hasLabel ls) flt.

(** [filters.Add("label", kv)] and [filters.Del("label", kv)]. *)
Definition filtersAdd (flt : Labels) (kv : string * string) : Labels :=
  flt ++ [kv].

Definition kvEqb (a b : string * string) : bool :=
  String.eqb (fst a) (fst b) && String.eqb (snd a) (snd b).

Definition filtersDel (flt : Labels) (kv : string * string) : Labels :=
  filter (fun x => negb (kvEqb x kv)) flt.

(** A container as the runtime reports it: the summary of a list call
    ([ID], [Names], [Labels]) and the configuration of an inspect call
    ([Name], [Config.Env], [Config.Cmd]).  The runtime reports one name per
    container, so [Names[0]] is [Name]. *)
Record Container := mkContainer {
  ID : string;
  Name : string;
  Image : string;
  Env : list string;
  Cmd : list string;
  Ports : list string;
  Binds : list string;
  ContainerLabels : Labels;
  RestartUnlessStopped : bool;
  Running : bool
}.

Record apiPort := mkApiPort {
  Host : string;
  HostIP : string;
  Port : string
}.

(** [ClusterSpec], with the fields the source fills in. *)
Record ClusterSpec := mkClusterSpec {
  AgentArgs : list string;
  APIPort : apiPort;
  AutoRestart : bool;
  ClusterName : string;
  SpecEnv : list string;
  SpecImage : string;
  NodeToPortSpecMap : list (string * list string);
  PortAutoOffset : Z;
  ServerArgs : list string;
  Verbose : bool;
  Volumes : list string
}.

(** Modelled from the spec: the [Cluster] type (the discovered view, 3):
    a name, one optional server node and the list of worker nodes. *)
Record Cluster := mkCluster {
  name : string;
  server : option Container;
  workers : list Container
}.

(** [cluster.server.ID]; with no server in the cluster the field is the
    empty string. *)
Definition serverID (cl : Cluster) : string :=
  match server cl with
  | Some s => ID s
  | None => ""
  end.

(** [cli.Context]: the flag look-ups the backend makes. *)
Record Context := mkContext {
  String_ : string -> string;
  Int_ : string -> Z;
  Bool_ : string -> bool;
  GlobalBool_ : string -> bool;
  StringSlice_ : string -> list string;
  IsSet_ : string -> bool
}.

(** ** The runtime *)

(** The calls made to the container runtime and to the local file system. *)
Inductive Call :=
| NewClient
| NetworkCreate (cluster : string)
| NetworkList (flt : Labels)
| NetworkRemove (cluster : string)
| VolumeCreate (cluster : string)
| VolumeRemove (cluster : string)
| ContainerCreate (config : Container)
| ContainerStart (id : string)
| ContainerStop (id : string)
| ContainerRemove (id : string)
| ContainerList (flt : Labels) (all : bool)
| ContainerInspect (id : string)
| ContainerLogs (id : string) (marker : string) (timeout : Z)
| ClusterDirCreate (cluster : string)
| ClusterDirDelete (cluster : string).

Inductive Error :=
| RuntimeError (call : Call)
| NoSuchContainer (id : string)
| NameInUse (nm : string)
| InvalidClusterName (nm : string)
| ConsistencyError (cluster : string)
| ClusterExists (nm : string)
| BadAPIPort (s : string)
| WaitFailed (cause : Error)
| CouldntRemoveServer (cluster : string) (cause : Error)
| CouldntStopServer (cluster : string) (cause : Error)
| CouldntStartServer (cluster : string) (cause : Error)
| CouldntCreateClient (cause : Error)
| ServerRoleUnsupported
| NoServerContainer (cluster : string)
| CouldntInspectServer (id : string) (cause : Error)
| NoClusterSecret
| NoListenPort
| NoNetwork (cluster : string)
| CouldntListWorkers (cause : Error)
| HighestSuffixFailed (cause : NumError)
| CouldntCreateNode (role : string) (cause : Error).

(** The lines the backend logs on its failure paths. *)
Inductive LogLine :=
| LogRollingBack
| LogRollbackFailed (nm : string)
| LogError (e : Error)
| WarnDockerMachine
| WarnNetwork (cluster : string) (e : Error)
| WarnVolume (cluster : string) (e : Error).

Record World := mkWorld {
  containers : list Container;
  networks : list string;
  volumes : list string;
  dirs : list string;
  calls : list Call;
  logs : list LogLine
}.

(** How a Go function ends: it returns normally, returns an error, panics
    (index out of range) or ends the process ([log.Fatal]). *)
Inductive Res (A : Type) :=
| Ok (a : A)
| Fail (e : Error)
| Panic
| Exit.
Arguments Ok {A} a.
Arguments Fail {A} e.
Arguments Panic {A}.
Arguments Exit {A}.

Definition M (A : Type) := World -> Res A * World.

Definition ret {A} (a : A) : M A := fun w => (Ok a, w).

Definition fail {A} (e : Error) : M A := fun w => (Fail e, w).

Definition bind {A B} (m : M A) (k : A -> M B) : M B :=
  fun w =>
    match m w with
    | (Ok a, w') => k a w'
    | (Fail e, w') => (Fail e, w')
    | (Panic, w') => (Panic, w')
    | (Exit, w') => (Exit, w')
    end.

(** [try m handler]: [if err := m; err != nil { handler err }]. *)
Definition try {A} (m : M A) (handler : Error -> M A) : M A :=
  fun w =>
    match m w with
    | (Fail e, w') => handler e w'
    | r => r
    end.

Notation "x <- m ;; k" := (bind m (fun x => k))
  (at level 61, m at next level, right associativity).
Notation "m ;;; k" := (bind m (fun _ => k))
  (at level 61, right associativity).

Definition logLine (l : LogLine) : M unit :=
  fun w => (Ok tt, mkWorld (containers w) (networks w) (volumes w) (dirs w)
                           (calls w) (logs w ++ [l])).

Definition record (c : Call) (w : World) : World :=
  mkWorld (containers w) (networks w) (volumes w) (dirs w)
          (calls w ++ [c]) (logs w).

Definition setContainers (cs : list Container) (w : World) : World :=
  mkWorld cs (networks w) (volumes w) (dirs w) (calls w) (logs w).

Definition setNetworks (ns : list string) (w : World) : World :=
  mkWorld (containers w) ns (volumes w) (dirs w) (calls w) (logs w).

Definition setVolumes (vs : list string) (w : World) : World :=
  mkWorld (containers w) (networks w) vs (dirs w) (calls w) (logs w).

Definition setDirs (ds : list string) (w : World) : World :=
  mkWorld (containers w) (networks w) (volumes w) ds (calls w) (logs w).

(** The oracle: given the calls made so far and the call being made, does
    the runtime make it fail? *)
Definition Oracle := list Call -> Call -> bool.

(** The helpers of the package that this file calls and that live in its
    other files: what they compute is left open. *)
Record Deps := mkDeps {
  oracle : Oracle;
  (** [CheckClusterName]: is the name a valid host name? *)
  CheckClusterName : string -> bool;
  (** [parseAPIPort]: [None] is its error. *)
  parseAPIPort : string -> option apiPort;
  (** [getDockerMachineIp]: the address and whether it came with an error. *)
  getDockerMachineIp : string * bool;
  (** [mapNodesToPortSpecs]: [None] is its error. *)
  mapNodesToPortSpecs :
    list string -> list string -> option (list (string * list string));
  (** [GenerateRandomString]. *)
  GenerateRandomString : Z -> string
}.

Section Backend.

Variable D : Deps.

(** One call to the runtime: it is recorded, and fails when the oracle says
    so. *)
Definition attempt (c : Call) : M unit :=
  fun w =>
    if oracle D (calls w) c
    then (Fail (RuntimeError c), record c w)
    else (Ok tt, record c w).

Definition get : M World := fun w => (Ok w, w).

Definition modify (f : World -> World) : M unit := fun w => (Ok tt, f w).

Definition hasID (id : string) (c : Container) : bool := String.eqb (ID c) id.

Definition setRunning (id : string) (b : bool) (c : Container) : Container :=
  if hasID id c
  then mkContainer (ID c) (Name c) (Image c) (Env c) (Cmd c) (Ports c)
                   (Binds c) (ContainerLabels c) (RestartUnlessStopped c) b
  else c.

(** *** Resource provisioner

    The provisioning helpers of the package live in its other files.  They
    are modelled from the specification (sections 2, 3, 4.2 and 6): one
    network and one volume per cluster, named from the cluster name; node
    containers created, then started, with the labels [app=k3d],
    [cluster=<name>] and [component=server|worker]. *)

(** Modelled from the spec: [k3dNetworkName], the name of the cluster
    network, made from the cluster name (3). *)
Definition k3dNetworkName (cluster : string) : string :=
  ("k3d-" ++ cluster)%string.

(** Modelled from the spec: the name of the image volume, made from the
    cluster name (3). *)
Definition imageVolumeName (cluster : string) : string :=
  ("k3d-" ++ cluster ++ "-images")%string.

(** Modelled from the spec: [GetContainerName] (3): [<cluster>-server] and
    [<cluster>-worker-<n>]. *)
Definition GetContainerName (role cluster : string) (postfix : option Z)
  : string :=
  match postfix with
  | Some n => (cluster ++ "-" ++ role ++ "-" ++ Itoa n)%string
  | None => (cluster ++ "-" ++ role)%string
  end.

(** Modelled from the spec: [GetAllContainerNames]: the server's name, then
    the workers' names in ordinal order. *)
Definition GetAllContainerNames (cluster : string) (serverCount workerCount : Z)
  : list string :=
  GetContainerName "server" cluster None ::
  map (fun i => GetContainerName "worker" cluster (Some (Z.of_nat i)))
      (seq 0 (Z.to_nat workerCount)).

(** Modelled from the spec: [createClusterNetwork] (2, 6), the network of
    the cluster, labelled with its name. *)
Definition createClusterNetwork (cluster : string) : M string :=
  attempt (NetworkCreate cluster) ;;;
  modify (fun w => setNetworks (cluster :: networks w) w) ;;;
  ret (k3dNetworkName cluster).

(** Modelled from the spec: [deleteClusterNetwork] (2, 6). *)
Definition deleteClusterNetwork (cluster : string) : M unit :=
  attempt (NetworkRemove cluster) ;;;
  modify (fun w =>
    setNetworks (filter (fun n => negb (String.eqb n cluster)) (networks w)) w).

(** Modelled from the spec: [createImageVolume] (2, 6); it returns the
    volume, of which the caller reads the name. *)
Definition createImageVolume (cluster : string) : M string :=
  attempt (VolumeCreate cluster) ;;;
  modify (fun w => setVolumes (cluster :: volumes w) w) ;;;
  ret (imageVolumeName cluster).

(** Modelled from the spec: [deleteImageVolume] (2, 6). *)
Definition deleteImageVolume (cluster : string) : M unit :=
  attempt (VolumeRemove cluster) ;;;
  modify (fun w =>
    setVolumes (filter (fun n => negb (String.eqb n cluster)) (volumes w)) w).

(** Modelled from the spec: [createClusterDir] (6).  The directory helpers
    return nothing to their callers: they cannot report a failure. *)
Definition createClusterDir (cluster : string) : M unit :=
  modify (fun w => setDirs (cluster :: dirs w) (record (ClusterDirCreate cluster) w)).

(** Modelled from the spec: [deleteClusterDir] (6). *)
Definition deleteClusterDir (cluster : string) : M unit :=
  modify (fun w =>
    setDirs (filter (fun n => negb (String.eqb n cluster)) (dirs w))
            (record (ClusterDirDelete cluster) w)).

Definition containerExists (id : string) (w : World) : bool :=
  existsb (hasID id) (containers w).

(** Modelled from the spec: [createContainer], the create-and-start
    primitive of the provisioner (2).  The runtime refuses a name that is in
    use; once created the container exists, and it is started next.  The
    runtime identifies the container by its name. *)
Definition createContainer (config : Container) : M string :=
  attempt (ContainerCreate config) ;;;
  w <- get ;;
  if existsb (fun c => String.eqb (Name c) (Name config)) (containers w)
  then fail (NameInUse (Name config))
  else
    modify (fun w => setContainers (containers w ++ [config]) w) ;;;
    attempt (ContainerStart (ID config)) ;;;
    modify (fun w =>
      setContainers (map (setRunning (ID config) true) (containers w)) w) ;;;
    ret (ID config).

(** The calls of the runtime client that the source makes directly:
    [docker.ContainerStart], [docker.ContainerStop], [docker.ContainerList],
    [docker.ContainerInspect] and [docker.NetworkList]. *)
Definition ContainerStartM (id : string) : M unit :=
  attempt (ContainerStart id) ;;;
  w <- get ;;
  if containerExists id w
  then modify (fun w => setContainers (map (setRunning id true) (containers w)) w)
  else fail (NoSuchContainer id).

Definition ContainerStopM (id : string) : M unit :=
  attempt (ContainerStop id) ;;;
  w <- get ;;
  if containerExists id w
  then modify (fun w => setContainers (map (setRunning id false) (containers w)) w)
  else fail (NoSuchContainer id).

(** Modelled from the spec: [removeContainer] (2, 6). *)
Definition removeContainer (id : string) : M unit :=
  attempt (ContainerRemove id) ;;;
  w <- get ;;
  if containerExists id w
  then modify (fun w =>
         setContainers (filter (fun c => negb (hasID id c)) (containers w)) w)
  else fail (NoSuchContainer id).

(** Modelled from the spec: [waitForContainerLogMessage], the readiness
    watcher (4.2): it fails on a timeout or a stream error, which is for the
    oracle to tell. *)
Definition waitForContainerLogMessage (id marker : string) (timeout : Z)
  : M unit :=
  attempt (ContainerLogs id marker timeout).

Definition ContainerListM (flt : Labels) (all : bool) : M (list Container) :=
  attempt (ContainerList flt all) ;;;
  w <- get ;;
  ret (filter (fun c => matches flt (ContainerLabels c) && (all || Running c))
              (containers w)).

Definition ContainerInspectM (id : string) : M Container :=
  attempt (ContainerInspect id) ;;;
  w <- get ;;
  match find (hasID id) (containers w) with
  | Some c => ret c
  | None => fail (NoSuchContainer id)
  end.

Definition networkLabels (cluster : string) : Labels :=
  [("app", "k3d"); ("cluster", cluster)].

Definition NetworkListM (flt : Labels) : M (list string) :=
  attempt (NetworkList flt) ;;;
  w <- get ;;
  ret (filter (fun n => matches flt (networkLabels n)) (networks w)).

(** Modelled from the spec: the labels of a node container (6). *)
Definition nodeLabels (cluster component : string) : Labels :=
  [("app", "k3d"); ("component", component); ("cluster", cluster)].

(** Modelled from the spec: the port specs of a node, looked up by its
    name in the node-to-port map (4.1). *)
Definition nodePorts (spec : ClusterSpec) (nm : string) : list string :=
  match find (fun e => String.eqb (fst e) nm) (NodeToPortSpecMap spec) with
  | Some e => snd e
  | None => []
  end.

(** Modelled from the spec: [createServer] (4.4): the server container
    with the spec applied (image, environment, arguments, ports, volumes and
    labels). *)
Definition serverConfig (spec : ClusterSpec) : Container :=
  let containerName := GetContainerName "server" (ClusterName spec) None in
  mkContainer containerName containerName (SpecImage spec) (SpecEnv spec)
    ("server" :: ServerArgs spec) (nodePorts spec containerName)
    (Volumes spec) (nodeLabels (ClusterName spec) "server")
    (AutoRestart spec) false.

Definition createServer (spec : ClusterSpec) : M string :=
  createContainer (serverConfig spec).

(** Modelled from the spec: [createWorker] (4.4): the worker container of
    an ordinal, with the spec applied.  Of a worker the spec gives the name
    ([<cluster>-worker-<n>]), the labels and, for [AddNode], that it is
    configured with the join environment it is handed; what else
    [createWorker] may add to the environment of a worker is not in the
    spec, and the model adds nothing. *)
Definition workerConfig (spec : ClusterSpec) (postfix : Z) : Container :=
  let containerName :=
    GetContainerName "worker" (ClusterName spec) (Some postfix) in
  mkContainer containerName containerName (SpecImage spec) (SpecEnv spec)
    ("agent" :: AgentArgs spec) (nodePorts spec containerName)
    (Volumes spec) (nodeLabels (ClusterName spec) "worker")
    (AutoRestart spec) false.

Definition createWorker (spec : ClusterSpec) (postfix : Z) : M string :=
  createContainer (workerConfig spec postfix).

(** *** Cluster registry

    [getClusters] lives in another file of the package; it is modelled from
    the specification (4.3). *)

Definition lastField (nm : string) : string :=
  let split := Split nm "-" in
  nth (List.length split - 1) split "".

Definition suffixKey (c : Container) : Z :=
  match Atoi (lastField (Name c)) with
  | inl z => z
  | inr _ => 0
  end.

Fixpoint insertBySuffix (c : Container) (l : list Container) : list Container :=
  match l with
  | [] => [c]
  | x :: rest =>
      if suffixKey c <? suffixKey x then c :: l
      else x :: insertBySuffix c rest
  end.

(** Modelled from the spec: the workers by ascending name suffix (4.3); a
    name without a numeric suffix counts as 0. *)
Definition sortBySuffix (l : list Container) : list Container :=
  fold_right insertBySuffix [] l.

Definition isComponent (component : string) (c : Container) : bool :=
  hasLabel (ContainerLabels c) ("component", component).

Definition inCluster (cluster : string) (c : Container) : bool :=
  hasLabel (ContainerLabels c) ("cluster", cluster).

Definition clusterLabels (cs : list Container) : list string :=
  nodup string_dec
    (flat_map (fun c => match label "cluster" (ContainerLabels c) with
                        | Some n => [n]
                        | None => []
                        end) cs).

(** Modelled from the spec: one group of [getClusters] (4.3). *)
Definition discoverOne (cs : list Container) (n : string) : Res Cluster :=
  let group := filter (inCluster n) cs in
  let servers := filter (isComponent "server") group in
  if (1 <? List.length servers)%nat then Fail (ConsistencyError n)
  else Ok (mkCluster n (hd_error servers)
                     (sortBySuffix (filter (isComponent "worker") group))).

Fixpoint discoverAll (cs : list Container) (names : list string)
  : Res (list Cluster) :=
  match names with
  | [] => Ok []
  | n :: rest =>
      match discoverOne cs n with
      | Ok cl =>
          match discoverAll cs rest with
          | Ok cls => Ok (cl :: cls)
          | r => r
          end
      | Fail e => Fail e
      | Panic => Panic
      | Exit => Exit
      end
  end.

(** Modelled from the spec: the query of [getClusters] (4.3): the label
    [app=k3d], and [cluster=<name>] when [all] is false and the name is not
    empty. *)
Definition registryFilter (all : bool) (nm : string) : Labels :=
  ("app", "k3d") ::
  (if all || String.eqb nm "" then [] else [("cluster", nm)]).

Definition discovered (all : bool) (nm : string) (w : World) : list Container :=
  filter (fun c => matches (registryFilter all nm) (ContainerLabels c))
         (containers w).

(** Modelled from the spec: [getClusters] (4.3): the containers that match
    the query, stopped ones included, grouped by the value of their
    [cluster] label; in a group the [component=server] container is the
    server, more than one is a consistency error, and the
    [component=worker] containers are the workers, by ascending name suffix.
    A name without containers is absent from the result, never an error. *)
Definition getClusters (all : bool) (nm : string) : M (list Cluster) :=
  fun w =>
    let cs := discovered all nm w in
    (discoverAll cs (clusterLabels cs), w).

(** ** The backend, from the source *)

Definition defaultRegistry : string := "docker.io".
Definition defaultServerCount : Z := 1.

(** [for _, x := range xs { body }]: an error returned by the body leaves
    the function; a body that handles its error goes on ([continue]). *)
Fixpoint forEach {A} (body : A -> M unit) (xs : list A) : M unit :=
  match xs with
  | [] => ret tt
  | x :: rest => body x ;;; forEach body rest
  end.

(** [for i := lo; i < hi; i++]: the values [lo], .., [hi - 1].  Inside the
    loop [i < hi <= MaxInt], so the increment never wraps. *)
Definition intRange (lo hi : Z) : list Z :=
  map (fun k => lo + Z.of_nat k) (seq 0 (Z.to_nat (hi - lo))).

(** The image, with the default registry when none was given. *)
Definition withRegistry (image : string) : string :=
  if (List.length (Split image "/") <=? 2)%nat
  then (defaultRegistry ++ "/" ++ image)%string
  else image.

(** [if len(cluster.workers) > 0 { for _, worker := range cluster.workers
    { body } }]. *)
Definition forWorkers (body : Container -> M unit) (cluster : Cluster)
  : M unit :=
  if (0 <? List.length (workers cluster))%nat
  then forEach body (workers cluster)
  else ret tt.

(** The body of [DeleteCluster]'s worker loop. *)
Definition removeWorker (worker : Container) : M unit :=
  try (removeContainer (ID worker)) (fun err => logLine (LogError err)).

(** The body of [DeleteCluster]'s loop, for one cluster. *)
Definition deleteOne (cluster : Cluster) : M unit :=
  forWorkers removeWorker cluster ;;;
  deleteClusterDir (name cluster) ;;;
  try (removeContainer (serverID cluster))
      (fun err => fail (CouldntRemoveServer (name cluster) err)) ;;;
  try (deleteClusterNetwork (name cluster))
      (fun err => logLine (WarnNetwork (name cluster) err)) ;;;
  try (deleteImageVolume (name cluster))
      (fun err => logLine (WarnVolume (name cluster) err)).

Definition DeleteCluster (c : Context) : M unit :=
  clusters <- getClusters (Bool_ c "all") (String_ c "name") ;;
  forEach deleteOne clusters.

(** The body of [StopCluster]'s worker loop. *)
Definition stopWorker (worker : Container) : M unit :=
  try (ContainerStopM (ID worker)) (fun err => logLine (LogError err)).

(** The body of [StopCluster]'s loop, for one cluster. *)
Definition stopOne (cluster : Cluster) : M unit :=
  forWorkers stopWorker cluster ;;;
  try (ContainerStopM (serverID cluster))
      (fun err => fail (CouldntStopServer (name cluster) err)).

Definition StopCluster (c : Context) : M unit :=
  clusters <- getClusters (Bool_ c "all") (String_ c "name") ;;
  try (attempt NewClient) (fun err => fail (CouldntCreateClient err)) ;;;
  forEach stopOne clusters.

(** The body of [StartCluster]'s worker loop. *)
Definition startWorker (worker : Container) : M unit :=
  try (ContainerStartM (ID worker)) (fun err => logLine (LogError err)).

(** The body of [StartCluster]'s loop, for one cluster. *)
Definition startOne (cluster : Cluster) : M unit :=
  try (ContainerStartM (serverID cluster))
      (fun err => fail (CouldntStartServer (name cluster) err)) ;;;
  forWorkers startWorker cluster.

Definition StartCluster (c : Context) : M unit :=
  clusters <- getClusters (Bool_ c "all") (String_ c "name") ;;
  try (attempt NewClient) (fun err => fail (CouldntCreateClient err)) ;;;
  forEach startOne clusters.

(** The closure [deleteCluster] of [CreateCluster]: the rollback. *)
Definition deleteCluster (c : Context) : M unit :=
  logLine LogRollingBack ;;;
  try (DeleteCluster c)
      (fun _ => logLine (LogRollbackFailed (String_ c "name"))).

(** The worker loop of [CreateCluster]. *)
Definition bootWorker (c : Context) (clusterSpec : ClusterSpec) (i : Z)
  : M unit :=
  try (createWorker clusterSpec i)
      (fun err => deleteCluster c ;;; fail err) ;;;
  ret tt.

Definition createWorkers (c : Context) (clusterSpec : ClusterSpec) : M unit :=
  forEach (bootWorker c clusterSpec) (intRange 0 (Int_ c "workers")).

(** The CREATION part of [CreateCluster]: the cluster directory, (1) the
    server, (1.1) the wait, (2) the workers. *)
Definition createNodes (c : Context) (clusterSpec : ClusterSpec) : M unit :=
  createClusterDir (String_ c "name") ;;;
  serverContainerID <-
    try (createServer clusterSpec)
        (fun err => deleteCluster c ;;; fail err) ;;
  (if IsSet_ c "wait"
   then try (waitForContainerLogMessage serverContainerID "Running kubelet"
                                        (Int_ c "wait"))
            (fun err => deleteCluster c ;;; fail (WaitFailed err))
   else ret tt) ;;;
  (if 0 <? Int_ c "workers"
   then createWorkers c clusterSpec
   else ret tt) ;;;
  ret tt.

(** [CreateCluster]: the CONFIGURATION part, which creates the network and
    the image volume on its way, then the CREATION part. *)
Definition CreateCluster (c : Context) : M unit :=
  if negb (CheckClusterName D (String_ c "name"))
  then fail (InvalidClusterName (String_ c "name"))
  else
  cluster <- getClusters false (String_ c "name") ;;
  if negb (List.length cluster =? 0)%nat
  then fail (ClusterExists (String_ c "name"))
  else
  let image := withRegistry (String_ c "image") in
  networkID <- createClusterNetwork (String_ c "name") ;;
  let env := ["K3S_KUBECONFIG_OUTPUT=/output/kubeconfig.yaml"] in
  let env := env ++ StringSlice_ c "env" in
  let env :=
    env ++ [("K3S_CLUSTER_SECRET=" ++ GenerateRandomString D 20)%string] in
  let k3AgentArgs : list string := [] in
  let k3sServerArgs : list string := [] in
  match parseAPIPort D (String_ c "api-port") with
  | None => fail (BadAPIPort (String_ c "api-port"))
  | Some apiPort0 =>
  let k3sServerArgs :=
    k3sServerArgs ++ ["--https-listen-port"; Port apiPort0] in
  apiPort1 <-
    (if String.eqb (Host apiPort0) ""
     then
       let '(ip, err) := getDockerMachineIp D in
       (if err then logLine WarnDockerMachine else ret tt) ;;;
       ret (mkApiPort ip ip (Port apiPort0))
     else ret apiPort0) ;;
  let k3sServerArgs :=
    if negb (String.eqb (Host apiPort1) "")
    then k3sServerArgs ++ ["--tls-san"; Host apiPort1]
    else k3sServerArgs in
  let k3sServerArgs :=
    if IsSet_ c "server-arg" || IsSet_ c "x"
    then k3sServerArgs ++ StringSlice_ c "server-arg"
    else k3sServerArgs in
  let k3AgentArgs :=
    if IsSet_ c "agent-arg"
    then k3AgentArgs ++ StringSlice_ c "agent-arg"
    else k3AgentArgs in
  match mapNodesToPortSpecs D (StringSlice_ c "port")
          (GetAllContainerNames (String_ c "name") defaultServerCount
                                (Int_ c "workers")) with
  | None => fun w => (Exit, w)
  | Some portmap =>
  let volumes := StringSlice_ c "volume" in
  imageVolume <- createImageVolume (String_ c "name") ;;
  let volumes := volumes ++ [(imageVolume ++ ":/images")%string] in
  let clusterSpec :=
    {| AgentArgs := k3AgentArgs;
       APIPort := apiPort1;
       AutoRestart := Bool_ c "auto-restart";
       ClusterName := String_ c "name";
       SpecEnv := env;
       SpecImage := image;
       NodeToPortSpecMap := portmap;
       PortAutoOffset := Int_ c "port-auto-offset";
       ServerArgs := k3sServerArgs;
       Verbose := GlobalBool_ c "verbose";
       Volumes := volumes |} in
  createNodes c clusterSpec
  end
  end.

(** [AddNode], (1.2.1): the last environment entry whose key is
    [K3S_CLUSTER_SECRET], or the empty string. *)
Definition scanClusterSecret (env : list string) : string :=
  fold_left
    (fun clusterSecretEnvVar envVar =>
       let envVarSplit := SplitN2 envVar "=" in
       if String.eqb (nth 0 envVarSplit "") "K3S_CLUSTER_SECRET"
       then envVar
       else clusterSecretEnvVar)
    env "".

(** [AddNode], (1.2.2): the scan of the server's command; [cmd] is the whole
    command, [rest] what is left of it from [cmdIndex] on.  Reading
    [cmd[cmdIndex+1]] out of range panics. *)
Fixpoint scanListenPortFrom (cmd : list string) (cmdIndex : nat)
  (rest : list string) (serverListenPort : string) : Res string :=
  match rest with
  | [] => Ok serverListenPort
  | cmdPart :: rest' =>
      if String.eqb cmdPart "--https-listen-port"
      then match nth_error cmd (cmdIndex + 1) with
           | Some p => scanListenPortFrom cmd (S cmdIndex) rest' p
           | None => Panic
           end
      else scanListenPortFrom cmd (S cmdIndex) rest' serverListenPort
  end.

Definition scanListenPort (cmd : list string) : Res string :=
  scanListenPortFrom cmd 0 cmd "".

(** [AddNode], (2): the scan of the worker names for the highest suffix. *)
Fixpoint scanWorkerSuffixes (workerList : list Container)
  (highestExistingWorkerSuffix : Z) : Z + NumError :=
  match workerList with
  | [] => inl highestExistingWorkerSuffix
  | worker :: rest =>
      let split := Split (Name worker) "-" in
      match Atoi (nth (List.length split - 1) split "") with
      | inr err => inr err
      | inl currSuffix =>
          scanWorkerSuffixes rest
            (if highestExistingWorkerSuffix <? currSuffix
             then currSuffix
             else highestExistingWorkerSuffix)
      end
  end.

(** [AddNode], (3): the ordinals of the new workers. *)
Definition newSuffixes (highestExistingWorkerSuffix nodeCount : Z) : list Z :=
  intRange (GoInt.add highestExistingWorkerSuffix 1)
           (GoInt.add (GoInt.add nodeCount 1) highestExistingWorkerSuffix).

Definition lift {A} (r : Res A) : M A := fun w => (r, w).

(** [AddNode], (1), (1.1), (1.2): the client, the running server container
    of the cluster, and its inspection. *)
Definition serverFilters (clusterName : string) : Labels :=
  let filters : Labels := [] in
  let filters := filtersAdd filters ("cluster", clusterName) in
  let filters := filtersAdd filters ("app", "k3d") in
  filtersAdd filters ("component", "server").

Definition locateServer (clusterName : string) : M Container :=
  try (attempt NewClient) (fun err => fail (CouldntCreateClient err)) ;;;
  serverList <-
    try (ContainerListM (serverFilters clusterName) false)
        (fun _ => fail (NoServerContainer clusterName)) ;;
  match serverList with
  | [] => fail (NoServerContainer clusterName)
  | server0 :: _ =>
      try (ContainerInspectM (ID server0))
          (fun err => fail (CouldntInspectServer (ID server0) err))
  end.

(** [AddNode], (1.2.1), (1.2.2) and the URL of (3): the join configuration
    read off the inspected server container, the secret entry and the
    [K3S_URL] entry. *)
Definition DeriveJoinConfig (serverContainer : Container)
  : Res (string * string) :=
  let clusterSecretEnvVar := scanClusterSecret (Env serverContainer) in
  if String.eqb clusterSecretEnvVar "" then Fail NoClusterSecret else
  match scanListenPort (Cmd serverContainer) with
  | Ok serverListenPort =>
      if String.eqb serverListenPort "" then Fail NoListenPort else
      Ok (clusterSecretEnvVar,
          ("K3S_URL=https://" ++ Name serverContainer ++ ":"
             ++ serverListenPort)%string)
  | Fail e => Fail e
  | Panic => Panic
  | Exit => Exit
  end.

(** [AddNode], (1.3): the network of the cluster. *)
Definition findNetwork (clusterName : string) : M unit :=
  let filters := filtersDel (serverFilters clusterName) ("component", "server") in
  networkList <-
    try (NetworkListM filters) (fun _ => fail (NoNetwork clusterName)) ;;
  if (List.length networkList =? 0)%nat
  then fail (NoNetwork clusterName)
  else ret tt.

(** [AddNode], (1) to (1.3) in a row. *)
Definition joinPrelude (clusterName : string) : M (Container * (string * string)) :=
  serverContainer <- locateServer clusterName ;;
  join <- lift (DeriveJoinConfig serverContainer) ;;
  findNetwork clusterName ;;;
  ret (serverContainer, join).

Definition workerFilters (clusterName : string) : Labels :=
  let filters := filtersDel (serverFilters clusterName) ("component", "server") in
  filtersAdd filters ("component", "worker").

(** [AddNode], (2): the highest suffix among the existing workers. *)
Definition highestWorkerSuffix (clusterName nodeRole : string) : M Z :=
  if String.eqb nodeRole "agent"
  then
    workerList <-
      try (ContainerListM (workerFilters clusterName) true)
          (fun err => fail (CouldntListWorkers err)) ;;
    match scanWorkerSuffixes workerList 0 with
    | inr err => fail (HighestSuffixFailed err)
    | inl highest => ret highest
    end
  else ret 0.

(** The [--role] flag as [AddNode] reads it. *)
Definition nodeRoleOf (c : Context) : string :=
  let nodeRole := String_ c "role" in
  let nodeRole := if String.eqb nodeRole "worker" then "agent" else nodeRole in
  if String.eqb nodeRole "master" then "server" else nodeRole.

(** The [ClusterSpec] that [AddNode] hands to [createWorker]. *)
Definition joinSpec (clusterName image : string) (join : string * string)
  : ClusterSpec :=
  let env : list string := [] in
  let env := env ++ [snd join] in
  let env := env ++ [fst join] in
  {| AgentArgs := [];
     APIPort := mkApiPort "" "" "";
     AutoRestart := false;
     ClusterName := clusterName;
     SpecEnv := env;
     SpecImage := image;
     NodeToPortSpecMap := [];
     PortAutoOffset := 0;
     ServerArgs := [];
     Verbose := false;
     Volumes := [] |}.

(** The body of [AddNode]'s loop. *)
Definition addWorker (nodeRole : string) (clusterSpec : ClusterSpec)
  (suffix : Z) : M unit :=
  try (createWorker clusterSpec suffix)
      (fun err => fail (CouldntCreateNode nodeRole err)) ;;;
  ret tt.

Definition AddNode (c : Context) : M unit :=
  let clusterName := String_ c "name" in
  let nodeCount := Int_ c "count" in
  let nodeRole := nodeRoleOf c in
  if String.eqb nodeRole "server" then fail ServerRoleUnsupported else
  let image := withRegistry (String_ c "image") in
  prelude <- joinPrelude clusterName ;;
  highestExistingWorkerSuffix <- highestWorkerSuffix clusterName nodeRole ;;
  let clusterSpec := joinSpec clusterName image (snd prelude) in
  (if String.eqb nodeRole "agent"
   then forEach (addWorker nodeRole clusterSpec)
                (newSuffixes highestExistingWorkerSuffix nodeCount)
   else ret tt).

End Backend.

(** ** Observations and scenarios *)

(** The configurations of the containers that a sequence of calls asked the
    runtime to create, in order. *)
Definition createdConfigs (cs : list Call) : list Container :=
  flat_map (fun c => match c with
                     | ContainerCreate config => [config]
                     | _ => []
                     end) cs.

Definition createdNames (cs : list Call) : list string :=
  map Name (createdConfigs cs).

(** The worker containers of a cluster, stopped ones included: what the
    list call of [AddNode], (2), returns. *)
Definition workersOf (cluster : string) (w : World) : list Container :=
  filter (fun x => matches (workerFilters cluster) (ContainerLabels x))
         (containers w).

(** The suffix that [AddNode] reads off a worker's name. *)
Definition suffixOf (worker : Container) : Z + NumError :=
  Atoi (lastField (Name worker)).

(** The key of an environment entry: the text before its first [=]. *)
Definition envKey (envVar : string) : string := nth 0 (SplitN2 envVar "=") "".

(** The node containers of a cluster: those labelled [app=k3d] and
    [cluster=<name>]. *)
Definition clusterContainers (nm : string) (w : World) : list Container :=
  filter (fun x => matches [("app", "k3d"); ("cluster", nm)] (ContainerLabels x))
         (containers w).

(** No container, network or volume is left for a cluster name. *)
Definition nothingLeft (nm : string) (w : World) : Prop :=
  clusterContainers nm w = [] /\
  ~ In nm (networks w) /\
  ~ In nm (volumes w).

(** The calls that remove something. *)
Definition isRemoval (call : Call) : bool :=
  match call with
  | ContainerRemove _ | NetworkRemove _ | VolumeRemove _ => true
  | _ => false
  end.

(** A runtime that refuses no removal. *)
Definition removalsSucceed (D : Deps) : Prop :=
  forall tr call, isRemoval call = true -> oracle D tr call = false.

(** What the rollback of Create relies on: among the node containers of the
    cluster there is exactly one server, the one of the [ClusterSpec], and
    every other one is a worker of the [ClusterSpec]. *)
Definition rollbackReady (spec : ClusterSpec) (w : World) : Prop :=
  let cs := clusterContainers (ClusterName spec) w in
  (exists s, filter (isComponent "server") cs = [s] /\
             ID s = ID (serverConfig spec)) /\
  (forall x, In x cs ->
     isComponent "server" x = true \/
     (isComponent "worker" x = true /\
      exists i, ID x = ID (workerConfig spec i))).

(** The world is what the rollback of Create made of a world that was
    [rollbackReady]. *)
Definition rolledBackFrom (D : Deps) (c : Context) (spec : ClusterSpec)
  (w' : World) : Prop :=
  exists wr, rollbackReady spec wr /\ w' = snd (deleteCluster D c wr).

(** The two calls that bring up the worker of each ordinal. *)
Definition workerCalls (spec : ClusterSpec) (ordinals : list Z) : list Call :=
  flat_map (fun i => [ContainerCreate (workerConfig spec i);
                      ContainerStart (ID (workerConfig spec i))]) ordinals.

(** The environment of the node containers as the specification words it:
    the kubeconfig variable, the cluster secret, then the user's entries. *)
Definition envAsSpecified (D : Deps) (c : Context) : list string :=
  ["K3S_KUBECONFIG_OUTPUT=/output/kubeconfig.yaml";
   ("K3S_CLUSTER_SECRET=" ++ GenerateRandomString D 20)%string]
  ++ StringSlice_ c "env".

Definition emptyWorld : World := mkWorld [] [] [] [] [] [].

(** A runtime in which no call fails. *)
Definition neverFails : Oracle := fun _ _ => false.

(** Helpers that accept every name, put the API on port 6443 of every
    interface, know no docker machine, map no ports and always generate the
    secret [s3cr3t]. *)
Definition demoDeps (o : Oracle) : Deps :=
  mkDeps o (fun _ => true)
         (fun _ => Some (mkApiPort "" "" "6443"))
         ("", false)
         (fun _ _ => Some [])
         (fun _ => "s3cr3t").

(** [k3d create --name nm --workers n --env e..] with the image
    [rancher/k3s:latest], and [--wait] when [wait] is given. *)
Definition createCtx (nm : string) (n : Z) (userEnv : list string)
  (wait : option Z) : Context :=
  mkContext
    (fun k => if String.eqb k "name" then nm
              else if String.eqb k "image" then "rancher/k3s:latest"
              else if String.eqb k "api-port" then "6443"
              else "")
    (fun k => if String.eqb k "workers" then n
              else if String.eqb k "wait"
                   then match wait with Some t => t | None => 0 end
              else 0)
    (fun _ => false)
    (fun _ => false)
    (fun k => if String.eqb k "env" then userEnv else [])
    (fun k => if String.eqb k "wait"
              then match wait with Some _ => true | None => false end
              else false).

(** [k3d delete|stop|start --name nm], or [--all]. *)
Definition nameCtx (all : bool) (nm : string) : Context :=
  mkContext
    (fun k => if String.eqb k "name" then nm else "")
    (fun _ => 0)
    (fun k => if String.eqb k "all" then all else false)
    (fun _ => false)
    (fun _ => [])
    (fun _ => false).

(** [k3d add-node --name nm --role role --count n]. *)
Definition addNodeCtx (nm role : string) (n : Z) : Context :=
  mkContext
    (fun k => if String.eqb k "name" then nm
              else if String.eqb k "role" then role
              else if String.eqb k "image" then "rancher/k3s:latest"
              else "")
    (fun k => if String.eqb k "count" then n else 0)
    (fun _ => false)
    (fun _ => false)
    (fun _ => [])
    (fun _ => false).

(** A node container of cluster [cluster], as the runtime would report it. *)
Definition node (nm cluster component : string) (env cmd : list string)
  (running : bool) : Container :=
  mkContainer nm nm "docker.io/rancher/k3s:latest" env cmd [] []
              (nodeLabels cluster component) false running.

(** The cluster [c]: a running server started with the secret [abc] on port
    6443, and the workers [c-worker-0] and [c-worker-2]. *)
Definition cServer : Container :=
  node "c-server" "c" "server" ["K3S_CLUSTER_SECRET=abc"]
       ["server"; "--https-listen-port"; "6443"] true.

Definition cWorker0 : Container := node "c-worker-0" "c" "worker" [] ["agent"] true.

Definition cWorker2 : Container := node "c-worker-2" "c" "worker" [] ["agent"] true.

Definition clusterC : World :=
  mkWorld [cServer; cWorker0; cWorker2] ["c"] ["c"] ["c"] [] [].

Definition clusterCView : Cluster :=
  mkCluster "c" (Some cServer) [cWorker0; cWorker2].

(** The cluster [c] with its server only. *)
Definition serverOnly : World := mkWorld [cServer] ["c"] ["c"] ["c"] [] [].

(** The cluster [c] with a worker whose name does not end with a number. *)
Definition oddWorker : Container := node "c-worker-x" "c" "worker" [] ["agent"] true.

Definition oddWorld : World :=
  mkWorld [cServer; cWorker0; oddWorker] ["c"] ["c"] ["c"] [] [].

(** The name of the worker with ordinal [i] in cluster [nm]. *)
Definition workerName (nm : string) (i : Z) : string :=
  GetContainerName "worker" nm (Some i).

(** A server that was not started by this system: no secret, no port flag;
    and one with the secret whose command ends with the port flag. *)
Definition bareServer : Container :=
  node "c-server" "c" "server" [] ["server"] true.

Definition bareWorld : World := mkWorld [bareServer] ["c"] ["c"] ["c"] [] [].

Definition truncatedServer : Container :=
  node "c-server" "c" "server" ["K3S_CLUSTER_SECRET=abc"]
       ["server"; "--https-listen-port"] true.

Definition truncatedWorld : World :=
  mkWorld [truncatedServer] ["c"] ["c"] ["c"] [] [].

(** Runtimes in which exactly the calls picked by [p] fail. *)
Definition failing (p : Call -> bool) : Oracle := fun _ c => p c.

Definition isStop (id : string) (c : Call) : bool :=
  match c with ContainerStop i => String.eqb i id | _ => false end.

Definition isStart (id : string) (c : Call) : bool :=
  match c with ContainerStart i => String.eqb i id | _ => false end.

Definition isRemove (id : string) (c : Call) : bool :=
  match c with ContainerRemove i => String.eqb i id | _ => false end.

Definition isCreate (nm : string) (c : Call) : bool :=
  match c with ContainerCreate config => String.eqb (Name config) nm | _ => false end.

Definition isNetworkRemove (c : Call) : bool :=
  match c with NetworkRemove _ => true | _ => false end.

Definition isVolumeRemove (c : Call) : bool :=
  match c with VolumeRemove _ => true | _ => false end.

Definition isLogs (c : Call) : bool :=
  match c with ContainerLogs _ _ _ => true | _ => false end.

(** Three runtimes for the creation of the cluster [demo]: one refuses to
    create [demo-worker-1]; one refuses to create [demo-worker-0] and then
    to remove [demo-server]; one refuses to create [demo-server]. *)
Definition worker1Refused : Oracle := failing (isCreate "demo-worker-1").

Definition rollbackBlocked : Oracle :=
  failing (fun call => isCreate "demo-worker-0" call || isRemove "demo-server" call).

Definition serverRefused : Oracle := failing (isCreate "demo-server").

(** How far [CreateCluster] gets before its CREATION part: it stops early,
    having asked for no container and rolled nothing back, or it reaches the
    CREATION part with the network and the volume created and a
    [ClusterSpec] that carries the environment and the volumes. *)
Definition stoppedEarly (D : Deps) (c : Context) (w : World) : Prop :=
  fst (CreateCluster D c w) <> Ok tt /\
  containers (snd (CreateCluster D c w)) = containers w /\
  createdConfigs (calls (snd (CreateCluster D c w))) = createdConfigs (calls w).

Definition reachedCreation (D : Deps) (c : Context) (w : World) : Prop :=
  exists spec w1,
    CheckClusterName D (String_ c "name") = true /\
    getClusters false (String_ c "name") w = (Ok [], w) /\
    ClusterName spec = String_ c "name" /\
    SpecEnv spec =
      ["K3S_KUBECONFIG_OUTPUT=/output/kubeconfig.yaml"]
      ++ StringSlice_ c "env"
      ++ [("K3S_CLUSTER_SECRET=" ++ GenerateRandomString D 20)%string] /\
    Volumes spec =
      StringSlice_ c "volume"
      ++ [(imageVolumeName (String_ c "name") ++ ":/images")%string] /\
    containers w1 = containers w /\
    networks w1 = String_ c "name" :: networks w /\
    volumes w1 = String_ c "name" :: volumes w /\
    calls w1 = calls w ++ [NetworkCreate (String_ c "name");
                           VolumeCreate (String_ c "name")] /\
    CreateCluster D c w = createNodes D c spec w1.

(** ** Predicates on computations *)

(** A computation that makes exactly the call [c], and returns normally or
    with an error. *)
Definition OneCall (c : Call) (m : M unit) : Prop :=
  forall w,
    calls (snd (m w)) = calls w ++ [c] /\
    (fst (m w) = Ok tt \/ exists e, fst (m w) = Fail e).

(** The resources of the world, and the containers that were asked for, are
    the same. *)
Definition sameResources (w w' : World) : Prop :=
  containers w' = containers w /\
  networks w' = networks w /\
  volumes w' = volumes w /\
  dirs w' = dirs w /\
  createdConfigs (calls w') = createdConfigs (calls w).

(** A computation that only queries the runtime. *)
Definition ReadOnly {A} (m : M A) : Prop :=
  forall w, sameResources w (snd (m w)).

(** Every container that [m] asks the runtime to create satisfies [P]. *)
Definition Creates (P : Container -> Prop) {A} (m : M A) : Prop :=
  forall w, exists l,
    createdConfigs (calls (snd (m w))) = createdConfigs (calls w) ++ l /\
    Forall P l.

(** ** More of the backend *)

(** [strings.Contains(s, sep)] for a one-byte separator. *)
Fixpoint Contains (s : string) (sep : ascii) : bool :=
  match s with
  | EmptyString => false
  | String c rest => Ascii.eqb c sep || Contains rest sep
  end.

(** The number of bytes of [s] equal to [sep]. *)
Fixpoint Count (s : string) (sep : ascii) : nat :=
  match s with
  | EmptyString => 0%nat
  | String c rest =>
      if Ascii.eqb c sep then S (Count rest sep) else Count rest sep
  end.

(** [strings.Join(l, sep)] for a one-byte separator. *)
Fixpoint Join (l : list string) (sep : ascii) : string :=
  match l with
  | [] => EmptyString
  | x :: rest =>
      match rest with
      | [] => x
      | _ :: _ => (x ++ String sep (Join rest sep))%string
      end
  end.

(** [c.Args().First()]: the first argument, or the empty string. *)
Definition First (args : list string) : string := nth 0 args "".

(** The image list of [ImportImage]; [args] is [c.Args()]. *)
Definition importImageList (args : list string) : list string :=
  let images : list string := [] in
  if Contains (First args) ","
  then images ++ Split (First args) ","
  else images ++ args.

(** [ImportImage]; [args] is [c.Args()], and [importImage] is the helper of
    that name, which lives in another file of the package. *)
Definition ImportImage
  (importImage : string -> list string -> bool -> M unit)
  (c : Context) (args : list string) : M unit :=
  importImage (String_ c "name") (importImageList args) (Bool_ c "no-remove").

(** ** Relations between the world before and after a computation *)

(** A computation keeps [R] when [R] holds between the world it starts from
    and the world it ends in, however it ends. *)
Definition Keeps (R : World -> World -> Prop) {A} (m : M A) : Prop :=
  forall w, R w (snd (m w)).

(** The calls made are calls that [P] allows. *)
Definition extendsWith (P : Call -> bool) (w w' : World) : Prop :=
  exists new, calls w' = calls w ++ new /\ forallb P new = true.

(** The same containers, by their IDs, the same networks and volumes. *)
Definition sameNodes (w w' : World) : Prop :=
  map ID (containers w') = map ID (containers w) /\
  networks w' = networks w /\
  volumes w' = volumes w.

(** The containers that were there are still there, by their IDs and in
    their order; the networks and volumes are the same. *)
Definition moreNodes (w w' : World) : Prop :=
  (exists added, map ID (containers w') = map ID (containers w) ++ added) /\
  networks w' = networks w /\
  volumes w' = volumes w.

(** The containers that were there are still there, by their IDs, and so is
    every container that a call made in between has asked to start. *)
Definition startedStay (w w' : World) : Prop :=
  (forall id, In id (map ID (containers w)) -> In id (map ID (containers w'))) /\
  exists new,
    calls w' = calls w ++ new /\
    forall id, In (ContainerStart id) new -> In id (map ID (containers w')).

(** No container, network or volume that was not there before. *)
Definition fewerNodes (w w' : World) : Prop :=
  (forall id, In id (map ID (containers w')) -> In id (map ID (containers w))) /\
  (forall n, In n (networks w') -> In n (networks w)) /\
  (forall v, In v (volumes w') -> In v (volumes w)).

Definition isStopCall (call : Call) : bool :=
  match call with NewClient | ContainerStop _ => true | _ => false end.

Definition isStartCall (call : Call) : bool :=
  match call with NewClient | ContainerStart _ => true | _ => false end.

Definition isDeleteCall (call : Call) : bool :=
  match call with
  | ContainerRemove _ | NetworkRemove _ | VolumeRemove _
  | ClusterDirDelete _ => true
  | _ => false
  end.

Definition isAddNodeCall (call : Call) : bool :=
  match call with
  | NewClient | ContainerList _ _ | ContainerInspect _ | NetworkList _
  | ContainerCreate _ | ContainerStart _ => true
  | _ => false
  end.

(** ** The nodes of a cluster after Create *)

(** A container as it was asked for, its run state set aside. *)
Definition asCreated (x : Container) : Container :=
  mkContainer (ID x) (Name x) (Image x) (Env x) (Cmd x) (Ports x) (Binds x)
              (ContainerLabels x) (RestartUnlessStopped x) false.

(** The containers of [w'] are those of [w], in their order and whatever
    their run state, followed by the containers made from [configs], and each
    of these runs. *)
Definition addedNodes (configs : list Container) (w w' : World) : Prop :=
  map asCreated (containers w') = map asCreated (containers w) ++ configs /\
  (forall x, In x (containers w') -> Running x = true \/ In x (containers w)).

(** A runtime that does not refuse the queries of [AddNode]. *)
Definition queriesSucceed (D : Deps) : Prop :=
  forall tr call,
    match call with
    | NewClient | ContainerList _ _ | ContainerInspect _ | NetworkList _ => true
    | _ => false
    end = true ->
    oracle D tr call = false.

(** ** The run state of the nodes of a cluster *)

(** The identifiers that Stop and Start hand to the runtime for a cluster. *)
Definition nodeIDs (cl : Cluster) : list string :=
  serverID cl :: map ID (workers cl).

Definition withRunning (b : bool) (x : Container) : Container :=
  mkContainer (ID x) (Name x) (Image x) (Env x) (Cmd x) (Ports x) (Binds x)
              (ContainerLabels x) (RestartUnlessStopped x) b.

(** The container with its run state set to [b] when its identifier is one
    of [ids], and as it is otherwise. *)
Definition setRunningOf (ids : list string) (b : bool) (x : Container)
  : Container :=
  if existsb (String.eqb (ID x)) ids then withRunning b x else x.

(** ** The calls of Stop, Start and Delete, cluster by cluster *)

(** The calls of Stop for one cluster: its workers in order, then its
    server. *)
Definition stopCalls (cl : Cluster) : list Call :=
  map ContainerStop (map ID (workers cl)) ++ [ContainerStop (serverID cl)].

(** The calls of Start for one cluster: its server, then its workers in
    order. *)
Definition startCalls (cl : Cluster) : list Call :=
  ContainerStart (serverID cl) :: map ContainerStart (map ID (workers cl)).

(** The calls of Delete for one cluster up to the removal of its server: its
    workers in order, the local directory, the server. *)
Definition removeCalls (cl : Cluster) : list Call :=
  map ContainerRemove (map ID (workers cl))
  ++ [ClusterDirDelete (name cl); ContainerRemove (serverID cl)].

(** The best-effort end of Delete for one cluster: the network, then the
    volume. *)
Definition cleanupCalls (cl : Cluster) : list Call :=
  [NetworkRemove (name cl); VolumeRemove (name cl)].

(** How a loop over the clusters has ended, with the result [r] and the
    calls [new]: normally, with the calls [whole] of every cluster in order;
    or with the error of the first cluster [cl] whose server failed, with
    the calls [whole] of the clusters before it, the calls [upTo] of [cl],
    and no call for the clusters after it. *)
Definition loopOutcome (whole upTo : Cluster -> list Call)
  (err : string -> Error -> Error) (clusters : list Cluster)
  (r : Res unit) (new : list Call) : Prop :=
  (r = Ok tt /\ new = flat_map whole clusters) \/
  (exists before cl after e,
     clusters = before ++ cl :: after /\
     r = Fail (err (name cl) e) /\
     new = flat_map whole before ++ upTo cl).

(** The clusters [c] and [d] side by side. *)
Definition dServer : Container :=
  node "d-server" "d" "server" ["K3S_CLUSTER_SECRET=xyz"]
       ["server"; "--https-listen-port"; "6444"] true.

Definition dWorker0 : Container := node "d-worker-0" "d" "worker" [] ["agent"] true.

Definition clusterDView : Cluster := mkCluster "d" (Some dServer) [dWorker0].

Definition twoClusters : World :=
  mkWorld [cServer; cWorker0; cWorker2; dServer; dWorker0]
          ["c"; "d"] ["c"; "d"] ["c"; "d"] [] [].

(** The discovered view of a cluster whose containers have gone through
    [f]. *)
Definition mapCluster (f : Container -> Container) (cl : Cluster) : Cluster :=
  mkCluster (name cl) (option_map f (server cl)) (map f (workers cl)).

(** * Properties *)

Unset Implicit Arguments.

(** ** Strings and integers *)

Lemma wrap_small z : GoInt.MinInt <= z <= GoInt.MaxInt -> GoInt.wrap z = z.
Proof.
  unfold GoInt.wrap, GoInt.MinInt, GoInt.MaxInt. intros H.
  rewrite Z.mod_small by lia. lia.
Qed.

Lemma Split_nonempty s sep : Split s sep <> [].
Proof.
  destruct s as [|c r]; simpl; [discriminate|].
  destruct (Ascii.eqb c sep); [discriminate|].
  destruct (Split r sep); discriminate.
Qed.

Example Split_worker : Split "/c-worker-2" "-" = ["/c"; "worker"; "2"].
Proof. reflexivity. Qed.

Example SplitN2_secret :
  SplitN2 "K3S_CLUSTER_SECRET=a=b" "=" = ["K3S_CLUSTER_SECRET"; "a=b"].
Proof. reflexivity. Qed.

Example Atoi_examples :
  Atoi "42" = inl 42 /\ Atoi "+7" = inl 7 /\ Atoi "" = inr ErrSyntax /\
  Atoi "x1" = inr ErrSyntax /\
  Atoi "9223372036854775807" = inl GoInt.MaxInt /\
  Atoi "9223372036854775808" = inr ErrRange /\
  Atoi "-9223372036854775808" = inl GoInt.MinInt /\
  Atoi "18446744073709551616x" = inr ErrRange /\
  Atoi "18446744073709551615x" = inr ErrSyntax.
Proof. repeat split; reflexivity. Qed.

Example Itoa_examples : Itoa 0 = "0" /\ Itoa 12 = "12" /\ Itoa (-3) = "-3".
Proof. repeat split; reflexivity. Qed.

(** ** The scans of [AddNode] *)

Lemma scanClusterSecret_app env1 env2 :
  scanClusterSecret (env1 ++ env2) =
  fold_left
    (fun acc envVar =>
       if String.eqb (envKey envVar) "K3S_CLUSTER_SECRET" then envVar else acc)
    env2 (scanClusterSecret env1).
Proof. unfold scanClusterSecret. now rewrite fold_left_app. Qed.

Lemma secret_fold_absent env acc :
  (forall e, In e env -> envKey e <> "K3S_CLUSTER_SECRET") ->
  fold_left
    (fun acc envVar =>
       if String.eqb (envKey envVar) "K3S_CLUSTER_SECRET" then envVar else acc)
    env acc = acc.
Proof.
  revert acc. induction env as [|e env IH]; intros acc H; simpl; [reflexivity|].
  destruct (String.eqb_spec (envKey e) "K3S_CLUSTER_SECRET") as [E|E].
  - exfalso. apply (H e); [now left | exact E].
  - apply IH. intros e' He'. apply H. now right.
Qed.

Lemma scanClusterSecret_absent env :
  (forall e, In e env -> envKey e <> "K3S_CLUSTER_SECRET") ->
  scanClusterSecret env = "".
Proof. intros H. now apply (secret_fold_absent env ""). Qed.

Lemma scanClusterSecret_last pre s post :
  envKey s = "K3S_CLUSTER_SECRET" ->
  (forall e, In e post -> envKey e <> "K3S_CLUSTER_SECRET") ->
  scanClusterSecret (pre ++ s :: post) = s.
Proof.
  intros Hs Hpost. rewrite scanClusterSecret_app. simpl.
  rewrite Hs. simpl. now apply secret_fold_absent.
Qed.

Lemma scanListenPortFrom_absent cmd idx rest acc :
  ~ In "--https-listen-port" rest ->
  scanListenPortFrom cmd idx rest acc = Ok acc.
Proof.
  revert idx acc. induction rest as [|x rest IH]; intros idx acc H; simpl.
  - reflexivity.
  - destruct (String.eqb_spec x "--https-listen-port") as [E|E].
    + exfalso. apply H. now left.
    + apply IH. intros Hin. apply H. now right.
Qed.

Lemma scanListenPortFrom_cons cmd idx x rest acc :
  scanListenPortFrom cmd idx (x :: rest) acc =
  if String.eqb x "--https-listen-port"
  then match nth_error cmd (idx + 1) with
       | Some p => scanListenPortFrom cmd (S idx) rest p
       | None => Panic
       end
  else scanListenPortFrom cmd (S idx) rest acc.
Proof. reflexivity. Qed.

Lemma nth_error_after {A} (done : list A) x rest :
  nth_error (done ++ x :: rest) (List.length done + 1) = nth_error rest 0.
Proof.
  rewrite nth_error_app2 by lia.
  replace (List.length done + 1 - List.length done)%nat with 1%nat by lia.
  reflexivity.
Qed.

Lemma snoc_length {A} (done : list A) x :
  S (List.length done) = List.length (done ++ [x]).
Proof. rewrite length_app. simpl. lia. Qed.

Lemma scanListenPortFrom_last cpre : forall done p cpost acc,
  ~ In "--https-listen-port" (p :: cpost) ->
  scanListenPortFrom (done ++ cpre ++ "--https-listen-port" :: p :: cpost)
    (List.length done) (cpre ++ "--https-listen-port" :: p :: cpost) acc = Ok p.
Proof.
  induction cpre as [|x cpre IH]; intros done p cpost acc H.
  - rewrite app_nil_l, scanListenPortFrom_cons, String.eqb_refl.
    rewrite nth_error_after. cbn [nth_error].
    now apply scanListenPortFrom_absent.
  - rewrite <- app_comm_cons, scanListenPortFrom_cons, nth_error_after.
    assert (Hstep : forall acc',
      scanListenPortFrom
        (done ++ x :: cpre ++ "--https-listen-port" :: p :: cpost)
        (S (List.length done)) (cpre ++ "--https-listen-port" :: p :: cpost) acc'
      = Ok p).
    { intros acc'.
      rewrite (snoc_length done x).
      replace (done ++ x :: cpre ++ "--https-listen-port" :: p :: cpost)
        with ((done ++ [x]) ++ cpre ++ "--https-listen-port" :: p :: cpost)
        by (now rewrite <- app_assoc).
      now apply IH. }
    destruct (String.eqb x "--https-listen-port"); [|apply Hstep].
    destruct (cpre ++ "--https-listen-port" :: p :: cpost) as [|y l] eqn:E.
    + destruct cpre; discriminate.
    + cbn [nth_error]. apply Hstep.
Qed.

Lemma scanListenPort_last cpre p cpost :
  ~ In "--https-listen-port" (p :: cpost) ->
  scanListenPort (cpre ++ "--https-listen-port" :: p :: cpost) = Ok p.
Proof.
  intros H. unfold scanListenPort.
  apply (scanListenPortFrom_last cpre [] p cpost "" H).
Qed.

Lemma scanListenPortFrom_flag_last rest : forall done acc,
  scanListenPortFrom (done ++ rest ++ ["--https-listen-port"])
    (List.length done) (rest ++ ["--https-listen-port"]) acc = Panic.
Proof.
  induction rest as [|x rest IH]; intros done acc.
  - rewrite app_nil_l, scanListenPortFrom_cons, String.eqb_refl.
    rewrite nth_error_after. reflexivity.
  - rewrite <- app_comm_cons, scanListenPortFrom_cons, nth_error_after.
    assert (Hstep : forall acc',
      scanListenPortFrom (done ++ x :: rest ++ ["--https-listen-port"])
        (S (List.length done)) (rest ++ ["--https-listen-port"]) acc' = Panic).
    { intros acc'.
      rewrite (snoc_length done x).
      replace (done ++ x :: rest ++ ["--https-listen-port"])
        with ((done ++ [x]) ++ rest ++ ["--https-listen-port"])
        by (now rewrite <- app_assoc).
      apply IH. }
    destruct (String.eqb x "--https-listen-port"); [|apply Hstep].
    destruct (rest ++ ["--https-listen-port"]) as [|y l] eqn:E.
    + destruct rest; discriminate.
    + cbn [nth_error]. apply Hstep.
Qed.

(** ** The runtime primitives *)

Lemma bind_Ok {A B} (m : M A) (k : A -> M B) w a w' :
  m w = (Ok a, w') -> bind m k w = k a w'.
Proof. intros H. unfold bind. now rewrite H. Qed.

Lemma bind_Fail {A B} (m : M A) (k : A -> M B) w e w' :
  m w = (Fail e, w') -> bind m k w = (Fail e, w').
Proof. intros H. unfold bind. now rewrite H. Qed.

Lemma bind_Panic {A B} (m : M A) (k : A -> M B) w w' :
  m w = (Panic, w') -> bind m k w = (Panic, w').
Proof. intros H. unfold bind. now rewrite H. Qed.

Lemma bind_Exit {A B} (m : M A) (k : A -> M B) w w' :
  m w = (Exit, w') -> bind m k w = (Exit, w').
Proof. intros H. unfold bind. now rewrite H. Qed.

Lemma attempt_OneCall D c : OneCall c (attempt D c).
Proof.
  intros w. unfold attempt. destruct (oracle D (calls w) c); simpl; eauto.
Qed.

Ltac one_call_existing :=
  let w := fresh "w" in
  intros w; unfold bind, attempt, get, modify, fail;
  destruct (oracle _ (calls w) _); simpl; eauto;
  unfold containerExists; simpl;
  destruct (existsb _ (containers w)); simpl; eauto.

Lemma ContainerStopM_OneCall D id :
  OneCall (ContainerStop id) (ContainerStopM D id).
Proof. unfold ContainerStopM. one_call_existing. Qed.

Lemma ContainerStartM_OneCall D id :
  OneCall (ContainerStart id) (ContainerStartM D id).
Proof. unfold ContainerStartM. one_call_existing. Qed.

Lemma removeContainer_OneCall D id :
  OneCall (ContainerRemove id) (removeContainer D id).
Proof. unfold removeContainer. one_call_existing. Qed.

Lemma deleteClusterNetwork_OneCall D n :
  OneCall (NetworkRemove n) (deleteClusterNetwork D n).
Proof.
  intros w. unfold deleteClusterNetwork, bind, attempt, modify.
  destruct (oracle D (calls w) _); simpl; eauto.
Qed.

Lemma deleteImageVolume_OneCall D n :
  OneCall (VolumeRemove n) (deleteImageVolume D n).
Proof.
  intros w. unfold deleteImageVolume, bind, attempt, modify.
  destruct (oracle D (calls w) _); simpl; eauto.
Qed.

(** [if err := m; err != nil { log.Println(err); continue }] always goes
    on. *)
Lemma try_log_OneCall c m (l : Error -> LogLine) :
  OneCall c m ->
  forall w,
    fst (try m (fun err => logLine (l err)) w) = Ok tt /\
    calls (snd (try m (fun err => logLine (l err)) w)) = calls w ++ [c].
Proof.
  intros H w. destruct (H w) as [Hc Hr]. unfold try.
  destruct (m w) as [r w1]. simpl in *.
  destruct Hr as [-> | [e ->]]; simpl; auto.
Qed.

Lemma forWorkers_forEach body cl : forWorkers body cl = forEach body (workers cl).
Proof. unfold forWorkers. destruct (workers cl); reflexivity. Qed.

Lemma forEach_cons {A} (body : A -> M unit) x xs w :
  forEach body (x :: xs) w =
  match body x w with
  | (Ok _, w1) => forEach body xs w1
  | (Fail e, w1) => (Fail e, w1)
  | (Panic, w1) => (Panic, w1)
  | (Exit, w1) => (Exit, w1)
  end.
Proof. reflexivity. Qed.

(** A loop whose body makes one call per worker and handles its error by
    logging it makes the calls for all the workers, in order, and ends
    normally. *)
Lemma forEach_logged (mk : string -> Call) (prim : string -> M unit) :
  (forall id, OneCall (mk id) (prim id)) ->
  forall ws w,
    let loop :=
      forEach (fun worker =>
                 try (prim (ID worker)) (fun err => logLine (LogError err))) ws in
    fst (loop w) = Ok tt /\
    calls (snd (loop w)) = calls w ++ map mk (map ID ws).
Proof.
  intros H ws. induction ws as [|x ws IH]; intros w; simpl.
  - split; [reflexivity | now rewrite app_nil_r].
  - unfold bind.
    destruct (try_log_OneCall _ _ LogError (H (ID x)) w) as [Hr Hc].
    destruct (try (prim (ID x)) _ w) as [r w1]. simpl in Hr, Hc. subst r.
    destruct (IH w1) as [Hr1 Hc1]. split; [exact Hr1|].
    rewrite Hc1, Hc, <- app_assoc. reflexivity.
Qed.

(** ** Stop and Start *)

Lemma stopOne_unfold D cl w :
  stopOne D cl w =
  try (ContainerStopM D (serverID cl))
      (fun err => fail (CouldntStopServer (name cl) err))
      (snd (forEach (stopWorker D) (workers cl) w)).
Proof.
  unfold stopOne, bind. rewrite forWorkers_forEach.
  destruct (forEach_logged ContainerStop (ContainerStopM D)
              (ContainerStopM_OneCall D) (workers cl) w) as [Hr _].
  unfold stopWorker.
  destruct (forEach _ (workers cl) w) as [r w1]. simpl in *. now subst r.
Qed.

Lemma try_fail_OneCall c m (wrap : Error -> Error) w :
  OneCall c m ->
  match m w with
  | (Ok _, w2) => try m (fun err => fail (wrap err)) w = (Ok tt, w2)
  | (Fail e, w2) => try m (fun err => fail (wrap err)) w = (Fail (wrap e), w2)
  | _ => False
  end /\
  calls (snd (try m (fun err => fail (wrap err)) w)) = calls w ++ [c].
Proof.
  intros H. destruct (H w) as [Hc Hr]. unfold try, fail.
  destruct (m w) as [r w2]. simpl in *.
  destruct Hr as [-> | [e ->]]; simpl; auto.
Qed.

(** ** Loops over the discovered clusters *)

Lemma newClient_Ok D w (h : Error -> M unit) :
  oracle D (calls w) NewClient = false ->
  try (attempt D NewClient) h w = (Ok tt, record NewClient w).
Proof. intros H. unfold try, attempt. now rewrite H. Qed.

(** A loop over the clusters whose body makes the calls [whole] of its
    cluster and ends normally, or makes the calls [upTo] of its cluster and
    returns the error of its server: the loop ends at the first error. *)
Lemma forEach_loopOutcome (body : Cluster -> M unit)
  (whole upTo : Cluster -> list Call) (err : string -> Error -> Error) :
  (forall cl w,
     (fst (body cl w) = Ok tt /\
      calls (snd (body cl w)) = calls w ++ whole cl) \/
     (exists e, fst (body cl w) = Fail (err (name cl) e) /\
                calls (snd (body cl w)) = calls w ++ upTo cl)) ->
  forall clusters w,
    exists new,
      calls (snd (forEach body clusters w)) = calls w ++ new /\
      loopOutcome whole upTo err clusters (fst (forEach body clusters w)) new.
Proof.
  intros H. induction clusters as [|cl cls IH]; intros w.
  - exists []. split; [simpl; now rewrite app_nil_r|]. left. now split.
  - rewrite forEach_cons.
    destruct (H cl w) as [(Hr & Hc)|(e & Hr & Hc)];
      destruct (body cl w) as [r w1]; simpl in Hr, Hc; subst r.
    + destruct (IH w1) as (new & Hn & Ho). exists (whole cl ++ new).
      split; [now rewrite Hn, Hc, <- app_assoc|].
      destruct Ho as [(Hok & ->)|(before & cl' & after & e & -> & Hf & ->)].
      * left. now split.
      * right. exists (cl :: before), cl', after, e.
        split; [reflexivity|]. split; [exact Hf|].
        simpl. now rewrite app_assoc.
    + exists (upTo cl). split; [exact Hc|].
      right. exists [], cl, cls, e. now repeat split.
Qed.

Lemma stopOne_outcome D cl w :
  (fst (stopOne D cl w) = Ok tt /\
   calls (snd (stopOne D cl w)) = calls w ++ stopCalls cl) \/
  (exists e, fst (stopOne D cl w) = Fail (CouldntStopServer (name cl) e) /\
             calls (snd (stopOne D cl w)) = calls w ++ stopCalls cl).
Proof.
  destruct (forEach_logged ContainerStop (ContainerStopM D)
              (ContainerStopM_OneCall D) (workers cl) w) as [_ Hc].
  fold (stopWorker D) in Hc. cbv zeta in Hc.
  set (stopped := snd (forEach (stopWorker D) (workers cl) w)) in *.
  destruct (try_fail_OneCall _ _ (CouldntStopServer (name cl)) stopped
              (ContainerStopM_OneCall D (serverID cl))) as [Hs Hsc].
  assert (Hcalls : calls (snd (stopOne D cl w)) = calls w ++ stopCalls cl).
  { rewrite stopOne_unfold. fold stopped. rewrite Hsc, Hc.
    unfold stopCalls. now rewrite <- app_assoc. }
  rewrite stopOne_unfold in *. fold stopped in Hcalls |- *.
  destruct (ContainerStopM D (serverID cl) stopped) as [[[]|e| |] w2];
    try contradiction; rewrite Hs in *.
  - left. now split.
  - right. exists e. now split.
Qed.

Lemma startOne_outcome D cl w :
  (fst (startOne D cl w) = Ok tt /\
   calls (snd (startOne D cl w)) = calls w ++ startCalls cl) \/
  (exists e, fst (startOne D cl w) = Fail (CouldntStartServer (name cl) e) /\
             calls (snd (startOne D cl w)) =
               calls w ++ [ContainerStart (serverID cl)]).
Proof.
  destruct (try_fail_OneCall _ _ (CouldntStartServer (name cl)) w
              (ContainerStartM_OneCall D (serverID cl))) as [Hs Hsc].
  unfold startOne, bind. rewrite forWorkers_forEach.
  destruct (ContainerStartM D (serverID cl) w) as [[[]|e| |] w1];
    try contradiction; rewrite Hs in *; simpl in Hsc.
  - left.
    destruct (forEach_logged ContainerStart (ContainerStartM D)
                (ContainerStartM_OneCall D) (workers cl) w1) as [Hr1 Hc1].
    fold (startWorker D) in Hr1, Hc1. cbv zeta in Hr1, Hc1.
    split; [exact Hr1|]. rewrite Hc1, Hsc. unfold startCalls.
    now rewrite <- app_assoc.
  - right. exists e. split; [reflexivity | exact Hsc].
Qed.

Lemma StopCluster_loop D c w clusters :
  getClusters (Bool_ c "all") (String_ c "name") w = (Ok clusters, w) ->
  oracle D (calls w) NewClient = false ->
  StopCluster D c w = forEach (stopOne D) clusters (record NewClient w).
Proof.
  intros HG Ho. unfold StopCluster. rewrite (bind_Ok _ _ _ _ _ HG).
  now rewrite (bind_Ok _ _ _ _ _ (newClient_Ok D w _ Ho)).
Qed.

Lemma StartCluster_loop D c w clusters :
  getClusters (Bool_ c "all") (String_ c "name") w = (Ok clusters, w) ->
  oracle D (calls w) NewClient = false ->
  StartCluster D c w = forEach (startOne D) clusters (record NewClient w).
Proof.
  intros HG Ho. unfold StartCluster. rewrite (bind_Ok _ _ _ _ _ HG).
  now rewrite (bind_Ok _ _ _ _ _ (newClient_Ok D w _ Ho)).
Qed.

(** C6. Stop and Start go through the discovered clusters in order.  For
    every discovered cluster, Stop stops all the worker containers, in
    order, and then the server container; Start starts the server container
    and then the workers.  A worker that fails to stop or start is logged
    and skipped, and the remaining workers are still processed; a failure to
    stop or start the server is the error returned: when the server does not
    start no worker of its cluster is started, and in both commands the
    clusters after that one are not touched. *)
Theorem stop_workers_then_server_start_server_then_workers
  (D : Deps) (c : Context) (w : World) (clusters : list Cluster) :
  getClusters (Bool_ c "all") (String_ c "name") w = (Ok clusters, w) ->
  oracle D (calls w) NewClient = false ->
  (StopCluster D c w = forEach (stopOne D) clusters (record NewClient w) /\
   exists new,
     calls (snd (StopCluster D c w)) = calls w ++ NewClient :: new /\
     loopOutcome stopCalls stopCalls CouldntStopServer clusters
                 (fst (StopCluster D c w)) new) /\
  (StartCluster D c w = forEach (startOne D) clusters (record NewClient w) /\
   exists new,
     calls (snd (StartCluster D c w)) = calls w ++ NewClient :: new /\
     loopOutcome startCalls (fun cl => [ContainerStart (serverID cl)])
                 CouldntStartServer clusters
                 (fst (StartCluster D c w)) new) /\
  forall (cl : Cluster) (w0 : World),
    let stopped := snd (forEach (stopWorker D) (workers cl) w0) in
    calls (snd (stopOne D cl w0)) =
      calls w0 ++ map ContainerStop (map ID (workers cl))
               ++ [ContainerStop (serverID cl)] /\
    fst (forEach (stopWorker D) (workers cl) w0) = Ok tt /\
    match ContainerStopM D (serverID cl) stopped with
    | (Ok _, w2) => stopOne D cl w0 = (Ok tt, w2)
    | (Fail e, w2) =>
        stopOne D cl w0 = (Fail (CouldntStopServer (name cl) e), w2)
    | _ => False
    end /\
    (forall worker rest e w1,
       workers cl = worker :: rest ->
       ContainerStopM D (ID worker) w0 = (Fail e, w1) ->
       stopOne D cl w0 =
       stopOne D (mkCluster (name cl) (server cl) rest)
               (snd (logLine (LogError e) w1))) /\
    match ContainerStartM D (serverID cl) w0 with
    | (Ok _, w1) =>
        fst (startOne D cl w0) = Ok tt /\
        calls (snd (startOne D cl w0)) =
          calls w0 ++ ContainerStart (serverID cl)
                   :: map ContainerStart (map ID (workers cl))
    | (Fail e, w1) =>
        startOne D cl w0 = (Fail (CouldntStartServer (name cl) e), w1) /\
        calls w1 = calls w0 ++ [ContainerStart (serverID cl)]
    | _ => False
    end /\
    (forall worker rest e w1 w2,
       workers cl = worker :: rest ->
       ContainerStartM D (serverID cl) w0 = (Ok tt, w1) ->
       ContainerStartM D (ID worker) w1 = (Fail e, w2) ->
       startOne D cl w0 =
       forEach (startWorker D) rest (snd (logLine (LogError e) w2))).
Proof.
  intros HG Ho. split; [|split].
  - pose proof (StopCluster_loop D c w clusters HG Ho) as E.
    split; [exact E|]. rewrite E.
    destruct (forEach_loopOutcome (stopOne D) stopCalls stopCalls
                CouldntStopServer (stopOne_outcome D) clusters
                (record NewClient w)) as (new & Hn & Hout).
    exists new. split; [|exact Hout].
    rewrite Hn. simpl. now rewrite <- app_assoc.
  - pose proof (StartCluster_loop D c w clusters HG Ho) as E.
    split; [exact E|]. rewrite E.
    destruct (forEach_loopOutcome (startOne D) startCalls
                (fun cl => [ContainerStart (serverID cl)])
                CouldntStartServer (startOne_outcome D) clusters
                (record NewClient w)) as (new & Hn & Hout).
    exists new. split; [|exact Hout].
    rewrite Hn. simpl. now rewrite <- app_assoc.
  - clear HG Ho. intros cl w0 stopped.
    destruct (forEach_logged ContainerStop (ContainerStopM D)
                (ContainerStopM_OneCall D) (workers cl) w0) as [Hr Hc].
    fold (stopWorker D) in Hr, Hc.
    destruct (try_fail_OneCall _ _ (CouldntStopServer (name cl)) stopped
                (ContainerStopM_OneCall D (serverID cl))) as [Hs Hsc].
    repeat split.
    + rewrite stopOne_unfold. fold stopped. rewrite Hsc. unfold stopped.
      rewrite Hc. now rewrite <- app_assoc.
    + exact Hr.
    + rewrite stopOne_unfold. fold stopped.
      destruct (ContainerStopM D (serverID cl) stopped) as [[[]|e| |] w2];
        try exact Hs.
    + intros worker rest e w1 Hw Hfail.
      rewrite !stopOne_unfold. simpl. rewrite Hw.
      rewrite forEach_cons. unfold stopWorker at 1, try at 2.
      rewrite Hfail. reflexivity.
    + destruct (try_fail_OneCall _ _ (CouldntStartServer (name cl)) w0
                  (ContainerStartM_OneCall D (serverID cl))) as [Hs' Hsc'].
      unfold startOne, bind. rewrite forWorkers_forEach.
      destruct (ContainerStartM D (serverID cl) w0) as [[[]|e| |] w1];
        try exact Hs'.
      * rewrite Hs' in *. simpl in Hsc'.
        destruct (forEach_logged ContainerStart (ContainerStartM D)
                    (ContainerStartM_OneCall D) (workers cl) w1) as [Hr1 Hc1].
        fold (startWorker D) in Hr1, Hc1.
        split; [exact Hr1|]. rewrite Hc1, Hsc', <- app_assoc. reflexivity.
      * rewrite Hs' in *. simpl in Hsc'. split; [reflexivity | exact Hsc'].
    + intros worker rest e w1 w2 Hw Hsrv Hfail.
      unfold startOne, bind, try at 1. rewrite Hsrv, forWorkers_forEach, Hw.
      rewrite forEach_cons. unfold startWorker at 1, try. rewrite Hfail.
      reflexivity.
Qed.

Example discover_clusterC :
  getClusters false "c" clusterC = (Ok [clusterCView], clusterC).
Proof. reflexivity. Qed.

Example discover_twoClusters :
  getClusters true "" twoClusters = (Ok [clusterCView; clusterDView], twoClusters).
Proof. reflexivity. Qed.

(** Stop and Start with [--all] on the clusters [c] and [d].  When
    [c-server] refuses to stop, the workers of [c] have been stopped and [d]
    is not touched; when [c-server] refuses to start, nothing else is
    started.  Stop and Start of the cluster [c] alone: with [c-worker-0]
    refusing to stop, Stop logs it, stops [c-worker-2] and the server; with
    [c-worker-0] refusing to start, Start has started the server and goes on
    with [c-worker-2]. *)
Lemma stop_start_skips_failed_worker :
  (let D := demoDeps (failing (isStop "c-server")) in
   fst (StopCluster D (nameCtx true "") twoClusters)
     = Fail (CouldntStopServer "c" (RuntimeError (ContainerStop "c-server"))) /\
   calls (snd (StopCluster D (nameCtx true "") twoClusters))
     = [NewClient; ContainerStop "c-worker-0"; ContainerStop "c-worker-2";
        ContainerStop "c-server"]) /\
  (let D := demoDeps (failing (isStart "c-server")) in
   fst (StartCluster D (nameCtx true "") twoClusters)
     = Fail (CouldntStartServer "c" (RuntimeError (ContainerStart "c-server"))) /\
   calls (snd (StartCluster D (nameCtx true "") twoClusters))
     = [NewClient; ContainerStart "c-server"]) /\
  calls (snd (StopCluster (demoDeps neverFails) (nameCtx true "") twoClusters))
    = NewClient :: stopCalls clusterCView ++ stopCalls clusterDView /\
  stopOne (demoDeps (failing (isStop "c-worker-0"))) clusterCView clusterC =
  stopOne (demoDeps (failing (isStop "c-worker-0")))
    (mkCluster "c" (Some cServer) [cWorker2])
    (snd (logLine (LogError (RuntimeError (ContainerStop "c-worker-0")))
                  (record (ContainerStop "c-worker-0") clusterC))) /\
  startOne (demoDeps (failing (isStart "c-worker-0"))) clusterCView clusterC =
  forEach (startWorker (demoDeps (failing (isStart "c-worker-0")))) [cWorker2]
    (snd (logLine (LogError (RuntimeError (ContainerStart "c-worker-0")))
                  (record (ContainerStart "c-worker-0")
                          (record (ContainerStart "c-server") clusterC)))).
Proof.
  split; [|split; [|split; [|split]]].
  - intros D.
    destruct (stop_workers_then_server_start_server_then_workers
                D (nameCtx true "") twoClusters [clusterCView; clusterDView])
      as ((E & _) & _ & _); [reflexivity | reflexivity |].
    rewrite E. split; vm_compute; reflexivity.
  - intros D.
    destruct (stop_workers_then_server_start_server_then_workers
                D (nameCtx true "") twoClusters [clusterCView; clusterDView])
      as (_ & (E & _) & _); [reflexivity | reflexivity |].
    rewrite E. split; vm_compute; reflexivity.
  - destruct (stop_workers_then_server_start_server_then_workers
                (demoDeps neverFails) (nameCtx true "") twoClusters
                [clusterCView; clusterDView])
      as ((E & _) & _ & _); [reflexivity | reflexivity |].
    rewrite E. vm_compute. reflexivity.
  - destruct (stop_workers_then_server_start_server_then_workers
                (demoDeps (failing (isStop "c-worker-0")))
                (nameCtx false "c") clusterC [clusterCView])
      as (_ & _ & Hbody); [reflexivity | reflexivity |].
    destruct (Hbody clusterCView clusterC) as (_ & _ & _ & Hskip & _ & _).
    apply (Hskip cWorker0 [cWorker2]); reflexivity.
  - destruct (stop_workers_then_server_start_server_then_workers
                (demoDeps (failing (isStart "c-worker-0")))
                (nameCtx false "c") clusterC [clusterCView])
      as (_ & _ & Hbody); [reflexivity | reflexivity |].
    destruct (Hbody clusterCView clusterC) as (_ & _ & _ & _ & _ & Hskip).
    apply (Hskip cWorker0 [cWorker2] _
             (record (ContainerStart "c-server") clusterC)); reflexivity.
Defined.

(** ** Delete *)

Lemma deleteClusterDir_spec n w :
  deleteClusterDir n w =
  (Ok tt, setDirs (filter (fun d => negb (String.eqb d n)) (dirs w))
                  (record (ClusterDirDelete n) w)).
Proof. reflexivity. Qed.

Lemma deleteOne_unfold D cl w :
  deleteOne D cl w =
  (try (removeContainer D (serverID cl))
       (fun err => fail (CouldntRemoveServer (name cl) err)) ;;;
   try (deleteClusterNetwork D (name cl))
       (fun err => logLine (WarnNetwork (name cl) err)) ;;;
   try (deleteImageVolume D (name cl))
       (fun err => logLine (WarnVolume (name cl) err)))
    (snd (deleteClusterDir (name cl)
            (snd (forEach (removeWorker D) (workers cl) w)))).
Proof.
  unfold deleteOne. rewrite forWorkers_forEach.
  destruct (forEach_logged ContainerRemove (removeContainer D)
              (removeContainer_OneCall D) (workers cl) w) as [Hr _].
  fold (removeWorker D) in Hr.
  unfold bind at 1.
  destruct (forEach (removeWorker D) (workers cl) w) as [r w1].
  simpl in Hr. subst r. reflexivity.
Qed.

(** The best-effort end of [deleteOne]: the network, then the volume; a
    failure is a warning, and the end is always reached. *)
Lemma cleanup_spec D n w :
  let cleanup :=
    (try (deleteClusterNetwork D n) (fun err => logLine (WarnNetwork n err)) ;;;
     try (deleteImageVolume D n) (fun err => logLine (WarnVolume n err))) in
  fst (cleanup w) = Ok tt /\
  calls (snd (cleanup w)) = calls w ++ [NetworkRemove n; VolumeRemove n] /\
  (oracle D (calls w) (NetworkRemove n) = true ->
   In (WarnNetwork n (RuntimeError (NetworkRemove n))) (logs (snd (cleanup w)))) /\
  (oracle D (calls w ++ [NetworkRemove n]) (VolumeRemove n) = true ->
   In (WarnVolume n (RuntimeError (VolumeRemove n))) (logs (snd (cleanup w)))).
Proof.
  unfold deleteClusterNetwork, deleteImageVolume, try, bind, attempt, modify,
    logLine.
  destruct (oracle D (calls w) (NetworkRemove n)) eqn:E1; simpl;
    destruct (oracle D (calls w ++ [NetworkRemove n]) (VolumeRemove n)) eqn:E2;
    simpl; rewrite <- ?app_assoc; simpl;
    repeat split; try reflexivity; try discriminate; intros _;
    rewrite ?in_app_iff; simpl; auto.
Qed.

Lemma deleteOne_outcome D cl w :
  (fst (deleteOne D cl w) = Ok tt /\
   calls (snd (deleteOne D cl w)) =
     calls w ++ removeCalls cl ++ cleanupCalls cl) \/
  (exists e, fst (deleteOne D cl w) = Fail (CouldntRemoveServer (name cl) e) /\
             calls (snd (deleteOne D cl w)) = calls w ++ removeCalls cl).
Proof.
  destruct (forEach_logged ContainerRemove (removeContainer D)
              (removeContainer_OneCall D) (workers cl) w) as [_ Hc].
  fold (removeWorker D) in Hc. cbv zeta in Hc.
  rewrite deleteOne_unfold.
  set (w1 := snd (deleteClusterDir (name cl)
                    (snd (forEach (removeWorker D) (workers cl) w)))).
  assert (Hw1 : calls w1 =
                calls w ++ map ContainerRemove (map ID (workers cl))
                        ++ [ClusterDirDelete (name cl)]).
  { unfold w1. rewrite deleteClusterDir_spec. simpl. rewrite Hc.
    now rewrite <- app_assoc. }
  destruct (try_fail_OneCall _ _ (CouldntRemoveServer (name cl)) w1
              (removeContainer_OneCall D (serverID cl))) as [Hs Hsc].
  destruct (removeContainer D (serverID cl) w1) as [[[]|e| |] w2];
    try contradiction.
  - left. rewrite (bind_Ok _ _ _ _ _ Hs). rewrite Hs in Hsc.
    cbn [snd] in Hsc.
    destruct (cleanup_spec D (name cl) w2) as (C1 & C2 & _).
    cbv zeta in C1, C2. split; [exact C1|].
    rewrite C2, Hsc, Hw1. unfold removeCalls, cleanupCalls.
    rewrite <- !app_assoc. reflexivity.
  - right. exists e. rewrite (bind_Fail _ _ _ _ _ Hs).
    rewrite Hs in Hsc. cbn [snd] in Hsc. split; [reflexivity|].
    cbn [snd]. rewrite Hsc, Hw1. unfold removeCalls.
    rewrite <- !app_assoc. reflexivity.
Qed.

Lemma DeleteCluster_loop D c w clusters :
  getClusters (Bool_ c "all") (String_ c "name") w = (Ok clusters, w) ->
  DeleteCluster D c w = forEach (deleteOne D) clusters w.
Proof.
  intros HG. unfold DeleteCluster. now rewrite (bind_Ok _ _ _ _ _ HG).
Qed.

(** C7. Delete goes through the discovered clusters in order.  For every
    discovered cluster, Delete removes the workers one by one, going on past
    a worker whose removal fails (it is logged), then removes the local
    directory, then the server.  When the removal of the server fails, that
    error is returned and neither the network nor the volume is touched, nor
    any cluster after that one; otherwise the network and then the volume
    are removed, and a failure of either is logged as a warning and never
    turns into an error. *)
Theorem delete_workers_dir_server_then_best_effort
  (D : Deps) (c : Context) (w : World) (clusters : list Cluster) :
  getClusters (Bool_ c "all") (String_ c "name") w = (Ok clusters, w) ->
  (DeleteCluster D c w = forEach (deleteOne D) clusters w /\
   exists new,
     calls (snd (DeleteCluster D c w)) = calls w ++ new /\
     loopOutcome (fun cl => removeCalls cl ++ cleanupCalls cl) removeCalls
                 CouldntRemoveServer clusters
                 (fst (DeleteCluster D c w)) new) /\
  forall (cl : Cluster) (w0 : World),
    let w1 := snd (deleteClusterDir (name cl)
                     (snd (forEach (removeWorker D) (workers cl) w0))) in
    fst (forEach (removeWorker D) (workers cl) w0) = Ok tt /\
    calls w1 =
      calls w0 ++ map ContainerRemove (map ID (workers cl))
               ++ [ClusterDirDelete (name cl)] /\
    (forall worker rest e w',
       workers cl = worker :: rest ->
       removeContainer D (ID worker) w0 = (Fail e, w') ->
       deleteOne D cl w0 =
       deleteOne D (mkCluster (name cl) (server cl) rest)
                 (snd (logLine (LogError e) w'))) /\
    match removeContainer D (serverID cl) w1 with
    | (Fail e, w2) =>
        deleteOne D cl w0 = (Fail (CouldntRemoveServer (name cl) e), w2) /\
        calls w2 = calls w1 ++ [ContainerRemove (serverID cl)]
    | (Ok _, w2) =>
        fst (deleteOne D cl w0) = Ok tt /\
        calls (snd (deleteOne D cl w0)) =
          calls w1 ++ [ContainerRemove (serverID cl); NetworkRemove (name cl);
                       VolumeRemove (name cl)] /\
        (oracle D (calls w2) (NetworkRemove (name cl)) = true ->
         In (WarnNetwork (name cl) (RuntimeError (NetworkRemove (name cl))))
            (logs (snd (deleteOne D cl w0)))) /\
        (oracle D (calls w2 ++ [NetworkRemove (name cl)])
                (VolumeRemove (name cl)) = true ->
         In (WarnVolume (name cl) (RuntimeError (VolumeRemove (name cl))))
            (logs (snd (deleteOne D cl w0))))
    | _ => False
    end.
Proof.
  intros HG. split.
  - pose proof (DeleteCluster_loop D c w clusters HG) as E.
    split; [exact E|]. rewrite E.
    apply (forEach_loopOutcome (deleteOne D)
             (fun cl => removeCalls cl ++ cleanupCalls cl) removeCalls
             CouldntRemoveServer (deleteOne_outcome D)).
  - clear HG. intros cl w0 w1.
    destruct (forEach_logged ContainerRemove (removeContainer D)
                (removeContainer_OneCall D) (workers cl) w0) as [Hr Hc].
    fold (removeWorker D) in Hr, Hc.
    split; [exact Hr|]. split.
    { unfold w1. rewrite deleteClusterDir_spec. simpl. rewrite Hc.
      now rewrite <- app_assoc. }
    split.
    { intros worker rest e w' Hw Hfail.
      assert (E : forEach (removeWorker D) (worker :: rest) w0 =
                  forEach (removeWorker D) rest (snd (logLine (LogError e) w'))).
      { rewrite forEach_cons. unfold removeWorker at 1, try.
        rewrite Hfail. reflexivity. }
      rewrite !deleteOne_unfold. cbn [workers name]. rewrite Hw, E.
      reflexivity. }
    rewrite deleteOne_unfold. fold w1.
    destruct (try_fail_OneCall _ _ (CouldntRemoveServer (name cl)) w1
                (removeContainer_OneCall D (serverID cl))) as [Hs Hsc].
    destruct (removeContainer D (serverID cl) w1) as [[[]|e| |] w2];
      try exact Hs.
    + rewrite (bind_Ok _ _ _ _ _ Hs). rewrite Hs in Hsc. simpl in Hsc.
      destruct (cleanup_spec D (name cl) w2) as (C1 & C2 & C3 & C4).
      cbv zeta in C1, C2, C3, C4.
      split; [exact C1|]. split.
      * rewrite C2, Hsc, <- app_assoc. reflexivity.
      * split; assumption.
    + rewrite (bind_Fail _ _ _ _ _ Hs). rewrite Hs in Hsc. simpl in Hsc.
      split; [reflexivity | exact Hsc].
Qed.

(** Delete with [--all] on the clusters [c] and [d]: when [c-server] refuses
    to be removed, the workers and the directory of [c] have been removed,
    its network and volume are still there and [d] is not touched; when
    nothing is refused, [c] and then [d] are removed whole.  Delete of the
    cluster [c] alone: with [c-worker-0] refusing to be removed, Delete logs
    it and goes on with [c-worker-2]; with the network, or the volume,
    refusing to be removed, Delete ends normally and the warning is in the
    log. *)
Lemma delete_skips_failed_worker_and_warns :
  (let D := demoDeps (failing (isRemove "c-server")) in
   let r := DeleteCluster D (nameCtx true "") twoClusters in
   fst r = Fail (CouldntRemoveServer "c"
                   (RuntimeError (ContainerRemove "c-server"))) /\
   calls (snd r) = removeCalls clusterCView /\
   map ID (containers (snd r)) = ["c-server"; "d-server"; "d-worker-0"] /\
   networks (snd r) = ["c"; "d"] /\ volumes (snd r) = ["c"; "d"]) /\
  (let r := DeleteCluster (demoDeps neverFails) (nameCtx true "") twoClusters in
   fst r = Ok tt /\
   calls (snd r) = removeCalls clusterCView ++ cleanupCalls clusterCView
                   ++ removeCalls clusterDView ++ cleanupCalls clusterDView /\
   containers (snd r) = [] /\ networks (snd r) = [] /\ volumes (snd r) = []) /\
  deleteOne (demoDeps (failing (isRemove "c-worker-0"))) clusterCView clusterC =
  deleteOne (demoDeps (failing (isRemove "c-worker-0")))
    (mkCluster "c" (Some cServer) [cWorker2])
    (snd (logLine (LogError (RuntimeError (ContainerRemove "c-worker-0")))
                  (record (ContainerRemove "c-worker-0") clusterC))) /\
  In (WarnNetwork "c" (RuntimeError (NetworkRemove "c")))
     (logs (snd (deleteOne (demoDeps (failing isNetworkRemove))
                           clusterCView clusterC))) /\
  In (WarnVolume "c" (RuntimeError (VolumeRemove "c")))
     (logs (snd (deleteOne (demoDeps (failing isVolumeRemove))
                           clusterCView clusterC))).
Proof.
  split; [|split; [|split; [|split]]].
  - intros D r.
    destruct (delete_workers_dir_server_then_best_effort
                D (nameCtx true "") twoClusters [clusterCView; clusterDView])
      as ((E & _) & _); [reflexivity|].
    unfold r. rewrite E. repeat split; vm_compute; reflexivity.
  - intros r.
    destruct (delete_workers_dir_server_then_best_effort
                (demoDeps neverFails) (nameCtx true "") twoClusters
                [clusterCView; clusterDView])
      as ((E & _) & _); [reflexivity|].
    unfold r. rewrite E. repeat split; vm_compute; reflexivity.
  - destruct (delete_workers_dir_server_then_best_effort
                (demoDeps (failing (isRemove "c-worker-0")))
                (nameCtx false "c") clusterC [clusterCView])
      as (_ & Hbody); [reflexivity|].
    destruct (Hbody clusterCView clusterC) as (_ & _ & Hskip & _).
    apply (Hskip cWorker0 [cWorker2]); reflexivity.
  - destruct (delete_workers_dir_server_then_best_effort
                (demoDeps (failing isNetworkRemove))
                (nameCtx false "c") clusterC [clusterCView])
      as (_ & Hbody); [reflexivity|].
    pose proof (Hbody clusterCView clusterC) as H.
    cbv zeta in H. destruct H as (_ & _ & _ & H).
    set (r := removeContainer _ _ _) in H.
    assert (Er : fst r = Ok tt) by reflexivity.
    destruct r as [[[]|?| |] w2]; try discriminate Er.
    destruct H as (_ & _ & Hn & _). apply Hn. reflexivity.
  - destruct (delete_workers_dir_server_then_best_effort
                (demoDeps (failing isVolumeRemove))
                (nameCtx false "c") clusterC [clusterCView])
      as (_ & Hbody); [reflexivity|].
    pose proof (Hbody clusterCView clusterC) as H.
    cbv zeta in H. destruct H as (_ & _ & _ & H).
    set (r := removeContainer _ _ _) in H.
    assert (Er : fst r = Ok tt) by reflexivity.
    destruct r as [[[]|?| |] w2]; try discriminate Er.
    destruct H as (_ & _ & _ & Hv). apply Hv. reflexivity.
Defined.

(** By name, and with a name that is not empty, the registry looks at the
    containers that carry the cluster's label. *)
Lemma discovered_by_name nm w :
  nm <> "" ->
  (forall x, In x (containers w) -> inCluster nm x = false) ->
  discovered false nm w = [].
Proof.
  intros Hnm H. unfold discovered, registryFilter.
  destruct (String.eqb_spec nm "") as [E|_]; [contradiction|]. simpl.
  induction (containers w) as [|x l IH]; simpl; [reflexivity|].
  assert (Hx : inCluster nm x = false) by (apply H; now left).
  unfold matches. simpl. unfold inCluster in Hx. rewrite Hx.
  rewrite !andb_false_r. apply IH. intros y Hy. apply H. now right.
Qed.

(** C8. Delete is idempotent at the interface: when the discovery made for
    the given name finds no labelled container, Delete removes nothing,
    makes no call, returns no error and leaves the world as it is, and the
    discovery made afterwards returns no cluster. *)
Theorem delete_absent_cluster_is_noop (D : Deps) (c : Context) (w : World) :
  discovered (Bool_ c "all") (String_ c "name") w = [] ->
  DeleteCluster D c w = (Ok tt, w) /\
  getClusters (Bool_ c "all") (String_ c "name") (snd (DeleteCluster D c w))
  = (Ok [], w).
Proof.
  intros H.
  assert (G : getClusters (Bool_ c "all") (String_ c "name") w = (Ok [], w)).
  { unfold getClusters. rewrite H. reflexivity. }
  assert (E : DeleteCluster D c w = (Ok tt, w)).
  { unfold DeleteCluster. rewrite (bind_Ok _ _ _ _ _ G). reflexivity. }
  split; [exact E|]. rewrite E. exact G.
Qed.

(** Deleting the cluster [ghost] next to the cluster [c]. *)
Lemma delete_ghost_is_noop :
  DeleteCluster (demoDeps neverFails) (nameCtx false "ghost") clusterC
  = (Ok tt, clusterC) /\
  getClusters false "ghost"
    (snd (DeleteCluster (demoDeps neverFails) (nameCtx false "ghost") clusterC))
  = (Ok [], clusterC).
Proof.
  apply (delete_absent_cluster_is_noop (demoDeps neverFails)
           (nameCtx false "ghost") clusterC).
  reflexivity.
Defined.

(** ** Computations that only query the runtime *)

Lemma sameResources_refl w : sameResources w w.
Proof. repeat split. Qed.

Lemma sameResources_trans w1 w2 w3 :
  sameResources w1 w2 -> sameResources w2 w3 -> sameResources w1 w3.
Proof.
  intros (A1 & A2 & A3 & A4 & A5) (B1 & B2 & B3 & B4 & B5).
  repeat split; congruence.
Qed.

Lemma createdConfigs_app l1 l2 :
  createdConfigs (l1 ++ l2) = createdConfigs l1 ++ createdConfigs l2.
Proof. unfold createdConfigs. apply flat_map_app. Qed.

Lemma ReadOnly_ret {A} (a : A) : ReadOnly (ret a).
Proof. intros w. apply sameResources_refl. Qed.

Lemma ReadOnly_fail {A} e : ReadOnly (@fail A e).
Proof. intros w. apply sameResources_refl. Qed.

Lemma ReadOnly_lift {A} (r : Res A) : ReadOnly (lift r).
Proof. intros w. apply sameResources_refl. Qed.

Lemma ReadOnly_get : ReadOnly get.
Proof. intros w. apply sameResources_refl. Qed.

Lemma ReadOnly_logLine l : ReadOnly (logLine l).
Proof. intros w. repeat split. Qed.

Lemma ReadOnly_attempt D c :
  createdConfigs [c] = [] -> ReadOnly (attempt D c).
Proof.
  intros H w. unfold attempt.
  destruct (oracle D (calls w) c); simpl; repeat split; simpl;
    rewrite createdConfigs_app, H; apply app_nil_r.
Qed.

Lemma ReadOnly_bind {A B} (m : M A) (k : A -> M B) :
  ReadOnly m -> (forall a, ReadOnly (k a)) -> ReadOnly (bind m k).
Proof.
  intros Hm Hk w. unfold bind. specialize (Hm w).
  destruct (m w) as [[a|e| |] w1]; simpl in *; try exact Hm.
  eapply sameResources_trans; [exact Hm | apply Hk].
Qed.

Lemma ReadOnly_try {A} (m : M A) (h : Error -> M A) :
  ReadOnly m -> (forall e, ReadOnly (h e)) -> ReadOnly (try m h).
Proof.
  intros Hm Hh w. unfold try. specialize (Hm w).
  destruct (m w) as [[a|e| |] w1]; simpl in *; try exact Hm.
  eapply sameResources_trans; [exact Hm | apply Hh].
Qed.

Create HintDb readonly.

#[local] Hint Resolve ReadOnly_ret ReadOnly_fail ReadOnly_lift ReadOnly_get
  ReadOnly_logLine ReadOnly_attempt ReadOnly_bind ReadOnly_try : readonly.

#[local] Hint Extern 1 (ReadOnly (match ?x with _ => _ end)) =>
  destruct x : readonly.

#[local] Hint Extern 1 (createdConfigs _ = []) => reflexivity : readonly.

Lemma ReadOnly_ContainerListM D flt all : ReadOnly (ContainerListM D flt all).
Proof. unfold ContainerListM. auto 10 with readonly. Qed.

Lemma ReadOnly_ContainerInspectM D id : ReadOnly (ContainerInspectM D id).
Proof. unfold ContainerInspectM. auto 10 with readonly. Qed.

Lemma ReadOnly_NetworkListM D flt : ReadOnly (NetworkListM D flt).
Proof. unfold NetworkListM. auto 10 with readonly. Qed.

#[local] Hint Resolve ReadOnly_ContainerListM ReadOnly_ContainerInspectM
  ReadOnly_NetworkListM : readonly.

Lemma ReadOnly_locateServer D n : ReadOnly (locateServer D n).
Proof. unfold locateServer. auto 10 with readonly. Qed.

Lemma ReadOnly_findNetwork D n : ReadOnly (findNetwork D n).
Proof. unfold findNetwork. auto 10 with readonly. Qed.

#[local] Hint Resolve ReadOnly_locateServer ReadOnly_findNetwork : readonly.

Lemma ReadOnly_joinPrelude D n : ReadOnly (joinPrelude D n).
Proof. unfold joinPrelude. auto 10 with readonly. Qed.

Lemma ReadOnly_highestWorkerSuffix D n role :
  ReadOnly (highestWorkerSuffix D n role).
Proof. unfold highestWorkerSuffix. auto 10 with readonly. Qed.

(** ** The Join Deriver *)

Lemma envKey_secret_nonempty s : envKey s = "K3S_CLUSTER_SECRET" -> s <> "".
Proof. intros H E. subst s. discriminate H. Qed.

Lemma eqb_empty_false s : s <> "" -> String.eqb s "" = false.
Proof. intros H. now apply String.eqb_neq. Qed.

(** [AddNode] stops where its Join Deriver stops, the world as the look-up
    of the server left it. *)
Lemma AddNode_stops_with_deriver D c w sc w1 :
  nodeRoleOf c <> "server" ->
  locateServer D (String_ c "name") w = (Ok sc, w1) ->
  match DeriveJoinConfig sc with
  | Ok _ => True
  | Fail e => AddNode D c w = (Fail e, w1)
  | Panic => AddNode D c w = (Panic, w1)
  | Exit => AddNode D c w = (Exit, w1)
  end.
Proof.
  intros Hrole Hloc. unfold AddNode.
  apply String.eqb_neq in Hrole. rewrite Hrole.
  unfold joinPrelude.
  destruct (DeriveJoinConfig sc) as [j|e| |] eqn:E; [exact I| | |].
  - erewrite bind_Fail; [reflexivity|].
    rewrite (bind_Ok _ _ _ _ _ Hloc). unfold bind, lift. now rewrite E.
  - erewrite bind_Panic; [reflexivity|].
    rewrite (bind_Ok _ _ _ _ _ Hloc). unfold bind, lift. now rewrite E.
  - erewrite bind_Exit; [reflexivity|].
    rewrite (bind_Ok _ _ _ _ _ Hloc). unfold bind, lift. now rewrite E.
Qed.

(** C4. For a server container whose environment has an entry with the key
    K3S_CLUSTER_SECRET and whose command has the flag --https-listen-port
    followed by a port value, the Join Deriver returns that entry as it
    stands and the URL made of the container's own name and that port (the
    last such entry, and the value after the last such flag, when there are
    several).  Without an entry with that key, or without the flag, it
    returns an error, and then [AddNode] returns that error and creates no
    node. *)
Theorem join_deriver_reuses_secret_and_port (sc : Container) :
  (forall pre s post cpre p cpost,
     Env sc = pre ++ s :: post ->
     envKey s = "K3S_CLUSTER_SECRET" ->
     (forall e, In e post -> envKey e <> "K3S_CLUSTER_SECRET") ->
     Cmd sc = cpre ++ "--https-listen-port" :: p :: cpost ->
     ~ In "--https-listen-port" (p :: cpost) ->
     p <> "" ->
     DeriveJoinConfig sc =
     Ok (s, ("K3S_URL=https://" ++ Name sc ++ ":" ++ p)%string)) /\
  ((forall e, In e (Env sc) -> envKey e <> "K3S_CLUSTER_SECRET") ->
   DeriveJoinConfig sc = Fail NoClusterSecret) /\
  (~ In "--https-listen-port" (Cmd sc) ->
   DeriveJoinConfig sc = Fail NoClusterSecret \/
   DeriveJoinConfig sc = Fail NoListenPort) /\
  (forall D c w w1 e,
     nodeRoleOf c <> "server" ->
     locateServer D (String_ c "name") w = (Ok sc, w1) ->
     DeriveJoinConfig sc = Fail e ->
     AddNode D c w = (Fail e, w1) /\
     containers w1 = containers w /\
     createdConfigs (calls w1) = createdConfigs (calls w)).
Proof.
  repeat split.
  - intros pre s post cpre p cpost HE Hs Hpost HC Hflag Hp.
    unfold DeriveJoinConfig. rewrite HE, HC.
    rewrite (scanClusterSecret_last pre s post Hs Hpost).
    rewrite (eqb_empty_false s (envKey_secret_nonempty s Hs)).
    rewrite (scanListenPort_last cpre p cpost Hflag).
    now rewrite (eqb_empty_false p Hp).
  - intros H. unfold DeriveJoinConfig.
    now rewrite (scanClusterSecret_absent (Env sc) H).
  - intros H. unfold DeriveJoinConfig.
    destruct (String.eqb (scanClusterSecret (Env sc)) ""); [now left|].
    unfold scanListenPort.
    rewrite (scanListenPortFrom_absent (Cmd sc) 0 (Cmd sc) "" H).
    now right.
  - pose proof (AddNode_stops_with_deriver D c w sc w1 H H0) as HA.
    now rewrite H1 in HA.
  - pose proof (ReadOnly_locateServer D (String_ c "name") w) as R.
    rewrite H0 in R. apply R.
  - pose proof (ReadOnly_locateServer D (String_ c "name") w) as R.
    rewrite H0 in R. apply R.
Qed.

(** The server of the cluster [c]: the secret entry [K3S_CLUSTER_SECRET=abc]
    and port 6443 give that entry and the URL of [c-server] on port 6443;
    a server without the secret and without the flag gives an error, and
    stops [AddNode] before any node is created. *)
Lemma join_deriver_on_cluster_c :
  DeriveJoinConfig cServer =
    Ok ("K3S_CLUSTER_SECRET=abc", "K3S_URL=https://c-server:6443") /\
  DeriveJoinConfig bareServer = Fail NoClusterSecret /\
  (DeriveJoinConfig bareServer = Fail NoClusterSecret \/
   DeriveJoinConfig bareServer = Fail NoListenPort) /\
  fst (AddNode (demoDeps neverFails) (addNodeCtx "c" "worker" 2) bareWorld)
    = Fail NoClusterSecret.
Proof.
  destruct (join_deriver_reuses_secret_and_port cServer) as (Hok & _).
  destruct (join_deriver_reuses_secret_and_port bareServer)
    as (_ & Hsecret & Hflag & Hadd).
  assert (E : DeriveJoinConfig bareServer = Fail NoClusterSecret).
  { apply Hsecret. intros e []. }
  split; [|split; [|split]].
  - apply (Hok [] "K3S_CLUSTER_SECRET=abc" [] ["server"] "6443" []);
      try reflexivity.
    + intros e [].
    + intros [H|[]]. discriminate H.
    + discriminate.
  - exact E.
  - apply Hflag. intros [H|[]]. discriminate H.
  - destruct (Hadd (demoDeps neverFails) (addNodeCtx "c" "worker" 2) bareWorld
                (record (ContainerInspect "c-server")
                   (record (ContainerList (serverFilters "c") false)
                      (record NewClient bareWorld)))
                NoClusterSecret) as (HA & _).
    + discriminate.
    + reflexivity.
    + exact E.
    + now rewrite HA.
Defined.

(** C9. When the command of the server container ends with the flag
    --https-listen-port, the scan of [AddNode] reads the element after the
    flag, one past the end of the command: the read is not guarded, the
    scan panics instead of reaching the missing-port error, and so does
    [AddNode]. *)
Theorem listen_port_flag_at_end_panics (pre : list string) :
  nth_error (pre ++ ["--https-listen-port"]) (List.length pre + 1) = None /\
  scanListenPort (pre ++ ["--https-listen-port"]) = Panic /\
  (forall sc D c w w1,
     Cmd sc = pre ++ ["--https-listen-port"] ->
     scanClusterSecret (Env sc) <> "" ->
     nodeRoleOf c <> "server" ->
     locateServer D (String_ c "name") w = (Ok sc, w1) ->
     DeriveJoinConfig sc = Panic /\ AddNode D c w = (Panic, w1)).
Proof.
  assert (S : scanListenPort (pre ++ ["--https-listen-port"]) = Panic).
  { unfold scanListenPort.
    apply (scanListenPortFrom_flag_last pre [] ""). }
  split; [|split].
  - apply nth_error_None. rewrite length_app. simpl. lia.
  - exact S.
  - intros sc D c w w1 HC Hs Hrole Hloc.
    assert (E : DeriveJoinConfig sc = Panic).
    { unfold DeriveJoinConfig. rewrite (eqb_empty_false _ Hs), HC, S.
      reflexivity. }
    split; [exact E|].
    pose proof (AddNode_stops_with_deriver D c w sc w1 Hrole Hloc) as HA.
    now rewrite E in HA.
Qed.

(** Adding a worker to a cluster whose server was started with the command
    [server --https-listen-port]. *)
Lemma add_node_panics_on_truncated_command :
  DeriveJoinConfig truncatedServer = Panic /\
  fst (AddNode (demoDeps neverFails) (addNodeCtx "c" "worker" 1) truncatedWorld)
    = Panic.
Proof.
  destruct (listen_port_flag_at_end_panics ["server"]) as (_ & _ & H).
  destruct (H truncatedServer (demoDeps neverFails)
              (addNodeCtx "c" "worker" 1) truncatedWorld
              (record (ContainerInspect "c-server")
                 (record (ContainerList (serverFilters "c") false)
                    (record NewClient truncatedWorld))))
    as (E & HA).
  - reflexivity.
  - discriminate.
  - discriminate.
  - reflexivity.
  - split; [exact E | now rewrite HA].
Defined.

(** ** Creating containers *)

Lemma createContainer_spec D config w :
  createdConfigs (calls (snd (createContainer D config w))) =
    createdConfigs (calls w) ++ [config] /\
  (fst (createContainer D config w) = Ok (ID config) \/
   exists e, fst (createContainer D config w) = Fail e).
Proof.
  unfold createContainer, bind, attempt, get, modify, fail, ret.
  destruct (oracle D (calls w) (ContainerCreate config)); simpl.
  { rewrite createdConfigs_app. eauto. }
  destruct (existsb _ (containers w)); simpl.
  { rewrite createdConfigs_app. eauto. }
  destruct (oracle D _ (ContainerStart (ID config))); simpl;
    rewrite !createdConfigs_app; simpl; rewrite app_nil_r; eauto.
Qed.

(** The calls of a loop that creates one worker per ordinal and leaves at the
    first failure: the workers of the ordinals up to the failing one; those
    of all the ordinals when the loop ends normally. *)
Lemma forEach_create_spec D spec (body : Z -> M unit) :
  (forall i w,
     match createWorker D spec i w with
     | (Ok _, w1) => body i w = (Ok tt, w1)
     | (Fail e, w1) =>
         fst (body i w) <> Ok tt /\
         createdConfigs (calls (snd (body i w))) = createdConfigs (calls w1)
     | _ => False
     end) ->
  forall l w,
    exists k,
      createdConfigs (calls (snd (forEach body l w))) =
        createdConfigs (calls w) ++ map (workerConfig spec) (firstn k l) /\
      (fst (forEach body l w) = Ok tt -> firstn k l = l).
Proof.
  intros Hbody l. induction l as [|i l IH]; intros w.
  - exists 0%nat. simpl. rewrite app_nil_r. auto.
  - specialize (Hbody i w). rewrite forEach_cons.
    destruct (createContainer_spec D (workerConfig spec i) w) as [Hc Hr].
    fold (createWorker D spec i) in Hc, Hr.
    destruct (createWorker D spec i w) as [[id|e| |] w1]; simpl in Hc, Hr;
      try contradiction.
    + rewrite Hbody. destruct (IH w1) as (k & Hk & Hok).
      exists (S k). simpl. rewrite Hk, Hc, <- app_assoc. split; [reflexivity|].
      intros H. now rewrite (Hok H).
    + destruct Hbody as [Hne Hsame].
      exists 1%nat.
      destruct (body i w) as [[[]|e'| |] w2]; simpl in *;
        try (now contradiction Hne);
        (split; [now rewrite Hsame, Hc | discriminate]).
Qed.

Lemma addWorker_body D role spec i w :
  match createWorker D spec i w with
  | (Ok _, w1) => addWorker D role spec i w = (Ok tt, w1)
  | (Fail e, w1) =>
      fst (addWorker D role spec i w) <> Ok tt /\
      createdConfigs (calls (snd (addWorker D role spec i w))) =
        createdConfigs (calls w1)
  | _ => False
  end.
Proof.
  destruct (createContainer_spec D (workerConfig spec i) w) as [_ Hr].
  fold (createWorker D spec i) in Hr.
  unfold addWorker, bind, try, fail, ret.
  destruct (createWorker D spec i w) as [[id|e| |] w1]; simpl in *.
  - reflexivity.
  - split; [discriminate | reflexivity].
  - destruct Hr as [H|[e H]]; discriminate H.
  - destruct Hr as [H|[e H]]; discriminate H.
Qed.

(** ** Worker suffixes *)

Lemma digit_nonneg c d : digit c = Some d -> 0 <= d.
Proof.
  unfold digit. destruct (_ && _) eqn:E; [|discriminate].
  intros [= <-]. apply andb_true_iff in E. lia.
Qed.

Lemma digits_nonneg s : forall acc v, 0 <= acc -> digits s acc = inl v -> 0 <= v.
Proof.
  induction s as [|c s IH]; cbn [digits]; intros acc v Hacc H.
  - now injection H as <-.
  - destruct (digit c) as [d|] eqn:E; [|discriminate].
    destruct (GoInt.MaxUint64 <? 10 * acc + d); [discriminate|].
    apply (IH (10 * acc + d)); [|exact H].
    pose proof (digit_nonneg c d E). lia.
Qed.

(** A field of [Split] does not start with the separator. *)
Lemma Split_field_head s sep : forall f c r,
  In f (Split s sep) -> f = String c r -> c <> sep.
Proof.
  induction s as [|a s IH]; simpl; intros f c r Hin Hf.
  - destruct Hin as [<-|[]]. discriminate.
  - destruct (Ascii.eqb_spec a sep) as [E|E].
    + destruct Hin as [<-|Hin]; [discriminate|]. now apply (IH f c r).
    + destruct (Split s sep) as [|h t] eqn:ES.
      * destruct Hin as [<-|[]]. now injection Hf as <- _.
      * destruct Hin as [<-|Hin].
        -- now injection Hf as <- _.
        -- apply (IH f c r); [now right | exact Hf].
Qed.

Lemma lastField_In nm : In (lastField nm) (Split nm "-").
Proof.
  unfold lastField. apply nth_In.
  pose proof (Split_nonempty nm "-"). destruct (Split nm "-"); [contradiction|].
  simpl. lia.
Qed.

(** The suffix read off a name is never negative: the field after the last
    [-] has no sign of its own. *)
Lemma suffixOf_nonneg x z : suffixOf x = inl z -> 0 <= z.
Proof.
  unfold suffixOf. pose proof (lastField_In (Name x)) as Hin.
  remember (lastField (Name x)) as f eqn:Ef. clear Ef.
  unfold Atoi. destruct f as [|c r]; [discriminate|].
  pose proof (Split_field_head (Name x) "-" (String c r) c r Hin eq_refl) as Hc.
  assert (G : forall body,
    match body with
    | "" => inr ErrSyntax
    | String _ _ =>
        match digits body 0 with
        | inl v => if GoInt.inRange v then inl v else inr ErrRange
        | inr err => inr err
        end
    end = inl z -> 0 <= z).
  { intros body. destruct body as [|c' r']; [discriminate|].
    destruct (digits (String c' r') 0) as [v|err] eqn:Ed; [|discriminate].
    destruct (GoInt.inRange v); [|discriminate].
    intros [= <-]. apply (digits_nonneg (String c' r') 0 v); [lia | exact Ed]. }
  destruct c as [[] [] [] [] [] [] [] []];
    try (match goal with
         | |- context [digits (String ?a r) 0] => exact (G (String a r))
         end);
    try (exact (G r)).
  exfalso. now apply Hc.
Qed.

Lemma scanWorkerSuffixes_cons x ws h0 :
  scanWorkerSuffixes (x :: ws) h0 =
  match suffixOf x with
  | inr err => inr err
  | inl z => scanWorkerSuffixes ws (if h0 <? z then z else h0)
  end.
Proof. reflexivity. Qed.

(** When the scan ends normally its result bounds its start value and every
    suffix, and is the start value or one of the suffixes. *)
Lemma scanWorkerSuffixes_ok ws : forall h0 h,
  scanWorkerSuffixes ws h0 = inl h ->
  h0 <= h /\
  (forall x, In x ws -> exists z, suffixOf x = inl z /\ z <= h) /\
  (h = h0 \/ exists x, In x ws /\ suffixOf x = inl h).
Proof.
  induction ws as [|x ws IH]; intros h0 h H.
  - simpl in H. injection H as <-. split; [lia|]. split; [intros x []|now left].
  - rewrite scanWorkerSuffixes_cons in H.
    destruct (suffixOf x) as [z|err] eqn:Ex; [|discriminate].
    destruct (IH _ _ H) as (Hle & Hall & Hin).
    assert (Hz : h0 <= h /\ z <= h) by (destruct (Z.ltb_spec h0 z); lia).
    split; [lia|]. split.
    + intros y [<-|Hy]; [exists z; split; [exact Ex | lia] | now apply Hall].
    + destruct Hin as [E|(y & Hy & Ey)].
      * destruct (Z.ltb_spec h0 z); [|now left].
        right. exists x. split; [now left | congruence].
      * right. exists y. split; [now right | exact Ey].
Qed.

(** The scan fails exactly when some worker name has no numeric suffix, with
    the error of the first such name. *)
Lemma scanWorkerSuffixes_err ws : forall h0,
  (exists x e0, In x ws /\ suffixOf x = inr e0) <->
  (exists err, scanWorkerSuffixes ws h0 = inr err).
Proof.
  induction ws as [|x ws IH]; intros h0.
  - split; [intros (x & e0 & [] & _) | intros (err & H); discriminate H].
  - rewrite scanWorkerSuffixes_cons.
    destruct (suffixOf x) as [z|err] eqn:Ex.
    + rewrite <- IH. split.
      * intros (y & e0 & [<-|Hy] & Ey); [congruence|]. now exists y, e0.
      * intros (y & e0 & Hy & Ey). exists y, e0. split; [now right | exact Ey].
    + split; [intros _; now exists err|].
      intros _. exists x, err. split; [now left | exact Ex].
Qed.

Lemma intRange_shift lo n :
  0 <= n -> intRange lo (lo + n) = map (fun k => lo + Z.of_nat k) (seq 0 (Z.to_nat n)).
Proof. intros H. unfold intRange. now replace (lo + n - lo) with n by lia. Qed.

(** The ordinals of the new workers, when they fit the [int]. *)
Lemma newSuffixes_in_range h n :
  0 <= h -> 0 <= n -> h + n < GoInt.MaxInt ->
  newSuffixes h n = map (fun k => h + 1 + Z.of_nat k) (seq 0 (Z.to_nat n)).
Proof.
  intros Hh Hn Hfit. unfold newSuffixes, GoInt.add.
  assert (B : GoInt.MinInt <= 0 /\ 1 <= GoInt.MaxInt)
    by (split; intros H; vm_compute in H; discriminate H).
  destruct (Z.eq_dec n 0) as [->|Hn0].
  - rewrite Z.add_0_l. unfold intRange.
    rewrite (wrap_small 1) by lia.
    replace (1 + h) with (h + 1) by lia. now rewrite Z.sub_diag.
  - rewrite (wrap_small (h + 1)) by lia.
    rewrite (wrap_small (n + 1)) by lia.
    rewrite (wrap_small (n + 1 + h)) by lia.
    replace (n + 1 + h) with (h + 1 + n) by lia.
    now apply intRange_shift.
Qed.

Lemma intRange_lower lo hi i : In i (intRange lo hi) -> lo <= i < hi.
Proof.
  unfold intRange. rewrite in_map_iff. intros (k & <- & Hk).
  apply in_seq in Hk. lia.
Qed.

Example newSuffixes_after_gap : newSuffixes 2 2 = [3; 4].
Proof. reflexivity. Qed.

Example newSuffixes_fresh : newSuffixes 0 3 = [1; 2; 3].
Proof. reflexivity. Qed.

(** ** Runs of [AddNode] *)

Lemma ContainerListM_workers D nm w :
  ContainerListM D (workerFilters nm) true w =
  if oracle D (calls w) (ContainerList (workerFilters nm) true)
  then (Fail (RuntimeError (ContainerList (workerFilters nm) true)),
        record (ContainerList (workerFilters nm) true) w)
  else (Ok (workersOf nm w), record (ContainerList (workerFilters nm) true) w).
Proof.
  unfold ContainerListM, bind, attempt, get, ret.
  destruct (oracle D (calls w) _); [reflexivity|]. simpl.
  unfold workersOf. simpl. f_equal. f_equal.
  apply filter_ext. intros x. now rewrite andb_true_r.
Qed.

Lemma highestWorkerSuffix_agent D nm w :
  highestWorkerSuffix D nm "agent" w =
  if oracle D (calls w) (ContainerList (workerFilters nm) true)
  then (Fail (CouldntListWorkers
                (RuntimeError (ContainerList (workerFilters nm) true))),
        record (ContainerList (workerFilters nm) true) w)
  else match scanWorkerSuffixes (workersOf nm w) 0 with
       | inr err => (Fail (HighestSuffixFailed err),
                     record (ContainerList (workerFilters nm) true) w)
       | inl h => (Ok h, record (ContainerList (workerFilters nm) true) w)
       end.
Proof.
  unfold highestWorkerSuffix.
  change (String.eqb "agent" "agent") with true. cbv iota.
  unfold bind, try. cbv beta. rewrite ContainerListM_workers.
  destruct (oracle D (calls w) _); [reflexivity|].
  destruct (scanWorkerSuffixes (workersOf nm w) 0); reflexivity.
Qed.

Lemma workersOf_same nm w w' :
  containers w' = containers w -> workersOf nm w' = workersOf nm w.
Proof. unfold workersOf. now intros ->. Qed.

Lemma AddNode_agent D c w :
  nodeRoleOf c = "agent" ->
  AddNode D c w =
  (prelude <- joinPrelude D (String_ c "name") ;;
   h <- highestWorkerSuffix D (String_ c "name") "agent" ;;
   forEach (addWorker D "agent"
              (joinSpec (String_ c "name") (withRegistry (String_ c "image"))
                        (snd prelude)))
           (newSuffixes h (Int_ c "count"))) w.
Proof. intros H. unfold AddNode. rewrite H. reflexivity. Qed.

Lemma record_sameResources call w :
  createdConfigs [call] = [] -> sameResources w (record call w).
Proof.
  intros H. repeat split. simpl. rewrite createdConfigs_app, H.
  apply app_nil_r.
Qed.

(** What a run of [AddNode] for workers does, step by step. *)
Lemma AddNode_agent_run D c w :
  nodeRoleOf c = "agent" ->
  let nm := String_ c "name" in
  let L := ContainerList (workerFilters nm) true in
  match joinPrelude D nm w with
  | (Ok prelude, w1) =>
      sameResources w w1 /\
      if oracle D (calls w1) L
      then AddNode D c w =
           (Fail (CouldntListWorkers (RuntimeError L)), record L w1)
      else match scanWorkerSuffixes (workersOf nm w) 0 with
           | inr err =>
               AddNode D c w = (Fail (HighestSuffixFailed err), record L w1)
           | inl h =>
               AddNode D c w =
               forEach (addWorker D "agent"
                          (joinSpec nm (withRegistry (String_ c "image"))
                                    (snd prelude)))
                       (newSuffixes h (Int_ c "count")) (record L w1)
           end
  | (_, w1) => sameResources w w1 /\ fst (AddNode D c w) <> Ok tt /\
               snd (AddNode D c w) = w1
  end.
Proof.
  intros Hrole nm L. rewrite (AddNode_agent D c w Hrole). fold nm.
  pose proof (ReadOnly_joinPrelude D nm w) as R.
  destruct (joinPrelude D nm w) as [[prelude|e| |] w1] eqn:EP; simpl in R.
  - split; [exact R|]. rewrite (bind_Ok _ _ _ _ _ EP).
    unfold bind. rewrite highestWorkerSuffix_agent. fold L.
    destruct R as (Rc & _).
    rewrite (workersOf_same nm w w1 Rc).
    destruct (oracle D (calls w1) L); [reflexivity|].
    destruct (scanWorkerSuffixes (workersOf nm w) 0); reflexivity.
  - rewrite (bind_Fail _ _ _ _ _ EP). repeat split; try apply R. discriminate.
  - rewrite (bind_Panic _ _ _ _ EP). repeat split; try apply R. discriminate.
  - rewrite (bind_Exit _ _ _ _ EP). repeat split; try apply R. discriminate.
Qed.

Lemma addWorker_loop_created D role spec l w :
  exists k,
    createdConfigs (calls (snd (forEach (addWorker D role spec) l w))) =
      createdConfigs (calls w) ++ map (workerConfig spec) (firstn k l) /\
    (fst (forEach (addWorker D role spec) l w) = Ok tt -> firstn k l = l).
Proof.
  apply (forEach_create_spec D). intros i w0. apply addWorker_body.
Qed.

(** A run of [AddNode] that ends normally has read the highest suffix and
    has asked for the workers of all the new ordinals, in order. *)
Lemma AddNode_agent_success D c w w' :
  nodeRoleOf c = "agent" ->
  AddNode D c w = (Ok tt, w') ->
  exists h,
    scanWorkerSuffixes (workersOf (String_ c "name") w) 0 = inl h /\
    createdNames (calls w') =
      createdNames (calls w) ++
      map (workerName (String_ c "name")) (newSuffixes h (Int_ c "count")).
Proof.
  intros Hrole Hrun. pose proof (AddNode_agent_run D c w Hrole) as R.
  cbv zeta in R.
  destruct (joinPrelude D (String_ c "name") w) as [[prelude|e| |] w1];
    try (destruct R as (_ & Hne & _); rewrite Hrun in Hne; now contradiction Hne).
  destruct R as (Rs & R).
  destruct (oracle D (calls w1) _); [rewrite Hrun in R; discriminate R|].
  destruct (scanWorkerSuffixes (workersOf (String_ c "name") w) 0) as [h|err];
    [|rewrite Hrun in R; discriminate R].
  exists h. split; [reflexivity|].
  destruct (addWorker_loop_created D "agent"
              (joinSpec (String_ c "name") (withRegistry (String_ c "image"))
                        (snd prelude))
              (newSuffixes h (Int_ c "count"))
              (record (ContainerList (workerFilters (String_ c "name")) true) w1))
    as (k & Hk & Hfull).
  rewrite <- R, Hrun in Hk, Hfull. simpl in Hk, Hfull.
  rewrite (Hfull eq_refl) in Hk.
  unfold createdNames. rewrite Hk, createdConfigs_app. simpl.
  rewrite app_nil_r. destruct Rs as (_ & _ & _ & _ & ->).
  rewrite map_app, map_map. reflexivity.
Qed.

(** A run of [AddNode] that meets a worker name without a numeric suffix
    creates nothing and does not end normally. *)
Lemma AddNode_agent_parse_error D c w err :
  nodeRoleOf c = "agent" ->
  scanWorkerSuffixes (workersOf (String_ c "name") w) 0 = inr err ->
  fst (AddNode D c w) <> Ok tt /\
  sameResources w (snd (AddNode D c w)) /\
  (forall prelude w1,
     joinPrelude D (String_ c "name") w = (Ok prelude, w1) ->
     oracle D (calls w1) (ContainerList (workerFilters (String_ c "name")) true)
       = false ->
     AddNode D c w =
     (Fail (HighestSuffixFailed err),
      record (ContainerList (workerFilters (String_ c "name")) true) w1)).
Proof.
  intros Hrole Hscan. pose proof (AddNode_agent_run D c w Hrole) as R.
  cbv zeta in R. rewrite Hscan in R.
  destruct (joinPrelude D (String_ c "name") w) as [[prelude|e| |] w1];
    try (destruct R as (Rs & Hne & <-); repeat split; try apply Rs;
         try exact Hne; intros ? ? [=]).
  destruct R as (Rs & R).
  assert (Rr : sameResources w
                 (record (ContainerList (workerFilters (String_ c "name")) true) w1)).
  { eapply sameResources_trans; [exact Rs|].
    now apply record_sameResources. }
  destruct (oracle D (calls w1) _) eqn:EO; rewrite R; simpl.
  - split; [discriminate|]. split; [exact Rr|]. intros p w2 [= <- <-].
    rewrite EO. discriminate.
  - split; [discriminate|]. split; [exact Rr|]. intros p w2 [= <- <-] _.
    reflexivity.
Qed.

(** C3. [AddNode] of [count] workers onto a cluster whose worker names end
    with numbers: the highest suffix it reads is the maximum of the existing
    suffixes, and a run that ends normally has asked for the workers with
    the ordinals highest+1, .., highest+count, in order (as long as these fit
    the [int]), so an ordinal in a gap below the highest is not used again.
    When some existing worker name has no numeric suffix, [AddNode] creates
    no node and returns the parse error. *)
Theorem add_node_continues_after_highest_suffix
  (D : Deps) (c : Context) (w : World) (Hrole : nodeRoleOf c = "agent") :
  let nm := String_ c "name" in
  let count := Int_ c "count" in
  let existing := workersOf nm w in
  (forall w',
     AddNode D c w = (Ok tt, w') ->
     exists h,
       scanWorkerSuffixes existing 0 = inl h /\
       createdNames (calls w') =
         createdNames (calls w) ++ map (workerName nm) (newSuffixes h count)) /\
  (forall h,
     scanWorkerSuffixes existing 0 = inl h ->
     (forall x, In x existing -> exists z, suffixOf x = inl z /\ z <= h) /\
     (existing <> [] -> exists x, In x existing /\ suffixOf x = inl h) /\
     (0 <= count -> h + count < GoInt.MaxInt ->
      newSuffixes h count =
        map (fun k => h + 1 + Z.of_nat k) (seq 0 (Z.to_nat count)))) /\
  (forall x e0,
     In x existing -> suffixOf x = inr e0 ->
     exists err,
       scanWorkerSuffixes existing 0 = inr err /\
       fst (AddNode D c w) <> Ok tt /\
       containers (snd (AddNode D c w)) = containers w /\
       createdConfigs (calls (snd (AddNode D c w))) = createdConfigs (calls w) /\
       (forall prelude w1,
          joinPrelude D nm w = (Ok prelude, w1) ->
          oracle D (calls w1) (ContainerList (workerFilters nm) true) = false ->
          AddNode D c w =
          (Fail (HighestSuffixFailed err),
           record (ContainerList (workerFilters nm) true) w1))).
Proof.
  intros nm count existing. split; [|split].
  - intros w' Hrun. exact (AddNode_agent_success D c w w' Hrole Hrun).
  - intros h Hscan.
    destruct (scanWorkerSuffixes_ok existing 0 h Hscan) as (Hh & Hall & Hin).
    split; [exact Hall|]. split.
    + intros Hne. destruct Hin as [->|Hin]; [|exact Hin].
      destruct existing as [|x l] eqn:E; [contradiction|].
      exists x. split; [now left|].
      destruct (Hall x (or_introl eq_refl)) as (z & Hz & Hle).
      pose proof (suffixOf_nonneg x z Hz). rewrite Hz. f_equal. lia.
    + intros Hc Hfit. now apply newSuffixes_in_range.
  - intros x e0 Hx Hbad.
    destruct (proj1 (scanWorkerSuffixes_err existing 0)) as (err & Herr).
    { now exists x, e0. }
    exists err. split; [exact Herr|].
    destruct (AddNode_agent_parse_error D c w err Hrole Herr)
      as (Hne & (Hc & _ & _ & _ & Hcr) & Hfail).
    repeat split; assumption.
Qed.

(** The example of the specification: with the workers [c-worker-0] and
    [c-worker-2], adding two workers asks for [c-worker-3] and [c-worker-4];
    and with a worker named [c-worker-x] nothing is created. *)
Lemma add_two_workers_after_gap :
  createdNames
    (calls (snd (AddNode (demoDeps neverFails) (addNodeCtx "c" "worker" 2)
                         clusterC)))
    = ["c-worker-3"; "c-worker-4"] /\
  newSuffixes 2 2 = [3; 4] /\
  fst (AddNode (demoDeps neverFails) (addNodeCtx "c" "worker" 2) oddWorld)
    = Fail (HighestSuffixFailed ErrSyntax) /\
  containers (snd (AddNode (demoDeps neverFails) (addNodeCtx "c" "worker" 2)
                           oddWorld))
    = containers oddWorld.
Proof.
  destruct (add_node_continues_after_highest_suffix (demoDeps neverFails)
              (addNodeCtx "c" "worker" 2) clusterC eq_refl)
    as (Hrun & Hnum & _).
  destruct (add_node_continues_after_highest_suffix (demoDeps neverFails)
              (addNodeCtx "c" "worker" 2) oddWorld eq_refl)
    as (_ & _ & Hbad).
  split; [|split].
  - destruct (Hrun (snd (AddNode (demoDeps neverFails)
                           (addNodeCtx "c" "worker" 2) clusterC)))
      as (h & Hh & Hnames).
    + vm_compute. reflexivity.
    + vm_compute in Hh. injection Hh as <-. rewrite Hnames.
      vm_compute. reflexivity.
  - destruct (Hnum 2) as (_ & _ & Hfit).
    + vm_compute. reflexivity.
    + apply Hfit; [discriminate | reflexivity].
  - destruct (Hbad oddWorker ErrSyntax) as (err & Herr & _ & Hc & _ & Hfail).
    + vm_compute. auto.
    + vm_compute. reflexivity.
    + vm_compute in Herr. injection Herr as <-. split; [|exact Hc].
      rewrite (Hfail (cServer, ("K3S_CLUSTER_SECRET=abc",
                                "K3S_URL=https://c-server:6443"))
                 (record (NetworkList [("cluster", "c"); ("app", "k3d")])
                    (record (ContainerInspect "c-server")
                       (record (ContainerList (serverFilters "c") false)
                          (record NewClient oddWorld)))));
        [reflexivity | vm_compute; reflexivity | reflexivity].
Defined.

Lemma newSuffixes_above h n i :
  0 <= h -> h < GoInt.MaxInt -> In i (newSuffixes h n) -> h + 1 <= i.
Proof.
  intros Hh Hmax Hin. unfold newSuffixes, GoInt.add in Hin.
  assert (B : GoInt.MinInt <= 0)
    by (intros H; vm_compute in H; discriminate H).
  rewrite (wrap_small (h + 1)) in Hin by lia.
  apply intRange_lower in Hin. lia.
Qed.

(** C10. [AddNode] on a cluster without worker containers: the highest
    existing suffix stays at its initial value 0, so the first worker gets
    the ordinal 1 and the name <cluster>-worker-1, while Create numbers its
    workers from 0; whatever the existing workers, no ordinal that [AddNode]
    uses is 0. *)
Theorem add_node_without_workers_starts_at_one
  (D : Deps) (c : Context) (w : World)
  (Hrole : nodeRoleOf c = "agent")
  (Hnone : workersOf (String_ c "name") w = []) :
  let nm := String_ c "name" in
  let count := Int_ c "count" in
  scanWorkerSuffixes (workersOf nm w) 0 = inl 0 /\
  (forall i, In i (newSuffixes 0 count) -> 1 <= i) /\
  (0 < count -> count < GoInt.MaxInt ->
   hd_error (map (workerName nm) (newSuffixes 0 count))
   = Some (nm ++ "-worker-1")%string) /\
  (forall w',
     AddNode D c w = (Ok tt, w') ->
     createdNames (calls w') =
       createdNames (calls w) ++ map (workerName nm) (newSuffixes 0 count)) /\
  (forall c' spec,
     createWorkers D c' spec =
     forEach (bootWorker D c' spec) (intRange 0 (Int_ c' "workers"))) /\
  (forall c',
     0 < Int_ c' "workers" ->
     hd_error (map (workerName (String_ c' "name"))
                   (intRange 0 (Int_ c' "workers")))
     = Some (String_ c' "name" ++ "-worker-0")%string) /\
  (forall w0 h i,
     scanWorkerSuffixes (workersOf nm w0) 0 = inl h ->
     h < GoInt.MaxInt ->
     In i (newSuffixes h count) -> 1 <= i).
Proof.
  intros nm count.
  assert (B : 0 < GoInt.MaxInt) by reflexivity.
  split; [|split; [|split; [|split; [|split; [|split]]]]].
  - unfold nm. rewrite Hnone. reflexivity.
  - intros i Hi.
    pose proof (newSuffixes_above 0 count i (Z.le_refl 0) B Hi). lia.
  - intros Hc Hmax.
    rewrite newSuffixes_in_range by lia.
    destruct (Z.to_nat count) as [|k] eqn:E; [lia|]. reflexivity.
  - intros w' Hrun.
    destruct (AddNode_agent_success D c w w' Hrole Hrun) as (h & Hh & Hn).
    fold nm in Hh, Hn. unfold nm in Hh at 1. rewrite Hnone in Hh.
    injection Hh as <-. exact Hn.
  - reflexivity.
  - intros c' Hn. unfold intRange.
    destruct (Z.to_nat (Int_ c' "workers" - 0)) as [|k] eqn:E; [lia|].
    reflexivity.
  - intros w0 h i Hscan Hmax Hi.
    destruct (scanWorkerSuffixes_ok _ 0 h Hscan) as (H0 & _).
    pose proof (newSuffixes_above h count i H0 Hmax Hi). lia.
Qed.

(** Adding two workers to the cluster [c] when it has its server only; and
    the ordinal 3, used after the workers 0 and 2, is not 0. *)
Lemma add_workers_to_server_only_cluster :
  createdNames
    (calls (snd (AddNode (demoDeps neverFails) (addNodeCtx "c" "worker" 2)
                         serverOnly)))
    = ["c-worker-1"; "c-worker-2"] /\
  hd_error (map (workerName "c") (newSuffixes 0 2)) = Some "c-worker-1" /\
  hd_error (map (workerName "demo") (intRange 0 2)) = Some "demo-worker-0" /\
  1 <= 3.
Proof.
  destruct (add_node_without_workers_starts_at_one (demoDeps neverFails)
              (addNodeCtx "c" "worker" 2) serverOnly eq_refl eq_refl)
    as (_ & _ & Hfirst & Hrun & _ & Hcreate & Hpos).
  split; [|split; [|split]].
  - rewrite (Hrun (snd (AddNode (demoDeps neverFails)
                          (addNodeCtx "c" "worker" 2) serverOnly)));
      vm_compute; reflexivity.
  - exact (Hfirst eq_refl eq_refl).
  - apply (Hcreate (createCtx "demo" 2 [] None)). reflexivity.
  - apply (Hpos clusterC 2 3); [reflexivity | reflexivity |].
    vm_compute. auto.
Defined.

(** ** Runs of [CreateCluster] *)

Lemma createClusterNetwork_spec D nm w :
  createClusterNetwork D nm w =
  if oracle D (calls w) (NetworkCreate nm)
  then (Fail (RuntimeError (NetworkCreate nm)), record (NetworkCreate nm) w)
  else (Ok (k3dNetworkName nm),
        setNetworks (nm :: networks w) (record (NetworkCreate nm) w)).
Proof.
  unfold createClusterNetwork, bind, attempt, modify, ret.
  destruct (oracle D (calls w) _); reflexivity.
Qed.

Lemma createImageVolume_spec D nm w :
  createImageVolume D nm w =
  if oracle D (calls w) (VolumeCreate nm)
  then (Fail (RuntimeError (VolumeCreate nm)), record (VolumeCreate nm) w)
  else (Ok (imageVolumeName nm),
        setVolumes (nm :: volumes w) (record (VolumeCreate nm) w)).
Proof.
  unfold createImageVolume, bind, attempt, modify, ret.
  destruct (oracle D (calls w) _); reflexivity.
Qed.

Lemma CreateCluster_run D c w : stoppedEarly D c w \/ reachedCreation D c w.
Proof.
  unfold stoppedEarly, reachedCreation.
  destruct (CreateCluster D c w) as [r w'] eqn:E. simpl.
  unfold CreateCluster in E.
  destruct (CheckClusterName D (String_ c "name")) eqn:EV; simpl in E.
  2:{ injection E as <- <-. left. split; [discriminate | split; reflexivity]. }
  unfold bind at 1 in E.
  destruct (getClusters false (String_ c "name") w) as [r0 w0] eqn:EG.
  assert (w0 = w) as -> by (unfold getClusters in EG; now injection EG).
  destruct r0 as [[|cl cls]|e| |]; simpl in E;
    try (injection E as <- <-; left;
         split; [discriminate | split; reflexivity]).
  unfold bind at 1 in E. rewrite createClusterNetwork_spec in E.
  destruct (oracle D (calls w) (NetworkCreate _)).
  { injection E as <- <-. left. split; [discriminate | split; [reflexivity|]].
    simpl. rewrite createdConfigs_app. apply app_nil_r. }
  destruct (parseAPIPort D (String_ c "api-port")) as [apiPort0|].
  2:{ injection E as <- <-. left.
      split; [discriminate | split; [reflexivity|]].
      simpl. rewrite createdConfigs_app. apply app_nil_r. }
  set (w1 := setNetworks _ _) in E.
  match type of E with
  | bind ?m _ w1 = _ =>
      assert (HA : exists a wl, m w1 = (Ok a, wl) /\
                     containers wl = containers w1 /\
                     networks wl = networks w1 /\ volumes wl = volumes w1 /\
                     calls wl = calls w1)
  end.
  { destruct (String.eqb (Host apiPort0) ""); [|now eexists _, w1].
    destruct (getDockerMachineIp D) as [ip [|]];
      eexists _, _; (split; [reflexivity|]); repeat split. }
  destruct HA as (apiPort1 & wl & HA & Hc & Hn & Hv & Hcalls).
  rewrite (bind_Ok _ _ _ _ _ HA) in E.
  destruct (mapNodesToPortSpecs D _ _) as [portmap|].
  2:{ injection E as <- <-. left.
      split; [discriminate | split; [exact Hc|]].
      rewrite Hcalls. unfold w1. simpl.
      rewrite createdConfigs_app. apply app_nil_r. }
  unfold bind at 1 in E. rewrite createImageVolume_spec in E.
  destruct (oracle D (calls wl) (VolumeCreate _)).
  { injection E as <- <-. left.
    split; [discriminate | split; [exact Hc|]].
    simpl. rewrite Hcalls. unfold w1. simpl.
    rewrite !createdConfigs_app. simpl. now rewrite !app_nil_r. }
  right.
  match type of E with createNodes D c ?sp ?wv = _ => exists sp, wv end.
  split; [reflexivity|]. split; [reflexivity|].
  split; [reflexivity|]. split; [reflexivity|]. split; [reflexivity|].
  split; [|split; [|split; [|split; [|symmetry; exact E]]]]; simpl.
  - now rewrite Hc.
  - now rewrite Hn.
  - now rewrite Hv.
  - rewrite Hcalls. unfold w1. simpl. now rewrite <- app_assoc.
Qed.

Lemma createContainer_cases D config w :
  let w1 := record (ContainerCreate config) w in
  let w2 := record (ContainerStart (ID config))
                   (setContainers (containers w ++ [config]) w1) in
  createContainer D config w =
  if oracle D (calls w) (ContainerCreate config)
  then (Fail (RuntimeError (ContainerCreate config)), w1)
  else if existsb (fun x => String.eqb (Name x) (Name config)) (containers w)
  then (Fail (NameInUse (Name config)), w1)
  else if oracle D (calls w ++ [ContainerCreate config])
                 (ContainerStart (ID config))
  then (Fail (RuntimeError (ContainerStart (ID config))), w2)
  else (Ok (ID config),
        setContainers
          (map (setRunning (ID config) true) (containers w ++ [config])) w2).
Proof.
  unfold createContainer, bind, attempt, get, modify, fail, ret. simpl.
  destruct (oracle D (calls w) (ContainerCreate config)); [reflexivity|].
  simpl. destruct (existsb _ (containers w)); [reflexivity|]. simpl.
  destruct (oracle D _ (ContainerStart (ID config))); reflexivity.
Qed.

Lemma createContainer_Ok D config w id w' :
  createContainer D config w = (Ok id, w') ->
  id = ID config /\
  calls w' = calls w ++ [ContainerCreate config; ContainerStart (ID config)].
Proof.
  rewrite createContainer_cases. cbv zeta.
  destruct (oracle D (calls w) (ContainerCreate config)); [discriminate|].
  destruct (existsb _ (containers w)); [discriminate|].
  destruct (oracle D _ (ContainerStart (ID config))); [discriminate|].
  intros [= <- <-]. simpl. split; [reflexivity|]. now rewrite <- app_assoc.
Qed.

Lemma try_Ok {A} (m : M A) h w a w' :
  try m h w = (Ok a, w') ->
  (forall e w1, fst (h e w1) <> Ok a) ->
  m w = (Ok a, w').
Proof.
  unfold try. destruct (m w) as [[a0|e| |] w1]; intros H Hh; try exact H.
  exfalso. apply (Hh e w1). now rewrite H.
Qed.

Lemma rollback_then_fail_not_Ok {A} D c (e : Error) (a : A) w :
  fst ((deleteCluster D c ;;; fail e) w) <> Ok a.
Proof.
  unfold bind, fail. destruct (deleteCluster D c w) as [[[]|e'| |] w1];
    discriminate.
Qed.

Lemma bootWorker_Ok D c spec i w w' :
  bootWorker D c spec i w = (Ok tt, w') ->
  calls w' = calls w ++ workerCalls spec [i].
Proof.
  unfold bootWorker, bind at 1. intros H.
  destruct (try (createWorker D spec i) _ w) as [[id|e| |] w1] eqn:E;
    try discriminate H.
  injection H as <-.
  apply try_Ok in E; [|intros; apply rollback_then_fail_not_Ok].
  apply createContainer_Ok in E. destruct E as [_ ->]. reflexivity.
Qed.

Lemma workerCalls_cons spec i l :
  workerCalls spec (i :: l) = workerCalls spec [i] ++ workerCalls spec l.
Proof. reflexivity. Qed.

Lemma createWorkers_loop_Ok D c spec l : forall w w',
  forEach (bootWorker D c spec) l w = (Ok tt, w') ->
  calls w' = calls w ++ workerCalls spec l.
Proof.
  induction l as [|i l IH]; intros w w' H.
  - injection H as <-. simpl. now rewrite app_nil_r.
  - rewrite forEach_cons in H.
    destruct (bootWorker D c spec i w) as [[[]|e| |] w1] eqn:E;
      try discriminate H.
    rewrite (IH _ _ H), (bootWorker_Ok _ _ _ _ _ _ E), workerCalls_cons.
    now rewrite <- app_assoc.
Qed.

Lemma intRange_nonpos lo hi : hi <= lo -> intRange lo hi = [].
Proof.
  intros H. unfold intRange.
  replace (Z.to_nat (hi - lo)) with 0%nat by lia. reflexivity.
Qed.

(** The calls of a run of the CREATION part that ends normally. *)
Lemma createNodes_Ok D c spec w w' :
  createNodes D c spec w = (Ok tt, w') ->
  calls w' =
    calls w ++ [ClusterDirCreate (String_ c "name");
                ContainerCreate (serverConfig spec);
                ContainerStart (ID (serverConfig spec))]
            ++ (if IsSet_ c "wait"
                then [ContainerLogs (ID (serverConfig spec)) "Running kubelet"
                                    (Int_ c "wait")]
                else [])
            ++ workerCalls spec (intRange 0 (Int_ c "workers")).
Proof.
  unfold createNodes. intros H.
  unfold bind at 1 in H. cbn [createClusterDir modify] in H.
  set (w0 := setDirs _ _) in H.
  unfold bind at 1 in H.
  destruct (try (createServer D spec) _ w0) as [[id|e| |] w1] eqn:ES;
    try discriminate H.
  apply try_Ok in ES; [|intros; apply rollback_then_fail_not_Ok].
  apply createContainer_Ok in ES. destruct ES as [-> Hs].
  unfold bind at 1 in H.
  match type of H with
  | match ?m w1 with _ => _ end = _ =>
      destruct (m w1) as [[[]|e| |] w2] eqn:EW; try discriminate H
  end.
  assert (Hw : calls w2 =
               calls w1 ++ (if IsSet_ c "wait"
                            then [ContainerLogs (ID (serverConfig spec))
                                    "Running kubelet" (Int_ c "wait")]
                            else [])).
  { destruct (IsSet_ c "wait").
    - apply try_Ok in EW; [|intros; apply rollback_then_fail_not_Ok].
      unfold waitForContainerLogMessage, attempt in EW.
      destruct (oracle D (calls w1) _); [discriminate|].
      now injection EW as <-.
    - injection EW as <-. now rewrite app_nil_r. }
  unfold bind at 1 in H.
  match type of H with
  | match ?m w2 with _ => _ end = _ =>
      destruct (m w2) as [[[]|e| |] w3] eqn:EL; try discriminate H
  end.
  injection H as <-.
  assert (Hl : calls w3 = calls w2 ++ workerCalls spec (intRange 0 (Int_ c "workers"))).
  { destruct (Z.ltb_spec 0 (Int_ c "workers")).
    - now apply (createWorkers_loop_Ok D c spec).
    - injection EL as <-. rewrite intRange_nonpos by lia.
      simpl. now rewrite app_nil_r. }
  rewrite Hl, Hw, Hs. unfold w0. simpl. now rewrite <- !app_assoc.
Qed.

(** C5, as the code has it.  Create first validates the name: an invalid or
    an already used name is an error before any call is made.  A run that
    ends normally has then (2) created the network, (3) created the image
    volume, whose mount is the last of the spec's volumes, (4) created the
    local cluster directory, (5) created and started the server, (6) waited
    for the "Running kubelet" line of the server when a wait was asked for,
    and (7) created and started the workers of the ordinals 0, .., N-1, in
    this order. *)
Theorem create_steps_in_order (D : Deps) (c : Context) (w : World) :
  let nm := String_ c "name" in
  (CheckClusterName D nm = false ->
   CreateCluster D c w = (Fail (InvalidClusterName nm), w)) /\
  (forall cl cls,
     CheckClusterName D nm = true ->
     getClusters false nm w = (Ok (cl :: cls), w) ->
     CreateCluster D c w = (Fail (ClusterExists nm), w)) /\
  (forall w',
     CreateCluster D c w = (Ok tt, w') ->
     exists spec,
       ClusterName spec = nm /\
       Volumes spec =
         StringSlice_ c "volume" ++ [(imageVolumeName nm ++ ":/images")%string] /\
       calls w' =
         calls w ++ [NetworkCreate nm; VolumeCreate nm; ClusterDirCreate nm;
                     ContainerCreate (serverConfig spec);
                     ContainerStart (ID (serverConfig spec))]
                 ++ (if IsSet_ c "wait"
                     then [ContainerLogs (ID (serverConfig spec))
                             "Running kubelet" (Int_ c "wait")]
                     else [])
                 ++ workerCalls spec (intRange 0 (Int_ c "workers"))).
Proof.
  intros nm. split; [|split].
  - intros H. unfold CreateCluster. fold nm. now rewrite H.
  - intros cl cls HV HG. unfold CreateCluster. fold nm. rewrite HV. simpl.
    now rewrite (bind_Ok _ _ _ _ _ HG).
  - intros w' Hrun.
    destruct (CreateCluster_run D c w) as [(Hne & _)|R].
    { rewrite Hrun in Hne. now contradiction Hne. }
    destruct R as (spec & w1 & _ & _ & Hn & _ & Hv & _ & _ & _ & Hc & HR).
    exists spec. split; [exact Hn|]. split; [exact Hv|].
    rewrite Hrun in HR. symmetry in HR.
    rewrite (createNodes_Ok D c spec w1 w' HR), Hc, <- app_assoc.
    reflexivity.
Qed.

(** Creating the cluster [demo] with two workers and a wait of 30 seconds,
    in a runtime where no call fails. *)
Lemma create_demo_steps :
  createdNames
    (calls (snd (CreateCluster (demoDeps neverFails)
                   (createCtx "demo" 2 [] (Some 30)) emptyWorld)))
  = ["demo-server"; "demo-worker-0"; "demo-worker-1"] /\
  CreateCluster (demoDeps neverFails) (createCtx "c" 2 [] (Some 30)) clusterC
  = (Fail (ClusterExists "c"), clusterC) /\
  CreateCluster (mkDeps neverFails (fun _ => false) (fun _ => None) ("", false)
                        (fun _ _ => None) (fun _ => ""))
                (createCtx "Demo!" 2 [] None) clusterC
  = (Fail (InvalidClusterName "Demo!"), clusterC).
Proof.
  destruct (create_steps_in_order (demoDeps neverFails)
              (createCtx "demo" 2 [] (Some 30)) emptyWorld) as (_ & _ & Hrun).
  destruct (create_steps_in_order (demoDeps neverFails)
              (createCtx "c" 2 [] (Some 30)) clusterC) as (_ & Hdup & _).
  destruct (create_steps_in_order
              (mkDeps neverFails (fun _ => false) (fun _ => None) ("", false)
                      (fun _ _ => None) (fun _ => ""))
              (createCtx "Demo!" 2 [] None) clusterC) as (Hbad & _).
  split; [|split].
  - destruct (Hrun (snd (CreateCluster (demoDeps neverFails)
                           (createCtx "demo" 2 [] (Some 30)) emptyWorld)))
      as (spec & Hn & _ & Hcalls).
    + vm_compute. reflexivity.
    + unfold createdNames. rewrite Hcalls.
      rewrite !createdConfigs_app. simpl.
      unfold serverConfig, workerConfig. rewrite Hn. reflexivity.
  - apply (Hdup clusterCView []); reflexivity.
  - apply Hbad. reflexivity.
Defined.

(** C5, as the specification words it, fails: in the run that creates the
    cluster [demo] with one worker, the local cluster directory is not
    created last; the server and the worker are created after it. *)
Lemma create_directory_is_not_last :
  let w' := snd (CreateCluster (demoDeps neverFails)
                   (createCtx "demo" 1 [] None) emptyWorld) in
  fst (CreateCluster (demoDeps neverFails) (createCtx "demo" 1 [] None)
                     emptyWorld) = Ok tt /\
  last (calls w') NewClient <> ClusterDirCreate "demo" /\
  exists serverCfg workerCfg,
    Name serverCfg = "demo-server" /\
    Name workerCfg = "demo-worker-0" /\
    calls w' =
      [NetworkCreate "demo"; VolumeCreate "demo"; ClusterDirCreate "demo";
       ContainerCreate serverCfg; ContainerStart "demo-server";
       ContainerCreate workerCfg; ContainerStart "demo-worker-0"].
Proof.
  vm_compute. split; [reflexivity|]. split; [discriminate|].
  eexists _, _. split; [|split]; [| |reflexivity]; reflexivity.
Qed.

(** ** The containers a computation asks for *)

Lemma Creates_same P {A} (m : M A) :
  (forall w, createdConfigs (calls (snd (m w))) = createdConfigs (calls w)) ->
  Creates P m.
Proof.
  intros H w. exists []. rewrite app_nil_r. split; [apply H | constructor].
Qed.

Lemma Creates_ReadOnly P {A} (m : M A) : ReadOnly m -> Creates P m.
Proof. intros H. apply Creates_same. intros w. apply (H w). Qed.

Lemma Creates_bind P {A B} (m : M A) (k : A -> M B) :
  Creates P m -> (forall a, Creates P (k a)) -> Creates P (bind m k).
Proof.
  intros Hm Hk w. unfold bind. destruct (Hm w) as (l & Hl & HP).
  destruct (m w) as [[a|e| |] w1]; simpl in *; try (now exists l).
  destruct (Hk a w1) as (l' & Hl' & HP').
  exists (l ++ l'). split; [now rewrite Hl', Hl, <- app_assoc|].
  apply Forall_app. now split.
Qed.

Lemma Creates_try P {A} (m : M A) (h : Error -> M A) :
  Creates P m -> (forall e, Creates P (h e)) -> Creates P (try m h).
Proof.
  intros Hm Hh w. unfold try. destruct (Hm w) as (l & Hl & HP).
  destruct (m w) as [[a|e| |] w1]; simpl in *; try (now exists l).
  destruct (Hh e w1) as (l' & Hl' & HP').
  exists (l ++ l'). split; [now rewrite Hl', Hl, <- app_assoc|].
  apply Forall_app. now split.
Qed.

Lemma Creates_forEach P {A} (body : A -> M unit) (xs : list A) :
  (forall x, Creates P (body x)) -> Creates P (forEach body xs).
Proof.
  intros H. induction xs as [|x xs IH]; simpl.
  - apply Creates_ReadOnly, ReadOnly_ret.
  - apply Creates_bind; [apply H | intros _; exact IH].
Qed.

Lemma Creates_modify P (f : World -> World) :
  (forall w, createdConfigs (calls (f w)) = createdConfigs (calls w)) ->
  Creates P (modify f).
Proof. intros H. apply Creates_same. intros w. apply H. Qed.

Lemma Creates_createContainer (P : Container -> Prop) D config :
  P config -> Creates P (createContainer D config).
Proof.
  intros H w. exists [config].
  split; [apply createContainer_spec | now constructor].
Qed.

Create HintDb creates.

#[local] Hint Resolve Creates_bind Creates_try Creates_forEach
  Creates_createContainer : creates.

#[local] Hint Extern 2 (Creates _ _) =>
  (apply Creates_ReadOnly; solve [auto 10 with readonly]) : creates.

#[local] Hint Extern 1 (Creates _ (match ?x with _ => _ end)) =>
  destruct x : creates.

#[local] Hint Extern 3 (Creates _ (modify _)) =>
  (apply Creates_modify; intros ?; simpl;
   rewrite ?createdConfigs_app; simpl; rewrite ?app_nil_r; reflexivity)
  : creates.

Lemma Creates_removeContainer P D id : Creates P (removeContainer D id).
Proof. unfold removeContainer. auto 10 with creates. Qed.

Lemma Creates_deleteClusterNetwork P D n : Creates P (deleteClusterNetwork D n).
Proof. unfold deleteClusterNetwork. auto 10 with creates. Qed.

Lemma Creates_deleteImageVolume P D n : Creates P (deleteImageVolume D n).
Proof. unfold deleteImageVolume. auto 10 with creates. Qed.

Lemma Creates_deleteClusterDir P n : Creates P (deleteClusterDir n).
Proof. unfold deleteClusterDir. auto 10 with creates. Qed.

Lemma Creates_getClusters P all nm : Creates P (getClusters all nm).
Proof. apply Creates_same. reflexivity. Qed.

#[local] Hint Resolve Creates_removeContainer Creates_deleteClusterNetwork
  Creates_deleteImageVolume Creates_deleteClusterDir Creates_getClusters
  : creates.

(** Delete asks for no container. *)
Lemma Creates_DeleteCluster P D c : Creates P (DeleteCluster D c).
Proof.
  unfold DeleteCluster, deleteOne, forWorkers, removeWorker.
  auto 20 with creates.
Qed.

Lemma Creates_deleteCluster P D c : Creates P (deleteCluster D c).
Proof.
  unfold deleteCluster. pose proof (Creates_DeleteCluster P D c).
  auto 10 with creates.
Qed.

#[local] Hint Resolve Creates_deleteCluster : creates.

(** The CREATION part asks for node containers of its [ClusterSpec] only. *)
Lemma Creates_createNodes D c spec :
  Creates (fun x => x = serverConfig spec \/ exists i, x = workerConfig spec i)
          (createNodes D c spec).
Proof.
  unfold createNodes, createWorkers, bootWorker, createServer, createWorker,
    createClusterDir, waitForContainerLogMessage.
  repeat first
    [ simple apply Creates_createContainer; eauto
    | simple apply Creates_deleteCluster
    | simple apply Creates_bind; [|intros ?]
    | simple apply Creates_try; [|intros ?]
    | simple apply Creates_forEach; intros ?
    | match goal with
      | |- Creates _ (if ?b then _ else _) => destruct b
      end
    | solve [auto 10 with creates] ].
Qed.

Lemma append_same_prefix (p a b : string) :
  (p ++ a)%string = (p ++ b)%string -> a = b.
Proof.
  induction p as [|ch p IH]; simpl; intros H; [exact H|].
  injection H as H. now apply IH.
Qed.

(** A worker is never named as the server. *)
Lemma worker_is_not_server spec i :
  ID (workerConfig spec i) <> ID (serverConfig spec).
Proof.
  unfold workerConfig, serverConfig, GetContainerName. simpl.
  intros H. apply append_same_prefix in H. discriminate H.
Qed.

Lemma serverConfig_Env spec : Env (serverConfig spec) = SpecEnv spec.
Proof. reflexivity. Qed.

(** C2, as the code has it.  The environment of the server container that
    Create asks for is the fixed kubeconfig output-path variable, then the
    user-supplied entries in their order, then the generated cluster-secret
    variable: the secret is the last element, after the user's entries.
    The server is the first container that a Create which ends normally has
    asked for. *)
Theorem create_env_ends_with_secret (D : Deps) (c : Context) (w : World) :
  let env :=
    ["K3S_KUBECONFIG_OUTPUT=/output/kubeconfig.yaml"]
    ++ StringSlice_ c "env"
    ++ [("K3S_CLUSTER_SECRET=" ++ GenerateRandomString D 20)%string] in
  exists l,
    createdConfigs (calls (snd (CreateCluster D c w)))
      = createdConfigs (calls w) ++ l /\
    Forall (fun config =>
              Name config = GetContainerName "server" (String_ c "name") None ->
              Env config = env /\
              last (Env config) "" =
                ("K3S_CLUSTER_SECRET=" ++ GenerateRandomString D 20)%string) l /\
    (fst (CreateCluster D c w) = Ok tt ->
     exists serverCfg rest,
       l = serverCfg :: rest /\
       Name serverCfg = GetContainerName "server" (String_ c "name") None).
Proof.
  intros env.
  destruct (CreateCluster_run D c w) as [(Hne & _ & Hsame)|R].
  { exists []. rewrite app_nil_r. split; [exact Hsame|].
    split; [constructor | intros H; now contradiction Hne]. }
  destruct R as (spec & w1 & _ & _ & Hn & He & _ & _ & _ & _ & Hc & HR).
  rewrite HR.
  destruct (Creates_createNodes D c spec w1) as (l & Hl & HP).
  assert (Hw1 : createdConfigs (calls w1) = createdConfigs (calls w)).
  { rewrite Hc, createdConfigs_app. apply app_nil_r. }
  exists l. split; [now rewrite Hl, Hw1|]. split.
  - eapply Forall_impl; [|exact HP].
    intros x [->|(i & ->)] Hname.
    + rewrite serverConfig_Env, He. split; [reflexivity|].
      fold env. unfold env. rewrite app_assoc. apply last_last.
    + exfalso. apply (worker_is_not_server spec i).
      change (ID (workerConfig spec i)) with (Name (workerConfig spec i)).
      rewrite Hname. unfold serverConfig. simpl. now rewrite Hn.
  - intros Hok.
    destruct (createNodes D c spec w1) as [r w'] eqn:E. simpl in Hok, Hl.
    subst r. pose proof (createNodes_Ok D c spec w1 w' E) as Hcalls.
    rewrite Hcalls, !createdConfigs_app in Hl. simpl in Hl.
    apply app_inv_head in Hl. subst l.
    eexists _, _. split; [reflexivity|].
    unfold serverConfig. simpl. now rewrite Hn.
Qed.

(** Creating the cluster [demo] with the user's entry [FOO=bar]. *)
Lemma create_demo_env :
  map Env
    (createdConfigs
       (calls (snd (CreateCluster (demoDeps neverFails)
                      (createCtx "demo" 0 ["FOO=bar"] None) emptyWorld))))
  = [["K3S_KUBECONFIG_OUTPUT=/output/kubeconfig.yaml"; "FOO=bar";
      "K3S_CLUSTER_SECRET=s3cr3t"]].
Proof.
  destruct (create_env_ends_with_secret (demoDeps neverFails)
              (createCtx "demo" 0 ["FOO=bar"] None) emptyWorld)
    as (l & Hl & HP & Hok).
  destruct Hok as (serverCfg & rest & -> & Hname); [vm_compute; reflexivity|].
  rewrite Hl. simpl.
  assert (rest = []) as ->.
  { vm_compute in Hl. now injection Hl as _ <-. }
  apply Forall_inv in HP. destruct (HP Hname) as (HE & _).
  simpl. now rewrite HE.
Defined.

(** C2, as the specification words it, fails: with the user's entry
    [FOO=bar] the environment of the server is not the kubeconfig variable,
    the secret, then [FOO=bar]; its last element is the secret. *)
Lemma create_env_user_entries_are_not_last :
  exists serverCfg,
    createdConfigs
      (calls (snd (CreateCluster (demoDeps neverFails)
                     (createCtx "demo" 0 ["FOO=bar"] None) emptyWorld)))
      = [serverCfg] /\
    Name serverCfg = "demo-server" /\
    Env serverCfg <>
      envAsSpecified (demoDeps neverFails) (createCtx "demo" 0 ["FOO=bar"] None) /\
    last (Env serverCfg) "" = "K3S_CLUSTER_SECRET=s3cr3t".
Proof.
  vm_compute. eexists. split; [reflexivity|].
  split; [reflexivity|]. split; [discriminate | reflexivity].
Qed.

(** ** Rollback *)

Lemma filter_none {A} (p : A -> bool) l :
  existsb p l = false -> filter (fun x => negb (p x)) l = l.
Proof.
  induction l as [|x l IH]; simpl; [reflexivity|].
  intros H. apply orb_false_iff in H. destruct H as [Hx Hl].
  rewrite Hx. simpl. now rewrite IH.
Qed.

(** A removal that the runtime does not refuse leaves exactly the containers
    with another ID, whether or not the container was there. *)
Lemma removeContainer_effect D id w :
  oracle D (calls w) (ContainerRemove id) = false ->
  let w' := snd (removeContainer D id w) in
  containers w' = filter (fun x => negb (hasID id x)) (containers w) /\
  networks w' = networks w /\ volumes w' = volumes w /\
  (containerExists id w = true -> fst (removeContainer D id w) = Ok tt) /\
  (fst (removeContainer D id w) = Ok tt \/
   exists e, fst (removeContainer D id w) = Fail e).
Proof.
  intros Ho. unfold removeContainer, bind, attempt, get, modify, fail.
  rewrite Ho. simpl. unfold containerExists. simpl.
  destruct (existsb (hasID id) (containers w)) eqn:E; simpl.
  - repeat split; auto.
  - rewrite (filter_none _ _ E). repeat split; eauto. discriminate.
Qed.

Lemma removeWorker_effect D worker w :
  removalsSucceed D ->
  let w' := snd (removeWorker D worker w) in
  fst (removeWorker D worker w) = Ok tt /\
  containers w' = filter (fun x => negb (hasID (ID worker) x)) (containers w) /\
  networks w' = networks w /\ volumes w' = volumes w.
Proof.
  intros HR.
  destruct (removeContainer_effect D (ID worker) w
              (HR (calls w) (ContainerRemove (ID worker)) eq_refl))
    as (Hc & Hn & Hv & _ & Hr).
  unfold removeWorker, try.
  destruct (removeContainer D (ID worker) w) as [r w1]. simpl in *.
  destruct Hr as [->|[e ->]]; simpl; auto.
Qed.

Lemma removeWorkers_effect D ws : forall w,
  removalsSucceed D ->
  let w' := snd (forEach (removeWorker D) ws w) in
  fst (forEach (removeWorker D) ws w) = Ok tt /\
  (forall x, In x (containers w') <->
             In x (containers w) /\ ~ In (ID x) (map ID ws)) /\
  networks w' = networks w /\ volumes w' = volumes w.
Proof.
  induction ws as [|a ws IH]; intros w HR; simpl.
  - repeat split; auto. now intros (H & _).
  - destruct (removeWorker_effect D a w HR) as (Hr & Hc & Hn & Hv).
    unfold bind. destruct (removeWorker D a w) as [r w1]. simpl in *. subst r.
    destruct (IH w1 HR) as (Hr' & Hc' & Hn' & Hv').
    split; [exact Hr'|]. split; [|split; congruence].
    intros x. rewrite Hc', Hc, filter_In. unfold hasID.
    destruct (String.eqb_spec (ID x) (ID a)) as [E|E]; simpl.
    + split; [intros ((_ & H) & _); discriminate H|].
      intros (_ & H). exfalso. apply H. left. now symmetry.
    + split.
      * intros ((H1 & _) & H2). split; [exact H1|].
        intros [H|H]; [now apply E | now apply H2].
      * intros (H1 & H2). split; [split; [exact H1 | reflexivity]|].
        intros H. apply H2. now right.
Qed.

Lemma insertBySuffix_In c l x : In x (insertBySuffix c l) <-> x = c \/ In x l.
Proof.
  induction l as [|y l IH]; simpl.
  - split; [intros [H|[]]; auto | intros [H|[]]; auto].
  - destruct (suffixKey c <? suffixKey y); simpl; [intuition auto|].
    rewrite IH. intuition auto.
Qed.

Lemma sortBySuffix_In l x : In x (sortBySuffix l) <-> In x l.
Proof.
  induction l as [|y l IH]; simpl; [reflexivity|].
  rewrite insertBySuffix_In, IH. intuition auto.
Qed.

Lemma filter_all {A} (p : A -> bool) l :
  (forall x, In x l -> p x = true) -> filter p l = l.
Proof.
  induction l as [|x l IH]; simpl; intros H; [reflexivity|].
  rewrite (H x (or_introl eq_refl)). f_equal. apply IH.
  intros y Hy. apply H. now right.
Qed.

Lemma filter_map_same {A} (p : A -> bool) (f : A -> A) l :
  (forall x, p (f x) = p x) -> filter p (map f l) = map f (filter p l).
Proof.
  intros H. induction l as [|x l IH]; simpl; [reflexivity|].
  rewrite H. destruct (p x); simpl; now rewrite IH.
Qed.

Lemma nodup_all_same (a : string) l :
  l <> [] -> (forall y, In y l -> y = a) -> nodup string_dec l = [a].
Proof.
  induction l as [|x l IH]; intros Hne H; [contradiction|].
  assert (x = a) as -> by (apply H; now left).
  simpl. destruct l as [|y l'].
  - reflexivity.
  - assert (Hl : forall y0, In y0 (y :: l') -> y0 = a)
      by (intros y0 Hy; apply H; now right).
    destruct (in_dec string_dec a (y :: l')) as [_|Hn].
    + apply IH; [discriminate | exact Hl].
    + exfalso. apply Hn. left. apply Hl. now left.
Qed.

Lemma setRunning_ID id b x : ID (setRunning id b x) = ID x.
Proof. unfold setRunning. now destruct (hasID id x). Qed.

Lemma setRunning_labels id b x :
  ContainerLabels (setRunning id b x) = ContainerLabels x.
Proof. unfold setRunning. now destruct (hasID id x). Qed.

Lemma clusterContainers_running nm id b w w' :
  containers w' = map (setRunning id b) (containers w) ->
  clusterContainers nm w' = map (setRunning id b) (clusterContainers nm w).
Proof.
  intros H. unfold clusterContainers. rewrite H.
  apply filter_map_same. intros x. now rewrite setRunning_labels.
Qed.

Lemma clusterContainers_same nm w w' :
  containers w' = containers w ->
  clusterContainers nm w' = clusterContainers nm w.
Proof. unfold clusterContainers. now intros ->. Qed.

Lemma clusterContainers_add nm x w w' :
  containers w' = containers w ++ [x] ->
  matches [("app", "k3d"); ("cluster", nm)] (ContainerLabels x) = true ->
  clusterContainers nm w' = clusterContainers nm w ++ [x].
Proof.
  intros H Hx. unfold clusterContainers. rewrite H, filter_app.
  cbn [filter]. now rewrite Hx.
Qed.

Lemma nodeLabels_match nm component :
  matches [("app", "k3d"); ("cluster", nm)] (nodeLabels nm component) = true.
Proof.
  unfold matches, nodeLabels, hasLabel. simpl. now rewrite String.eqb_refl.
Qed.

Lemma rollbackReady_same spec w w' :
  containers w' = containers w -> rollbackReady spec w -> rollbackReady spec w'.
Proof.
  unfold rollbackReady. intros H.
  now rewrite (clusterContainers_same _ _ _ H).
Qed.

Lemma rollbackReady_running spec id b w w' :
  containers w' = map (setRunning id b) (containers w) ->
  rollbackReady spec w -> rollbackReady spec w'.
Proof.
  unfold rollbackReady. intros H ((s & Hs & Hid) & Hall).
  rewrite (clusterContainers_running _ _ _ _ _ H). split.
  - exists (setRunning id b s). split; [|now rewrite setRunning_ID].
    rewrite filter_map_same, Hs; [reflexivity|].
    intros x. unfold isComponent. now rewrite setRunning_labels.
  - intros x Hx. apply in_map_iff in Hx. destruct Hx as (y & <- & Hy).
    unfold isComponent. rewrite setRunning_labels, setRunning_ID.
    exact (Hall y Hy).
Qed.

Lemma rollbackReady_worker spec i w w' :
  containers w' = containers w ++ [workerConfig spec i] ->
  rollbackReady spec w -> rollbackReady spec w'.
Proof.
  unfold rollbackReady. intros H ((s & Hs & Hid) & Hall).
  rewrite (clusterContainers_add _ _ _ _ H (nodeLabels_match _ _)). split.
  - exists s. rewrite filter_app, Hs. split; [reflexivity | exact Hid].
  - intros x Hx. apply in_app_iff in Hx. destruct Hx as [Hx|[<-|[]]].
    + now apply Hall.
    + right. split; [reflexivity | now exists i].
Qed.

Lemma rollbackReady_server spec w w' :
  clusterContainers (ClusterName spec) w = [] ->
  containers w' = containers w ++ [serverConfig spec] ->
  rollbackReady spec w'.
Proof.
  unfold rollbackReady. intros H0 H.
  rewrite (clusterContainers_add _ _ _ _ H (nodeLabels_match _ _)), H0.
  simpl. split.
  - now exists (serverConfig spec).
  - intros x [<-|[]]. now left.
Qed.

Lemma matches_cluster nm ls :
  matches [("app", "k3d"); ("cluster", nm)] ls = true ->
  label "cluster" ls = Some nm /\ hasLabel ls ("cluster", nm) = true.
Proof.
  unfold matches. simpl. rewrite andb_true_r. intros H.
  apply andb_true_iff in H. destruct H as [_ H]. split; [|exact H].
  unfold hasLabel in H. simpl in H.
  destruct (label "cluster" ls) as [v|]; [|discriminate].
  apply String.eqb_eq in H. now subst.
Qed.

Lemma discovered_named nm w :
  nm <> "" -> discovered false nm w = clusterContainers nm w.
Proof.
  intros H. unfold discovered, clusterContainers, registryFilter.
  apply String.eqb_neq in H. now rewrite H.
Qed.

Lemma clusterLabels_named nm cs :
  cs <> [] ->
  (forall x, In x cs -> label "cluster" (ContainerLabels x) = Some nm) ->
  clusterLabels cs = [nm].
Proof.
  intros Hne H. unfold clusterLabels. apply nodup_all_same.
  - destruct cs as [|x cs]; [contradiction|]. simpl.
    rewrite (H x (or_introl eq_refl)). discriminate.
  - intros y Hy. apply in_flat_map in Hy. destruct Hy as (x & Hx & Hy).
    rewrite (H x Hx) in Hy. destruct Hy as [<-|[]]. reflexivity.
Qed.

(** The name of a free cluster has no node container. *)
Lemma free_name nm w :
  nm <> "" -> getClusters false nm w = (Ok [], w) ->
  clusterContainers nm w = [].
Proof.
  intros Hnm HG. unfold getClusters in HG.
  rewrite (discovered_named nm w Hnm) in HG.
  destruct (clusterContainers nm w) as [|x cs] eqn:E; [reflexivity|].
  exfalso. rewrite <- E in HG.
  rewrite (clusterLabels_named nm (clusterContainers nm w)) in HG.
  - simpl in HG. destruct (discoverOne _ nm); discriminate HG.
  - rewrite E. discriminate.
  - intros y Hy. unfold clusterContainers in Hy. apply filter_In in Hy.
    now apply matches_cluster.
Qed.

(** What the registry finds when the rollback starts. *)
Lemma getClusters_rollbackReady spec w :
  ClusterName spec <> "" ->
  rollbackReady spec w ->
  exists s,
    In s (containers w) /\ ID s = ID (serverConfig spec) /\
    filter (isComponent "server") (clusterContainers (ClusterName spec) w) = [s] /\
    getClusters false (ClusterName spec) w =
    (Ok [mkCluster (ClusterName spec) (Some s)
           (sortBySuffix (filter (isComponent "worker")
                                 (clusterContainers (ClusterName spec) w)))],
     w).
Proof.
  intros Hnm ((s & Hs & Hid) & _). exists s.
  set (nm := ClusterName spec) in *. set (cs := clusterContainers nm w) in *.
  assert (Hin : In s cs).
  { assert (H : In s (filter (isComponent "server") cs))
      by (rewrite Hs; now left).
    now apply filter_In in H. }
  assert (Hlab : forall x, In x cs ->
            label "cluster" (ContainerLabels x) = Some nm /\
            inCluster nm x = true).
  { intros x Hx. unfold cs, clusterContainers in Hx. apply filter_In in Hx.
    now apply matches_cluster. }
  split; [|split; [exact Hid | split; [exact Hs|]]].
  { unfold cs, clusterContainers in Hin. now apply filter_In in Hin. }
  unfold getClusters. rewrite (discovered_named nm w Hnm). fold cs.
  rewrite (clusterLabels_named nm cs).
  - simpl. unfold discoverOne.
    rewrite (filter_all (inCluster nm) cs) by (intros x Hx; now apply Hlab).
    rewrite Hs. reflexivity.
  - intros E. rewrite E in Hin. contradiction.
  - intros x Hx. now apply Hlab.
Qed.

Lemma deleteClusterNetwork_effect D nm w :
  oracle D (calls w) (NetworkRemove nm) = false ->
  fst (deleteClusterNetwork D nm w) = Ok tt /\
  containers (snd (deleteClusterNetwork D nm w)) = containers w /\
  ~ In nm (networks (snd (deleteClusterNetwork D nm w))) /\
  volumes (snd (deleteClusterNetwork D nm w)) = volumes w.
Proof.
  intros H. unfold deleteClusterNetwork, bind, attempt, modify.
  rewrite H. simpl. repeat split; auto.
  intros Hin. apply filter_In in Hin. destruct Hin as [_ Hin].
  now rewrite String.eqb_refl in Hin.
Qed.

Lemma deleteImageVolume_effect D nm w :
  oracle D (calls w) (VolumeRemove nm) = false ->
  fst (deleteImageVolume D nm w) = Ok tt /\
  containers (snd (deleteImageVolume D nm w)) = containers w /\
  networks (snd (deleteImageVolume D nm w)) = networks w /\
  ~ In nm (volumes (snd (deleteImageVolume D nm w))).
Proof.
  intros H. unfold deleteImageVolume, bind, attempt, modify.
  rewrite H. simpl. repeat split; auto.
  intros Hin. apply filter_In in Hin. destruct Hin as [_ Hin].
  now rewrite String.eqb_refl in Hin.
Qed.

Lemma removalsSucceed_container D tr id :
  removalsSucceed D -> oracle D tr (ContainerRemove id) = false.
Proof. intros H. now apply H. Qed.

Lemma removalsSucceed_network D tr nm :
  removalsSucceed D -> oracle D tr (NetworkRemove nm) = false.
Proof. intros H. now apply H. Qed.

Lemma removalsSucceed_volume D tr nm :
  removalsSucceed D -> oracle D tr (VolumeRemove nm) = false.
Proof. intros H. now apply H. Qed.

Lemma try_pass {A} (m : M A) h w a :
  fst (m w) = Ok a -> try m h w = m w.
Proof. unfold try. destruct (m w) as [[a0|e| |] w1]; simpl; congruence. Qed.

Lemma pair_eta {A B} (p : A * B) a : fst p = a -> p = (a, snd p).
Proof. destruct p. simpl. now intros ->. Qed.

(** When no removal is refused, the Delete of a cluster whose server is
    there, and is none of its workers, removes all of them, the network and
    the volume. *)
Lemma deleteOne_complete D nm s ws w :
  removalsSucceed D ->
  In s (containers w) ->
  (forall x, In x ws -> ID x <> ID s) ->
  let r := deleteOne D (mkCluster nm (Some s) ws) w in
  fst r = Ok tt /\
  (forall x, In x (containers (snd r)) ->
     In x (containers w) /\ ~ In (ID x) (map ID ws) /\ ID x <> ID s) /\
  ~ In nm (networks (snd r)) /\
  ~ In nm (volumes (snd r)).
Proof.
  intros HR Hs Hdiff. cbv zeta. rewrite deleteOne_unfold.
  cbn [workers name]. change (serverID (mkCluster nm (Some s) ws)) with (ID s).
  destruct (removeWorkers_effect D ws w HR) as (_ & HcA & _ & _).
  set (wA := snd (forEach (removeWorker D) ws w)) in *.
  set (wB := snd (deleteClusterDir nm wA)).
  assert (HcB : containers wB = containers wA) by reflexivity.
  assert (HsB : In s (containers wB)).
  { rewrite HcB. apply HcA. split; [exact Hs|].
    intros Hin. apply in_map_iff in Hin. destruct Hin as (x & Hx & Hin).
    now apply (Hdiff x Hin). }
  destruct (removeContainer_effect D (ID s) wB
              (removalsSucceed_container D _ _ HR))
    as (HcC & _ & _ & Hex & _).
  assert (HrC : fst (removeContainer D (ID s) wB) = Ok tt).
  { apply Hex. unfold containerExists. apply existsb_exists.
    exists s. split; [exact HsB|]. unfold hasID. apply String.eqb_refl. }
  set (wC := snd (removeContainer D (ID s) wB)) in *.
  assert (E1 : try (removeContainer D (ID s))
                   (fun err => fail (CouldntRemoveServer nm err)) wB
               = (Ok tt, wC)).
  { rewrite (try_pass _ _ _ _ HrC). now apply pair_eta. }
  rewrite (bind_Ok _ _ _ _ _ E1).
  destruct (deleteClusterNetwork_effect D nm wC
              (removalsSucceed_network D _ _ HR))
    as (HrD & HcD & HnD & _).
  set (wD := snd (deleteClusterNetwork D nm wC)) in *.
  assert (E2 : try (deleteClusterNetwork D nm)
                   (fun err => logLine (WarnNetwork nm err)) wC
               = (Ok tt, wD)).
  { rewrite (try_pass _ _ _ _ HrD). now apply pair_eta. }
  rewrite (bind_Ok _ _ _ _ _ E2).
  destruct (deleteImageVolume_effect D nm wD
              (removalsSucceed_volume D _ _ HR))
    as (HrE & HcE & HnE & HvE).
  rewrite (try_pass _ _ _ _ HrE).
  split; [exact HrE|]. split; [|split; [now rewrite HnE | exact HvE]].
  intros x Hx. rewrite HcE, HcD, HcC in Hx. apply filter_In in Hx.
  destruct Hx as [Hx Hne]. rewrite HcB in Hx. apply HcA in Hx.
  destruct Hx as [Hx Hnw]. split; [exact Hx|]. split; [exact Hnw|].
  intros E. unfold hasID in Hne. rewrite E, String.eqb_refl in Hne.
  discriminate Hne.
Qed.

(** The rollback of Create, from a world in which the server and the workers
    of the [ClusterSpec] are the node containers of the cluster: when no
    removal is refused nothing is left. *)
Lemma rollback_complete D c spec w :
  ClusterName spec = String_ c "name" ->
  String_ c "name" <> "" ->
  Bool_ c "all" = false ->
  removalsSucceed D ->
  rollbackReady spec w ->
  fst (deleteCluster D c w) = Ok tt /\
  nothingLeft (String_ c "name") (snd (deleteCluster D c w)).
Proof.
  intros Hn Hnm Hall HR Hready.
  unfold deleteCluster.
  set (w0 := snd (logLine LogRollingBack w)).
  assert (E0 : logLine LogRollingBack w = (Ok tt, w0)) by reflexivity.
  rewrite (bind_Ok _ _ _ _ _ E0).
  assert (Hready0 : rollbackReady spec w0)
    by (now apply (rollbackReady_same spec w w0)).
  rewrite <- Hn in Hnm.
  destruct (getClusters_rollbackReady spec w0 Hnm Hready0)
    as (s & Hs & Hid & Hsrv & HG).
  destruct Hready0 as (_ & Hall0).
  set (cs := clusterContainers (ClusterName spec) w0) in *.
  set (ws := sortBySuffix (filter (isComponent "worker") cs)) in *.
  assert (Hws : forall x, In x ws ->
            In x cs /\ isComponent "worker" x = true).
  { intros x Hx. unfold ws in Hx.
    apply (proj1 (sortBySuffix_In _ _)) in Hx. now apply filter_In in Hx. }
  assert (Hdiff : forall x, In x ws -> ID x <> ID s).
  { intros x Hx. destruct (Hws x Hx) as (Hxc & Hw).
    destruct (Hall0 x Hxc) as [Hsv|(_ & i & Hi)].
    - assert (Hxs : In x (filter (isComponent "server") cs))
        by (apply filter_In; now split).
      rewrite Hsrv in Hxs. destruct Hxs as [<-|[]].
      exfalso. clear - Hsv Hw. unfold isComponent, hasLabel in *. simpl in *.
      destruct (label "component" (ContainerLabels s)) as [v|];
        [|discriminate].
      apply String.eqb_eq in Hsv, Hw. subst. discriminate.
    - rewrite Hi, Hid. apply worker_is_not_server. }
  destruct (deleteOne_complete D (ClusterName spec) s ws w0 HR Hs Hdiff)
    as (Hr & Hc & Hnet & Hvol).
  set (cl := mkCluster (ClusterName spec) (Some s) ws) in *.
  assert (ED : DeleteCluster D c w0 = (Ok tt, snd (deleteOne D cl w0))).
  { unfold DeleteCluster. rewrite Hall, <- Hn.
    rewrite (bind_Ok _ _ _ _ _ HG). simpl. unfold bind.
    rewrite (pair_eta _ _ Hr). reflexivity. }
  unfold try. rewrite ED. simpl. split; [reflexivity|].
  rewrite <- Hn. split; [|split; assumption].
  destruct (clusterContainers (ClusterName spec) (snd (deleteOne D cl w0)))
    as [|x rest] eqn:E; [reflexivity|].
  exfalso.
  assert (Hx : In x (clusterContainers (ClusterName spec)
                       (snd (deleteOne D cl w0))))
    by (rewrite E; now left).
  unfold clusterContainers in Hx. apply filter_In in Hx.
  destruct Hx as [Hx Hm]. destruct (Hc x Hx) as (Hx0 & Hnw & Hns).
  assert (Hxc : In x cs) by (apply filter_In; now split).
  destruct (Hall0 x Hxc) as [Hsv|(Hw & _)].
  - assert (Hxs : In x (filter (isComponent "server") cs))
      by (apply filter_In; now split).
    rewrite Hsrv in Hxs. destruct Hxs as [<-|[]]. now apply Hns.
  - apply Hnw. apply in_map. apply sortBySuffix_In. apply filter_In.
    now split.
Qed.

Lemma rollback_then_fail {A} D c (err : Error) w :
  snd ((deleteCluster D c ;;; @fail A err) w) = snd (deleteCluster D c w) /\
  forall a, fst ((deleteCluster D c ;;; @fail A err) w) <> Ok a.
Proof.
  unfold bind, fail. destruct (deleteCluster D c w) as [[[]|e| |] w1];
    simpl; split; auto; discriminate.
Qed.

(** Creating a container under the rollback handler of Create: the container
    is there and started; or the rollback ran, from a world in which the
    container had been refused, or from one in which it was there. *)
Lemma try_create_cases D c config (g : Error -> Error) w :
  let m := try (createContainer D config)
               (fun err => deleteCluster D c ;;; fail (g err)) in
  (exists w1,
     m w = (Ok (ID config), w1) /\
     containers w1 =
       map (setRunning (ID config) true) (containers w ++ [config])) \/
  (exists wr,
     snd (m w) = snd (deleteCluster D c wr) /\
     (forall a, fst (m w) <> Ok a) /\
     ((containers wr = containers w /\
       (oracle D (calls w) (ContainerCreate config) = true \/
        existsb (fun x => String.eqb (Name x) (Name config)) (containers w)
        = true)) \/
      containers wr = containers w ++ [config])).
Proof.
  cbv zeta. unfold try. rewrite createContainer_cases. cbv zeta.
  destruct (oracle D (calls w) (ContainerCreate config)) eqn:E1.
  { right. eexists. split; [apply rollback_then_fail|].
    split; [apply rollback_then_fail|]. left. split; [reflexivity | now left]. }
  destruct (existsb _ (containers w)) eqn:E2.
  { right. eexists. split; [apply rollback_then_fail|].
    split; [apply rollback_then_fail|]. left. split; [reflexivity | now right]. }
  destruct (oracle D _ (ContainerStart (ID config))).
  { right. eexists. split; [apply rollback_then_fail|].
    split; [apply rollback_then_fail|]. right. reflexivity. }
  left. eexists. split; reflexivity.
Qed.

Lemma bootWorker_outcome D c spec i w :
  rollbackReady spec w ->
  (fst (bootWorker D c spec i w) = Ok tt /\
   rollbackReady spec (snd (bootWorker D c spec i w))) \/
  ((forall a, fst (bootWorker D c spec i w) <> Ok a) /\
   rolledBackFrom D c spec (snd (bootWorker D c spec i w))).
Proof.
  intros Hready. unfold bootWorker, createWorker.
  destruct (try_create_cases D c (workerConfig spec i) (fun e => e) w)
    as [(w1 & E & Hc)|(wr & Hs & Hne & Hc)]; cbv zeta in *.
  - left. rewrite (bind_Ok _ _ _ _ _ E). simpl. split; [reflexivity|].
    set (w2 := setContainers (containers w ++ [workerConfig spec i]) w).
    apply (rollbackReady_running spec (ID (workerConfig spec i)) true w2 w1 Hc).
    now apply (rollbackReady_worker spec i w w2).
  - right. unfold bind at 1 3.
    destruct (try _ _ w) as [[id|e| |] w1]; simpl in *.
    + exfalso. now apply (Hne id).
    + split; [discriminate|]. exists wr. split; [|exact Hs].
      destruct Hc as [(Hc & _)|Hc].
      * now apply (rollbackReady_same spec w wr).
      * now apply (rollbackReady_worker spec i w wr).
    + split; [discriminate|]. exists wr. split; [|exact Hs].
      destruct Hc as [(Hc & _)|Hc].
      * now apply (rollbackReady_same spec w wr).
      * now apply (rollbackReady_worker spec i w wr).
    + split; [discriminate|]. exists wr. split; [|exact Hs].
      destruct Hc as [(Hc & _)|Hc].
      * now apply (rollbackReady_same spec w wr).
      * now apply (rollbackReady_worker spec i w wr).
Qed.

Lemma createWorkers_outcome D c spec l : forall w,
  rollbackReady spec w ->
  fst (forEach (bootWorker D c spec) l w) = Ok tt \/
  ((forall a, fst (forEach (bootWorker D c spec) l w) <> Ok a) /\
   rolledBackFrom D c spec (snd (forEach (bootWorker D c spec) l w))).
Proof.
  induction l as [|i l IH]; intros w Hready; [now left|].
  rewrite forEach_cons.
  destruct (bootWorker_outcome D c spec i w Hready) as [(Hr & Hrd)|(Hne & Hrb)].
  - destruct (bootWorker D c spec i w) as [r w1]. simpl in *. subst r.
    now apply IH.
  - right. destruct (bootWorker D c spec i w) as [[[]|e| |] w1]; simpl in *;
      try (split; [discriminate | exact Hrb]).
    exfalso. now apply (Hne tt).
Qed.

Lemma bind_not_Ok {A B} (m : M A) (k : A -> M B) w :
  (forall a, fst (m w) <> Ok a) ->
  snd (bind m k w) = snd (m w) /\ forall b, fst (bind m k w) <> Ok b.
Proof.
  intros H. unfold bind. destruct (m w) as [[a|e| |] w1]; simpl in *;
    try (split; [reflexivity | discriminate]).
  exfalso. now apply (H a).
Qed.

Lemma existsb_name_free (nm : string) cs :
  (forall x, In x cs -> Name x <> nm) ->
  existsb (fun x => String.eqb (Name x) nm) cs = false.
Proof.
  intros H. induction cs as [|x cs IH]; simpl; [reflexivity|].
  rewrite (proj2 (String.eqb_neq _ _) (H x (or_introl eq_refl))). simpl.
  apply IH. intros y Hy. apply H. now right.
Qed.

(** The CREATION part ends normally, or the rollback has run from a world in
    which the server container was there, as long as the runtime does not
    refuse to create the server container. *)
Lemma createNodes_outcome D c spec w :
  (forall tr, oracle D tr (ContainerCreate (serverConfig spec)) = false) ->
  (forall x, In x (containers w) -> Name x <> Name (serverConfig spec)) ->
  clusterContainers (ClusterName spec) w = [] ->
  fst (createNodes D c spec w) = Ok tt \/
  rolledBackFrom D c spec (snd (createNodes D c spec w)).
Proof.
  intros Ho Hfree Hnone. unfold createNodes.
  set (w0 := snd (createClusterDir (String_ c "name") w)).
  assert (E0 : createClusterDir (String_ c "name") w = (Ok tt, w0))
    by reflexivity.
  rewrite (bind_Ok _ _ _ _ _ E0). unfold createServer.
  destruct (try_create_cases D c (serverConfig spec) (fun e => e) w0)
    as [(w1 & E & Hc)|(wr & Hs & Hne & Hc)]; cbv zeta in *.
  2:{ right. destruct (bind_not_Ok _
                (fun serverContainerID =>
                   (if IsSet_ c "wait"
                    then try (waitForContainerLogMessage D serverContainerID
                                "Running kubelet" (Int_ c "wait"))
                             (fun err => deleteCluster D c ;;;
                                         fail (WaitFailed err))
                    else ret tt) ;;;
                   (if 0 <? Int_ c "workers"
                    then createWorkers D c spec else ret tt) ;;; ret tt)
                w0 Hne) as (Hsnd & _).
      rewrite Hsnd. exists wr. split; [|exact Hs].
      destruct Hc as [(_ & [Hx|Hx])|Hc].
      - now rewrite Ho in Hx.
      - change (containers w0) with (containers w) in Hx.
        rewrite (existsb_name_free _ _ Hfree) in Hx. discriminate Hx.
      - now apply (rollbackReady_server spec w wr). }
  rewrite (bind_Ok _ _ _ _ _ E).
  assert (Hready1 : rollbackReady spec w1).
  { set (w2 := setContainers (containers w ++ [serverConfig spec]) w).
    apply (rollbackReady_running spec (ID (serverConfig spec)) true w2 w1 Hc).
    now apply (rollbackReady_server spec w w2). }
  set (waitStep :=
         if IsSet_ c "wait"
         then try (waitForContainerLogMessage D (ID (serverConfig spec))
                     "Running kubelet" (Int_ c "wait"))
                  (fun err => deleteCluster D c ;;; fail (WaitFailed err))
         else ret tt).
  assert (HW : (exists w2, waitStep w1 = (Ok tt, w2) /\ rollbackReady spec w2) \/
               ((forall a, fst (waitStep w1) <> Ok a) /\
                rolledBackFrom D c spec (snd (waitStep w1)))).
  { unfold waitStep. destruct (IsSet_ c "wait"); [|left; now exists w1].
    unfold try, waitForContainerLogMessage, attempt.
    destruct (oracle D (calls w1) _).
    - right. split; [apply rollback_then_fail|].
      eexists. split; [|apply rollback_then_fail].
      now apply (rollbackReady_same spec w1).
    - left. eexists. split; [reflexivity|].
      now apply (rollbackReady_same spec w1). }
  destruct HW as [(w2 & EW & Hready2)|(Hne & Hrb)].
  2:{ right. destruct (bind_not_Ok waitStep
                (fun _ => (if 0 <? Int_ c "workers"
                           then createWorkers D c spec else ret tt) ;;; ret tt)
                w1 Hne) as (Hsnd & _).
      now rewrite Hsnd. }
  rewrite (bind_Ok _ _ _ _ _ EW).
  destruct (0 <? Int_ c "workers"); [|now left].
  unfold createWorkers.
  destruct (createWorkers_outcome D c spec (intRange 0 (Int_ c "workers"))
              w2 Hready2) as [Hr|(Hne & Hrb)].
  - left. unfold bind. rewrite (pair_eta _ _ Hr). reflexivity.
  - right. destruct (bind_not_Ok _ (fun _ : unit => ret tt) w2 Hne) as (Hsnd & _).
    now rewrite Hsnd.
Qed.

(** C1, as the code has it.  When Create fails after it has asked the
    runtime for a container (while starting the server, while waiting for
    its readiness, or while creating worker k), the runtime not having
    refused to create the server container, the rollback has run: Delete for
    the name, from a world in which the node containers of the name were the
    server and the workers created so far.  If no removal made by the
    rollback is refused, no node container, no network and no volume of that
    name is left afterwards. *)
Theorem create_rollback_leaves_nothing
  (D : Deps) (c : Context) (w : World) (e : Error) (w' : World) :
  let nm := String_ c "name" in
  nm <> "" ->
  Bool_ c "all" = false ->
  (forall tr config,
     Name config = GetContainerName "server" nm None ->
     oracle D tr (ContainerCreate config) = false) ->
  (forall x, In x (containers w) -> Name x <> GetContainerName "server" nm None) ->
  CreateCluster D c w = (Fail e, w') ->
  createdConfigs (calls w') <> createdConfigs (calls w) ->
  (exists spec, ClusterName spec = nm /\ rolledBackFrom D c spec w') /\
  (removalsSucceed D -> nothingLeft nm w').
Proof.
  intros nm Hnm Hall Ho Hfree Hrun Hasked.
  destruct (CreateCluster_run D c w) as [(_ & _ & Hsame)|R].
  { rewrite Hrun in Hsame. now contradiction Hasked. }
  destruct R as (spec & w1 & _ & HG & Hn & _ & _ & Hc & _ & _ & _ & HR1).
  fold nm in HG, Hn.
  assert (Hsrv : Name (serverConfig spec) = GetContainerName "server" nm None)
    by (unfold serverConfig; simpl; now rewrite Hn).
  assert (Hnone : clusterContainers (ClusterName spec) w1 = []).
  { rewrite Hn, (clusterContainers_same nm w w1 Hc). now apply free_name. }
  destruct (createNodes_outcome D c spec w1) as [Hok|(wr & Hready & Hw')].
  - intros tr. now apply Ho.
  - intros x Hx. rewrite Hc in Hx. rewrite Hsrv. now apply Hfree.
  - exact Hnone.
  - rewrite <- HR1, Hrun in Hok. discriminate Hok.
  - rewrite <- HR1, Hrun in Hw'. simpl in Hw'. subst w'.
    split; [exists spec; split; [exact Hn | now exists wr]|].
    intros HR.
    now apply (rollback_complete D c spec wr Hn Hnm Hall HR Hready).
Qed.

(** Creating [demo] with two workers when the runtime refuses to create
    [demo-worker-1]: the rollback leaves nothing. *)
Lemma create_demo_worker_refused_leaves_nothing :
  nothingLeft "demo"
    (snd (CreateCluster (demoDeps worker1Refused)
            (createCtx "demo" 2 [] None) emptyWorld)).
Proof.
  assert (HR : removalsSucceed (demoDeps worker1Refused)).
  { intros tr call H. destruct call; try discriminate H; reflexivity. }
  revert HR. eapply proj2.
  eapply (create_rollback_leaves_nothing (demoDeps worker1Refused)
            (createCtx "demo" 2 [] None) emptyWorld).
  - discriminate.
  - reflexivity.
  - intros tr config H. unfold demoDeps, worker1Refused, failing, isCreate.
    simpl. simpl in H. now rewrite H.
  - intros x [].
  - vm_compute. reflexivity.
  - vm_compute. discriminate.
Defined.

Example create_demo_wait_fails_leaves_nothing :
  let r := CreateCluster (demoDeps (failing isLogs))
             (createCtx "demo" 2 [] (Some 30)) emptyWorld in
  (exists e, fst r = Fail (WaitFailed e)) /\
  containers (snd r) = [] /\ networks (snd r) = [] /\ volumes (snd r) = [].
Proof. vm_compute. repeat split. eexists. reflexivity. Qed.

(** C1, as the specification words it, fails, in two ways.  The rollback is
    best effort: creating [demo] with one worker when the runtime refuses to
    create [demo-worker-0] and then to remove [demo-server], Create fails at
    worker 0, the rollback stops at the server, and the server container,
    the network and the volume of [demo] are left.  And the rollback finds a
    cluster by its containers: creating [demo] when the runtime refuses to
    create [demo-server], and refuses no removal, the rollback finds no
    cluster and removes nothing, and the network and the volume of [demo]
    are left. *)
Lemma create_rollback_is_best_effort :
  (let r := CreateCluster (demoDeps rollbackBlocked)
              (createCtx "demo" 1 [] None) emptyWorld in
   (exists config,
      Name config = "demo-worker-0" /\
      fst r = Fail (RuntimeError (ContainerCreate config))) /\
   In (LogRollbackFailed "demo") (logs (snd r)) /\
   map Name (containers (snd r)) = ["demo-server"] /\
   networks (snd r) = ["demo"] /\
   volumes (snd r) = ["demo"] /\
   ~ nothingLeft "demo" (snd r)) /\
  (let r := CreateCluster (demoDeps serverRefused)
              (createCtx "demo" 0 [] None) emptyWorld in
   removalsSucceed (demoDeps serverRefused) /\
   (exists config,
      Name config = "demo-server" /\
      fst r = Fail (RuntimeError (ContainerCreate config))) /\
   In LogRollingBack (logs (snd r)) /\
   containers (snd r) = [] /\
   networks (snd r) = ["demo"] /\
   volumes (snd r) = ["demo"] /\
   ~ nothingLeft "demo" (snd r)).
Proof.
  split.
  - vm_compute. split; [eexists; split; [|reflexivity]; reflexivity|].
    split; [auto|]. split; [reflexivity|]. split; [reflexivity|].
    split; [reflexivity|]. intros (H & _). discriminate H.
  - split.
    { intros tr call H. destruct call; try discriminate H; reflexivity. }
    vm_compute. split; [eexists; split; [|reflexivity]; reflexivity|].
    split; [auto|]. split; [reflexivity|]. split; [reflexivity|].
    split; [reflexivity|]. intros (_ & H & _). apply H. now left.
Qed.

(** * More properties of the backend *)

(** ** The image list of [ImportImage] *)

Lemma Split_cons_sep s sep : Split (String sep s) sep = EmptyString :: Split s sep.
Proof. simpl. now rewrite Ascii.eqb_refl. Qed.

Lemma Join_Split s sep : Join (Split s sep) sep = s.
Proof.
  induction s as [|c s IH]; [reflexivity|].
  cbn [Split]. destruct (Ascii.eqb_spec c sep) as [->|Hc].
  - pose proof (Split_nonempty s sep) as Hne.
    destruct (Split s sep) as [|h t] eqn:E; [contradiction|].
    cbn [Join]. cbn [Join] in IH. now rewrite IH.
  - pose proof (Split_nonempty s sep) as Hne.
    destruct (Split s sep) as [|h t] eqn:E; [contradiction|].
    cbn [Join] in *. destruct t as [|h' t'].
    + now rewrite IH.
    + rewrite <- IH. reflexivity.
Qed.

Lemma Split_fields_clean s sep :
  Forall (fun f => Contains f sep = false) (Split s sep).
Proof.
  induction s as [|c s IH]; [repeat constructor|].
  cbn [Split]. destruct (Ascii.eqb_spec c sep) as [->|Hc].
  - constructor; [reflexivity | exact IH].
  - pose proof (Split_nonempty s sep) as Hne.
    destruct (Split s sep) as [|h t]; [contradiction|].
    inversion IH as [|? ? Hh Ht]; subst. constructor; [|exact Ht].
    simpl. rewrite Hh. now rewrite (proj2 (Ascii.eqb_neq c sep) Hc).
Qed.

Lemma Split_length s sep : List.length (Split s sep) = S (Count s sep).
Proof.
  induction s as [|c s IH]; [reflexivity|].
  cbn [Split Count]. destruct (Ascii.eqb c sep).
  - simpl. now rewrite IH.
  - pose proof (Split_nonempty s sep) as Hne.
    destruct (Split s sep) as [|h t]; [contradiction|]. exact IH.
Qed.

Lemma Contains_Count s sep : Contains s sep = true <-> (0 < Count s sep)%nat.
Proof.
  induction s as [|c s IH]; simpl; [split; [discriminate | lia]|].
  destruct (Ascii.eqb c sep); simpl; [split; [lia | reflexivity] | exact IH].
Qed.

(** X1. The image list that [ImportImage] hands to [importImage].  When the
    first argument contains a comma, [ImportImage] calls [importImage] with
    the cluster name, the comma-separated fields of the first argument
    alone, and the no-remove flag: the other arguments are dropped, empty
    fields are kept, there is one image more than there are commas, no image
    contains a comma, and joining the images with commas gives the first
    argument back.  When it contains none, [ImportImage] calls [importImage]
    with the arguments as they are (none for no argument). *)
Theorem import_image_list_splits_first_argument
  (importImage : string -> list string -> bool -> M unit)
  (c : Context) (args : list string) :
  (Contains (First args) "," = true ->
   ImportImage importImage c args =
     importImage (String_ c "name") (Split (First args) ",")
                 (Bool_ c "no-remove") /\
   Join (Split (First args) ",") "," = First args /\
   Forall (fun image => Contains image "," = false) (Split (First args) ",") /\
   List.length (Split (First args) ",") = S (Count (First args) ",") /\
   (2 <= List.length (Split (First args) ","))%nat) /\
  (Contains (First args) "," = false ->
   ImportImage importImage c args =
     importImage (String_ c "name") args (Bool_ c "no-remove")) /\
  ImportImage importImage c [] =
    importImage (String_ c "name") [] (Bool_ c "no-remove").
Proof.
  unfold ImportImage, importImageList. split; [|split].
  - intros H. rewrite H. cbn [app].
    split; [reflexivity|]. split; [apply Join_Split|].
    split; [apply Split_fields_clean|].
    rewrite Split_length. split; [reflexivity|].
    apply Contains_Count in H. lia.
  - intros H. now rewrite H.
  - reflexivity.
Qed.

(** [import-image a,b c] imports [a] and [b]; [import-image a b] imports [a]
    and [b]: with an [importImage] that writes the name and the images it
    is handed into the world. *)
Lemma import_image_list_examples :
  let importImage := fun (nm : string) (images : list string) (_ : bool) =>
                       modify (setDirs (nm :: images)) in
  dirs (snd (ImportImage importImage (nameCtx false "c") ["a,b"; "c"] emptyWorld))
    = ["c"; "a"; "b"] /\
  dirs (snd (ImportImage importImage (nameCtx false "c") ["a"; "b"] emptyWorld))
    = ["c"; "a"; "b"] /\
  Join (Split "a,,b" ",") "," = "a,,b".
Proof.
  intros importImage.
  destruct (import_image_list_splits_first_argument importImage
              (nameCtx false "c") ["a,b"; "c"]) as (H1 & _).
  destruct (import_image_list_splits_first_argument importImage
              (nameCtx false "c") ["a"; "b"]) as (_ & H2 & _).
  destruct (import_image_list_splits_first_argument importImage
              (nameCtx false "c") ["a,,b"]) as (H3 & _).
  split; [|split].
  - destruct (H1 eq_refl) as (E & _). rewrite E. reflexivity.
  - rewrite (H2 eq_refl). reflexivity.
  - destruct (H3 eq_refl) as (_ & E & _). exact E.
Defined.

(** ** The default registry *)

Lemma Split_default_registry image :
  Split (defaultRegistry ++ "/" ++ image)%string "/" =
  "docker.io" :: Split image "/".
Proof.
  pose proof (Split_nonempty image "/") as Hne.
  unfold defaultRegistry. cbn -[Split]. cbn [Split].
  repeat match goal with
         | |- context [Ascii.eqb ?a ?b] =>
             change (Ascii.eqb a b) with false; cbv iota
         end.
  change (Ascii.eqb "/" "/") with true. cbv iota.
  destruct (Split image "/") as [|h t]; [contradiction | reflexivity].
Qed.

(** An image with at most two fields between slashes gets the registry
    [docker.io] as a new first field; an image with three fields or more is
    left as it is. *)
Lemma withRegistry_fields (image : string) :
  Split (withRegistry image) "/" =
    (if (List.length (Split image "/") <=? 2)%nat
     then "docker.io" :: Split image "/"
     else Split image "/") /\
  (2 <= List.length (Split (withRegistry image) "/"))%nat /\
  (withRegistry image = image <-> (3 <= List.length (Split image "/"))%nat).
Proof.
  pose proof (Split_nonempty image "/") as Hne.
  unfold withRegistry.
  destruct (Nat.leb_spec (List.length (Split image "/")) 2) as [H|H].
  - rewrite Split_default_registry. split; [reflexivity|]. split.
    + destruct (Split image "/"); [contradiction | simpl; lia].
    + split; [|lia]. intros E. exfalso.
      assert (L : List.length (Split (defaultRegistry ++ "/" ++ image)%string "/")
                  = List.length (Split image "/")) by now rewrite E.
      rewrite Split_default_registry in L. simpl in L. lia.
  - split; [reflexivity|]. split; [lia|]. split; [lia | reflexivity].
Qed.

(** ** What a computation keeps *)

Section KeepsLaws.

Variable R : World -> World -> Prop.
Hypothesis R_refl : forall w, R w w.
Hypothesis R_trans : forall w1 w2 w3, R w1 w2 -> R w2 w3 -> R w1 w3.

Lemma Keeps_ret {A} (a : A) : Keeps R (ret a).
Proof. intros w. apply R_refl. Qed.

Lemma Keeps_fail {A} e : Keeps R (@fail A e).
Proof. intros w. apply R_refl. Qed.

Lemma Keeps_lift {A} (r : Res A) : Keeps R (lift r).
Proof. intros w. apply R_refl. Qed.

Lemma Keeps_get : Keeps R get.
Proof. intros w. apply R_refl. Qed.

Lemma Keeps_getClusters all nm : Keeps R (getClusters all nm).
Proof. intros w. apply R_refl. Qed.

Lemma Keeps_modify (f : World -> World) :
  (forall w, R w (f w)) -> Keeps R (modify f).
Proof. intros H w. apply H. Qed.

Lemma Keeps_logLine l :
  (forall w, R w (snd (logLine l w))) -> Keeps R (logLine l).
Proof. intros H w. apply H. Qed.

Lemma Keeps_attempt D call :
  (forall w, R w (record call w)) -> Keeps R (attempt D call).
Proof.
  intros H w. unfold attempt. destruct (oracle D (calls w) call); apply H.
Qed.

Lemma Keeps_bind {A B} (m : M A) (k : A -> M B) :
  Keeps R m -> (forall a, Keeps R (k a)) -> Keeps R (bind m k).
Proof.
  intros Hm Hk w. unfold bind. specialize (Hm w).
  destruct (m w) as [[a|e| |] w1]; simpl in *; try exact Hm.
  eapply R_trans; [exact Hm | apply Hk].
Qed.

Lemma Keeps_try {A} (m : M A) (h : Error -> M A) :
  Keeps R m -> (forall e, Keeps R (h e)) -> Keeps R (try m h).
Proof.
  intros Hm Hh w. unfold try. specialize (Hm w).
  destruct (m w) as [[a|e| |] w1]; simpl in *; try exact Hm.
  eapply R_trans; [exact Hm | apply Hh].
Qed.

Lemma Keeps_forEach {A} (body : A -> M unit) (xs : list A) :
  (forall x, Keeps R (body x)) -> Keeps R (forEach body xs).
Proof.
  intros H. induction xs as [|x xs IH]; simpl.
  - apply Keeps_ret.
  - apply Keeps_bind; [apply H | intros _; exact IH].
Qed.

End KeepsLaws.

(** The structure of a computation, down to its calls, log lines and
    changes of the world, which [leaf] settles. *)
Ltac keeps Hrefl Htrans leaf :=
  repeat first
    [ simple apply (Keeps_ret _ Hrefl)
    | simple apply (Keeps_fail _ Hrefl)
    | simple apply (Keeps_lift _ Hrefl)
    | simple apply (Keeps_get _ Hrefl)
    | simple apply (Keeps_getClusters _ Hrefl)
    | simple apply (Keeps_bind _ Htrans); [|intros ?]
    | simple apply (Keeps_try _ Htrans); [|intros ?]
    | simple apply (Keeps_forEach _ Hrefl Htrans); intros ?
    | simple apply Keeps_attempt; intros ?; leaf
    | simple apply Keeps_modify; intros ?; leaf
    | simple apply Keeps_logLine; intros ?; leaf
    | match goal with
      | |- Keeps _ (match ?x with _ => _ end) => destruct x
      end ].

Lemma extendsWith_refl P w : extendsWith P w w.
Proof. exists []. now rewrite app_nil_r. Qed.

Lemma extendsWith_trans P w1 w2 w3 :
  extendsWith P w1 w2 -> extendsWith P w2 w3 -> extendsWith P w1 w3.
Proof.
  intros (n1 & H1 & P1) (n2 & H2 & P2). exists (n1 ++ n2).
  split; [now rewrite H2, H1, <- app_assoc|].
  rewrite forallb_app. now rewrite P1, P2.
Qed.

Lemma extendsWith_record P call w :
  P call = true -> extendsWith P w (record call w).
Proof. intros H. exists [call]. simpl. now rewrite H. Qed.

Lemma extendsWith_same P w w' : calls w' = calls w -> extendsWith P w w'.
Proof. intros H. exists []. now rewrite app_nil_r. Qed.

Ltac calls_leaf :=
  first [ apply extendsWith_record; reflexivity
        | apply extendsWith_same; reflexivity
        | eapply extendsWith_trans;
          [apply extendsWith_record; reflexivity
          | apply extendsWith_same; reflexivity] ].

Lemma map_ID_setRunning id b l : map ID (map (setRunning id b) l) = map ID l.
Proof.
  rewrite map_map. apply map_ext. intros x. apply setRunning_ID.
Qed.

Lemma sameNodes_refl w : sameNodes w w.
Proof. repeat split. Qed.

Lemma sameNodes_trans w1 w2 w3 :
  sameNodes w1 w2 -> sameNodes w2 w3 -> sameNodes w1 w3.
Proof. intros (A1 & A2 & A3) (B1 & B2 & B3). repeat split; congruence. Qed.

Ltac same_leaf :=
  repeat split; simpl; rewrite ?map_ID_setRunning; reflexivity.

Lemma moreNodes_refl w : moreNodes w w.
Proof. split; [exists []; now rewrite app_nil_r | split; reflexivity]. Qed.

Lemma moreNodes_trans w1 w2 w3 :
  moreNodes w1 w2 -> moreNodes w2 w3 -> moreNodes w1 w3.
Proof.
  intros ((a1 & A1) & A2 & A3) ((a2 & B1) & B2 & B3).
  split; [|split; congruence].
  exists (a1 ++ a2). now rewrite B1, A1, <- app_assoc.
Qed.

Lemma sameNodes_moreNodes w w' : sameNodes w w' -> moreNodes w w'.
Proof.
  intros (A1 & A2 & A3). split; [|split; assumption].
  exists []. now rewrite app_nil_r.
Qed.

Ltac more_leaf :=
  first [ apply sameNodes_moreNodes; same_leaf
        | split; [|split; reflexivity]; simpl;
          rewrite ?map_ID_setRunning, ?map_app; eexists; reflexivity ].

Lemma fewerNodes_refl w : fewerNodes w w.
Proof. repeat split; auto. Qed.

Lemma fewerNodes_trans w1 w2 w3 :
  fewerNodes w1 w2 -> fewerNodes w2 w3 -> fewerNodes w1 w3.
Proof. intros (A1 & A2 & A3) (B1 & B2 & B3). repeat split; auto. Qed.

Lemma In_map_filter {A B} (f : A -> B) p l y :
  In y (map f (filter p l)) -> In y (map f l).
Proof.
  intros H. apply in_map_iff in H. destruct H as (x & <- & Hx).
  apply filter_In in Hx. apply in_map. apply Hx.
Qed.

Ltac fewer_leaf :=
  repeat split; simpl; intros ? ?;
  first [ assumption
        | eapply In_map_filter; eassumption
        | match goal with H : In _ (filter _ _) |- _ =>
            apply filter_In in H; apply H
          end ].

(** ** What Stop, Start, Delete and AddNode never do *)

Ltac unfold_backend :=
  unfold StopCluster, StartCluster, DeleteCluster, AddNode,
    stopOne, startOne, deleteOne, forWorkers, stopWorker, startWorker,
    removeWorker, joinPrelude, locateServer, findNetwork, highestWorkerSuffix,
    addWorker, createWorker, createContainer,
    ContainerStopM, ContainerStartM, removeContainer, deleteClusterDir,
    deleteClusterNetwork, deleteImageVolume, ContainerListM,
    ContainerInspectM, NetworkListM.

(** X3. Stop and Start touch nothing but the run state of containers: every
    call they make is the creation of the client or the stop (for Start, the
    start) of a container, and afterwards the containers, by their IDs, the
    networks and the volumes are the ones from before, whatever fails on the
    way.  So a Start after a Stop finds the same containers: none is made
    anew. *)
Theorem stop_and_start_keep_the_nodes (D : Deps) (c : Context) (w : World) :
  extendsWith isStopCall w (snd (StopCluster D c w)) /\
  sameNodes w (snd (StopCluster D c w)) /\
  extendsWith isStartCall w (snd (StartCluster D c w)) /\
  sameNodes w (snd (StartCluster D c w)) /\
  sameNodes w (snd (StartCluster D c (snd (StopCluster D c w)))).
Proof.
  assert (S1 : Keeps (extendsWith isStopCall) (StopCluster D c)).
  { unfold_backend.
    keeps (extendsWith_refl isStopCall) (extendsWith_trans isStopCall)
          calls_leaf. }
  assert (S2 : Keeps sameNodes (StopCluster D c)).
  { unfold_backend. keeps sameNodes_refl sameNodes_trans same_leaf. }
  assert (T1 : Keeps (extendsWith isStartCall) (StartCluster D c)).
  { unfold_backend.
    keeps (extendsWith_refl isStartCall) (extendsWith_trans isStartCall)
          calls_leaf. }
  assert (T2 : Keeps sameNodes (StartCluster D c)).
  { unfold_backend. keeps sameNodes_refl sameNodes_trans same_leaf. }
  split; [apply S1|]. split; [apply S2|]. split; [apply T1|].
  split; [apply T2|].
  eapply sameNodes_trans; [apply S2 | apply T2].
Qed.

(** X4. Delete creates nothing and starts nothing: every call it makes is
    the removal of a container, of the local directory, of a network or of a
    volume, and every container, network and volume that is there afterwards
    was there before, whatever fails on the way. *)
Theorem delete_only_removes (D : Deps) (c : Context) (w : World) :
  extendsWith isDeleteCall w (snd (DeleteCluster D c w)) /\
  fewerNodes w (snd (DeleteCluster D c w)).
Proof.
  split.
  - assert (K : Keeps (extendsWith isDeleteCall) (DeleteCluster D c)).
    { unfold_backend.
      keeps (extendsWith_refl isDeleteCall) (extendsWith_trans isDeleteCall)
            calls_leaf. }
    apply K.
  - assert (K : Keeps fewerNodes (DeleteCluster D c)).
    { unfold_backend. keeps fewerNodes_refl fewerNodes_trans fewer_leaf. }
    apply K.
Qed.

Lemma startedStay_refl w : startedStay w w.
Proof.
  split; [auto|]. exists []. split; [now rewrite app_nil_r | intros id []].
Qed.

Lemma startedStay_trans w1 w2 w3 :
  startedStay w1 w2 -> startedStay w2 w3 -> startedStay w1 w3.
Proof.
  intros (A1 & n1 & A2 & A3) (B1 & n2 & B2 & B3).
  split; [auto|]. exists (n1 ++ n2).
  split; [now rewrite B2, A2, <- app_assoc|].
  intros id Hid. apply in_app_or in Hid. destruct Hid as [Hid|Hid]; auto.
Qed.

Lemma startedStay_query call w :
  (forall id, call <> ContainerStart id) -> startedStay w (record call w).
Proof.
  intros H. split; [auto|]. exists [call]. split; [reflexivity|].
  intros id [E|[]]. now apply H in E.
Qed.

Lemma Keeps_startedStay_createContainer D config :
  Keeps startedStay (createContainer D config).
Proof.
  intros w. rewrite createContainer_cases. cbv zeta.
  destruct (oracle D (calls w) _);
    [apply startedStay_query; discriminate|].
  destruct (existsb _ (containers w));
    [apply startedStay_query; discriminate|].
  assert (H : forall cs,
            map ID cs = map ID (containers w) ++ [ID config] ->
            startedStay w
              (setContainers cs
                 (record (ContainerStart (ID config))
                    (record (ContainerCreate config) w)))).
  { intros cs Hcs. split.
    - intros id Hid. cbn [containers setContainers]. rewrite Hcs.
      apply in_or_app. now left.
    - exists [ContainerCreate config; ContainerStart (ID config)].
      split; [simpl; now rewrite <- app_assoc|].
      intros id [E|[E|[]]]; [discriminate E|]. injection E as <-.
      cbn [containers setContainers]. rewrite Hcs.
      apply in_or_app. right. now left. }
  destruct (oracle D _ (ContainerStart _)).
  - apply (H (containers w ++ [config])). now rewrite map_app.
  - apply (H (map (setRunning (ID config) true) (containers w ++ [config]))).
    now rewrite map_ID_setRunning, map_app.
Qed.

Ltac stay_leaf :=
  first [ apply startedStay_query; discriminate
        | apply startedStay_refl ].

(** X5. AddNode removes nothing and stops nothing, and it does not roll
    back: every call it makes is the creation of the client, a query, or the
    creation or start of a container; the containers that were there are
    still there afterwards, and so is every container that it has asked to
    start, also when the creation of a later one fails; the networks and
    volumes are the same. *)
Theorem add_node_never_removes (D : Deps) (c : Context) (w : World) :
  extendsWith isAddNodeCall w (snd (AddNode D c w)) /\
  moreNodes w (snd (AddNode D c w)) /\
  startedStay w (snd (AddNode D c w)).
Proof.
  split; [|split].
  - assert (K : Keeps (extendsWith isAddNodeCall) (AddNode D c)).
    { unfold_backend.
      keeps (extendsWith_refl isAddNodeCall) (extendsWith_trans isAddNodeCall)
            calls_leaf. }
    apply K.
  - assert (K : Keeps moreNodes (AddNode D c)).
    { unfold_backend. keeps moreNodes_refl moreNodes_trans more_leaf. }
    apply K.
  - assert (K : Keeps startedStay (AddNode D c)).
    { unfold AddNode, joinPrelude, locateServer, findNetwork,
        highestWorkerSuffix, addWorker, createWorker, ContainerListM,
        ContainerInspectM, NetworkListM.
      keeps startedStay_refl startedStay_trans stay_leaf.
      all: apply Keeps_startedStay_createContainer. }
    apply K.
Qed.

(** Adding two workers to the cluster [c] when the runtime refuses to create
    the second one: the first one stays. *)
Example add_node_keeps_the_first_worker :
  let r := AddNode (demoDeps (failing (isCreate "c-worker-4")))
             (addNodeCtx "c" "worker" 2) clusterC in
  (exists e, fst r = Fail (CouldntCreateNode "agent" e)) /\
  map ID (containers (snd r)) =
    ["c-server"; "c-worker-0"; "c-worker-2"; "c-worker-3"].
Proof. vm_compute. split; [eexists|]; reflexivity. Qed.

(** ** [AddNode]: roles, the running server, the new nodes *)

Lemma AddNode_other_role D c w :
  nodeRoleOf c <> "agent" -> nodeRoleOf c <> "server" ->
  AddNode D c w =
  (prelude <- joinPrelude D (String_ c "name") ;; ret tt) w.
Proof.
  intros Ha Hs. unfold AddNode, highestWorkerSuffix.
  apply String.eqb_neq in Ha, Hs. rewrite Ha, Hs.
  unfold bind, ret. destruct (joinPrelude D (String_ c "name") w) as [[p|e| |] w1];
    reflexivity.
Qed.

(** X6. The role of [AddNode].  For the roles [server] and [master] it
    returns the "not supported" error at once: no call is made and the world
    is as it was.  A role that is none of [worker], [agent], [server] and
    [master] is not refused: the server of the cluster is looked up as for a
    worker, no container is asked for, nothing changes, and when the look-up
    succeeds [AddNode] returns normally. *)
Theorem add_node_by_role (D : Deps) (c : Context) (w : World) :
  (String_ c "role" = "server" \/ String_ c "role" = "master" ->
   AddNode D c w = (Fail ServerRoleUnsupported, w)) /\
  (String_ c "role" <> "worker" -> String_ c "role" <> "agent" ->
   String_ c "role" <> "server" -> String_ c "role" <> "master" ->
   sameResources w (snd (AddNode D c w)) /\
   forall prelude w1,
     joinPrelude D (String_ c "name") w = (Ok prelude, w1) ->
     AddNode D c w = (Ok tt, w1)).
Proof.
  split.
  - intros [H|H]; unfold AddNode, nodeRoleOf; rewrite H; reflexivity.
  - intros Hw Ha Hs Hm.
    assert (Hrole : nodeRoleOf c = String_ c "role").
    { unfold nodeRoleOf. apply String.eqb_neq in Hw, Hm. now rewrite Hw, Hm. }
    rewrite (AddNode_other_role D c w) by (rewrite Hrole; assumption).
    split.
    + assert (R : ReadOnly (prelude <- joinPrelude D (String_ c "name") ;; ret tt)).
      { apply ReadOnly_bind; [apply ReadOnly_joinPrelude|].
        intros a. apply ReadOnly_ret. }
      apply R.
    + intros prelude w1 H. now rewrite (bind_Ok _ _ _ _ _ H).
Qed.

(** Adding a [server] node, and adding a node of the unknown role [db], to
    the cluster [c]. *)
Lemma add_node_by_role_examples :
  AddNode (demoDeps neverFails) (addNodeCtx "c" "server" 1) clusterC
    = (Fail ServerRoleUnsupported, clusterC) /\
  fst (AddNode (demoDeps neverFails) (addNodeCtx "c" "db" 1) clusterC) = Ok tt /\
  containers (snd (AddNode (demoDeps neverFails) (addNodeCtx "c" "db" 1) clusterC))
    = containers clusterC.
Proof.
  destruct (add_node_by_role (demoDeps neverFails) (addNodeCtx "c" "server" 1)
              clusterC) as (Hsrv & _).
  destruct (add_node_by_role (demoDeps neverFails) (addNodeCtx "c" "db" 1)
              clusterC) as (_ & Hother).
  destruct Hother as (Hsame & Hok); try discriminate.
  split; [apply Hsrv; now left|]. split.
  - erewrite Hok; [reflexivity | vm_compute; reflexivity].
  - apply Hsame.
Defined.

Lemma filter_nothing {A} (p : A -> bool) (l : list A) :
  (forall x, In x l -> p x = false) -> filter p l = [].
Proof.
  induction l as [|x l IH]; intros H; [reflexivity|].
  cbn [filter]. rewrite (H x (or_introl eq_refl)).
  apply IH. intros y Hy. apply H. now right.
Qed.

(** X7. [AddNode] needs the server of the cluster to be running: its look-up
    lists running containers only.  When no running container carries the
    labels of the cluster's server, a stopped one or none being there, and
    the client can be created, [AddNode] returns the "no server container"
    error after the list call, whether that call fails or returns nothing,
    and nothing is created. *)
Theorem add_node_needs_a_running_server (D : Deps) (c : Context) (w : World) :
  let nm := String_ c "name" in
  nodeRoleOf c <> "server" ->
  oracle D (calls w) NewClient = false ->
  (forall x, In x (containers w) ->
     matches (serverFilters nm) (ContainerLabels x) = true ->
     Running x = false) ->
  AddNode D c w =
  (Fail (NoServerContainer nm),
   record (ContainerList (serverFilters nm) false) (record NewClient w)).
Proof.
  intros nm Hrole Hclient Hstopped.
  unfold AddNode. apply String.eqb_neq in Hrole. rewrite Hrole.
  apply bind_Fail. unfold joinPrelude. apply bind_Fail.
  unfold locateServer, bind, try, attempt at 1. rewrite Hclient. fold nm.
  unfold ContainerListM, bind, attempt, get, ret, fail. simpl.
  destruct (oracle D _ (ContainerList (serverFilters nm) false));
    [reflexivity|]. simpl.
  assert (E : filter (fun x => matches (serverFilters nm) (ContainerLabels x)
                               && (false || Running x)) (containers w) = []).
  { apply filter_nothing. intros x Hx.
    destruct (matches (serverFilters nm) (ContainerLabels x)) eqn:Em;
      [|reflexivity].
    now rewrite (Hstopped x Hx Em). }
  match goal with
  | |- context [filter ?p (containers w)] =>
      replace (filter p (containers w)) with (@nil Container)
        by (symmetry; exact E)
  end.
  reflexivity.
Qed.

(** The cluster [c] after [k3d stop --name c]: its server is there but not
    running, and a worker cannot be added. *)
Lemma add_node_to_stopped_cluster :
  let w := snd (StopCluster (demoDeps neverFails) (nameCtx false "c") clusterC) in
  map Running (containers w) = [false; false; false] /\
  fst (AddNode (demoDeps neverFails) (addNodeCtx "c" "agent" 1) w)
    = Fail (NoServerContainer "c") /\
  map ID (containers (snd (AddNode (demoDeps neverFails) (addNodeCtx "c" "agent" 1) w)))
    = map ID (containers clusterC).
Proof.
  intros w.
  assert (H := add_node_needs_a_running_server (demoDeps neverFails)
                 (addNodeCtx "c" "agent" 1) w).
  cbv zeta in H.
  assert (Hrun : map Running (containers w) = [false; false; false])
    by (vm_compute; reflexivity).
  assert (E : AddNode (demoDeps neverFails) (addNodeCtx "c" "agent" 1) w =
              (Fail (NoServerContainer "c"),
               record (ContainerList (serverFilters "c") false)
                      (record NewClient w))).
  { apply H.
    - vm_compute. discriminate.
    - reflexivity.
    - intros x Hx _.
      assert (Hall : forallb (fun y => negb (Running y)) (containers w) = true)
        by (vm_compute; reflexivity).
      rewrite forallb_forall in Hall. apply Hall in Hx.
      now destruct (Running x). }
  rewrite E. split; [exact Hrun|]. split; [reflexivity|].
  vm_compute. reflexivity.
Defined.

Lemma locateServer_Ok D nm w sc w1 :
  locateServer D nm w = (Ok sc, w1) -> In sc (containers w).
Proof.
  unfold locateServer, ContainerListM, ContainerInspectM, try, bind, attempt,
    get, ret, fail.
  destruct (oracle D (calls w) NewClient); [discriminate|].
  cbn [fst snd calls containers record].
  destruct (oracle D _ (ContainerList (serverFilters nm) false));
    [discriminate|].
  cbn [fst snd calls containers record].
  destruct (filter _ (containers w)) as [|server0 rest]; [discriminate|].
  destruct (oracle D _ (ContainerInspect (ID server0))); [discriminate|].
  cbn [fst snd calls containers record].
  destruct (find (hasID (ID server0)) (containers w)) as [x|] eqn:F;
    [|discriminate].
  intros H. injection H as H _. subst x.
  apply (find_some _ _ F).
Qed.

Lemma joinPrelude_Ok D nm w sc join w1 :
  joinPrelude D nm w = (Ok (sc, join), w1) ->
  In sc (containers w) /\ DeriveJoinConfig sc = Ok join.
Proof.
  unfold joinPrelude. intros H.
  destruct (locateServer D nm w) as [[x|e| |] w0] eqn:L;
    try (unfold bind in H; rewrite L in H; discriminate H).
  rewrite (bind_Ok _ _ _ _ _ L) in H.
  apply locateServer_Ok in L.
  unfold lift, bind at 1 in H.
  destruct (DeriveJoinConfig x) as [j|e| |] eqn:J; try discriminate H.
  unfold bind, ret in H.
  destruct (findNetwork D nm w0) as [[[]|e| |] w2]; try discriminate H.
  injection H as H1 H2 H3. subst. now split.
Qed.

Lemma Creates_addWorker D role spec i :
  Creates (fun cfg => exists i, cfg = workerConfig spec i)
          (addWorker D role spec i).
Proof.
  unfold addWorker, createWorker.
  apply Creates_bind; [|intros; apply Creates_ReadOnly, ReadOnly_ret].
  apply Creates_try.
  - apply Creates_createContainer. now exists i.
  - intros e. apply Creates_ReadOnly, ReadOnly_fail.
Qed.

(** X8. What the nodes added by [AddNode] are given.  Every container that
    [AddNode] asks the runtime for is a worker of the cluster made from one
    join configuration, the one read off a container of the world before the
    call: its image is the image flag with the default registry, its
    environment is the server URL followed by the secret entry and nothing
    else, its command is [agent] alone, and it has no port mapping, no
    volume and no restart policy, whatever the cluster was created with. *)
Theorem added_nodes_get_the_url_and_the_secret_only
  (D : Deps) (c : Context) (w : World) :
  exists l,
    createdConfigs (calls (snd (AddNode D c w))) = createdConfigs (calls w) ++ l /\
    (l = [] \/
     exists sc join,
       In sc (containers w) /\
       DeriveJoinConfig sc = Ok join /\
       Forall (fun cfg =>
                 (exists i, Name cfg = workerName (String_ c "name") i) /\
                 ContainerLabels cfg = nodeLabels (String_ c "name") "worker" /\
                 Image cfg = withRegistry (String_ c "image") /\
                 Env cfg = [snd join; fst join] /\
                 Cmd cfg = ["agent"] /\
                 Ports cfg = [] /\
                 Binds cfg = [] /\
                 RestartUnlessStopped cfg = false) l).
Proof.
  unfold AddNode.
  destruct (String.eqb (nodeRoleOf c) "server").
  { exists []. split; [now rewrite app_nil_r | now left]. }
  pose proof (ReadOnly_joinPrelude D (String_ c "name") w) as R.
  destruct (joinPrelude D (String_ c "name") w) as [[[sc join]|e| |] w1] eqn:EP;
    simpl in R; destruct R as (_ & _ & _ & _ & R);
    try (exists []; unfold bind; rewrite EP; simpl; rewrite app_nil_r;
         split; [exact R | now left]).
  rewrite (bind_Ok _ _ _ _ _ EP). cbn [snd].
  apply joinPrelude_Ok in EP. destruct EP as (Hin & HJ).
  set (spec := joinSpec (String_ c "name") (withRegistry (String_ c "image")) join).
  assert (C : Creates (fun cfg => exists i, cfg = workerConfig spec i)
                (highestExistingWorkerSuffix <-
                   highestWorkerSuffix D (String_ c "name") (nodeRoleOf c) ;;
                 (if String.eqb (nodeRoleOf c) "agent"
                  then forEach (addWorker D (nodeRoleOf c) spec)
                         (newSuffixes highestExistingWorkerSuffix
                            (Int_ c "count"))
                  else ret tt))).
  { apply Creates_bind.
    - apply Creates_ReadOnly, ReadOnly_highestWorkerSuffix.
    - intros h. destruct (String.eqb (nodeRoleOf c) "agent").
      + apply Creates_forEach. intros i. apply Creates_addWorker.
      + apply Creates_ReadOnly, ReadOnly_ret. }
  destruct (C w1) as (l & Hl & HP).
  exists l. split; [now rewrite Hl, R|].
  right. exists sc, join. split; [exact Hin|]. split; [exact HJ|].
  apply Forall_impl with (2 := HP).
  intros cfg (i & ->). split; [now exists i|]. repeat split.
Qed.

(** Two workers added to the cluster [c]: both get the URL of [c-server] and
    the secret of the cluster, and nothing else. *)
Example added_nodes_of_cluster_c :
  map Env (createdConfigs (calls (snd
     (AddNode (demoDeps neverFails) (addNodeCtx "c" "worker" 2) clusterC))))
  = [ ["K3S_URL=https://c-server:6443"; "K3S_CLUSTER_SECRET=abc"];
      ["K3S_URL=https://c-server:6443"; "K3S_CLUSTER_SECRET=abc"] ].
Proof. vm_compute. reflexivity. Qed.

(** ** [CreateCluster]: errors of the configuration part *)

(** X9. The errors that [CreateCluster] returns between the creation of the
    network and the creation part are returned as they are, without the
    rollback.  When the name is valid and free and the network has been
    created, a bad [--api-port] gives its error, a bad [--port] list ends
    the program, and a refused volume gives the runtime's error, in this
    order; in each case no removal is asked for, and the network that was
    just created is still there afterwards. *)
Theorem create_configuration_errors_leave_the_network
  (D : Deps) (c : Context) (w : World) :
  let nm := String_ c "name" in
  let names := GetAllContainerNames nm defaultServerCount (Int_ c "workers") in
  let outcome : Res unit :=
    match parseAPIPort D (String_ c "api-port") with
    | None => Fail (BadAPIPort (String_ c "api-port"))
    | Some _ =>
        match mapNodesToPortSpecs D (StringSlice_ c "port") names with
        | None => Exit
        | Some _ => Fail (RuntimeError (VolumeCreate nm))
        end
    end in
  CheckClusterName D nm = true ->
  getClusters false nm w = (Ok [], w) ->
  oracle D (calls w) (NetworkCreate nm) = false ->
  parseAPIPort D (String_ c "api-port") = None \/
  mapNodesToPortSpecs D (StringSlice_ c "port") names = None \/
  oracle D (calls w ++ [NetworkCreate nm]) (VolumeCreate nm) = true ->
  let w' := snd (CreateCluster D c w) in
  fst (CreateCluster D c w) = outcome /\
  networks w' = nm :: networks w /\
  containers w' = containers w /\
  volumes w' = volumes w /\
  dirs w' = dirs w /\
  (calls w' = calls w ++ [NetworkCreate nm] \/
   calls w' = calls w ++ [NetworkCreate nm; VolumeCreate nm]).
Proof.
  intros nm names outcome HV HG HN Hbad w'. subst w' outcome.
  destruct (CreateCluster D c w) as [r w'] eqn:E. cbn [fst snd].
  unfold CreateCluster in E. fold nm in E. rewrite HV in E. simpl in E.
  rewrite (bind_Ok _ _ _ _ _ HG) in E. simpl in E.
  unfold bind at 1 in E. rewrite createClusterNetwork_spec, HN in E.
  destruct (parseAPIPort D (String_ c "api-port")) as [apiPort0|].
  2:{ injection E as <- <-. repeat split. now left. }
  set (w1 := setNetworks _ _) in E.
  match type of E with
  | bind ?m _ w1 = _ =>
      assert (HA : exists a wl, m w1 = (Ok a, wl) /\
                     containers wl = containers w1 /\
                     networks wl = networks w1 /\ volumes wl = volumes w1 /\
                     dirs wl = dirs w1 /\ calls wl = calls w1)
  end.
  { destruct (String.eqb (Host apiPort0) ""); [|now eexists _, w1].
    destruct (getDockerMachineIp D) as [ip [|]];
      eexists _, _; (split; [reflexivity|]); repeat split. }
  destruct HA as (apiPort1 & wl & HA & Hc & Hn & Hv & Hd & Hcalls).
  rewrite (bind_Ok _ _ _ _ _ HA) in E. fold names in E.
  destruct (mapNodesToPortSpecs D (StringSlice_ c "port") names) as [portmap|].
  2:{ injection E as <- <-. rewrite Hc, Hn, Hv, Hd, Hcalls.
      repeat split. now left. }
  destruct Hbad as [Hbad|[Hbad|Hbad]]; try discriminate Hbad.
  unfold bind at 1 in E. rewrite createImageVolume_spec in E.
  rewrite Hcalls in E. unfold w1 at 1 in E. cbn [calls record setNetworks] in E.
  rewrite Hbad in E. injection E as <- <-.
  unfold record; cbn [containers networks volumes dirs calls].
  rewrite Hc, Hn, Hv, Hd, Hcalls. unfold w1. simpl.
  repeat split. right. now rewrite <- app_assoc.
Qed.

(** Creating the cluster [c] with a runtime that refuses the volume: the
    network [c] stays behind. *)
Lemma create_with_refused_volume_leaves_the_network :
  let D := demoDeps (failing (fun call => match call with
                                          | VolumeCreate _ => true
                                          | _ => false
                                          end)) in
  fst (CreateCluster D (createCtx "c" 1 [] None) emptyWorld)
    = Fail (RuntimeError (VolumeCreate "c")) /\
  networks (snd (CreateCluster D (createCtx "c" 1 [] None) emptyWorld)) = ["c"].
Proof.
  intros D.
  destruct (create_configuration_errors_leave_the_network D
              (createCtx "c" 1 [] None) emptyWorld)
    as (Hr & Hn & _).
  - reflexivity.
  - reflexivity.
  - reflexivity.
  - right. right. reflexivity.
  - split; [exact Hr | exact Hn].
Defined.

(** ** [CreateCluster]: the world after a successful run *)

Lemma asCreated_setRunning id b x : asCreated (setRunning id b x) = asCreated x.
Proof. unfold setRunning. now destruct (hasID id x). Qed.

Lemma map_asCreated_setRunning id b l :
  map asCreated (map (setRunning id b) l) = map asCreated l.
Proof.
  rewrite map_map. apply map_ext. intros x. apply asCreated_setRunning.
Qed.

Lemma addedNodes_refl w w' :
  containers w' = containers w -> addedNodes [] w w'.
Proof.
  intros H. split; [now rewrite H, app_nil_r|].
  intros x Hx. right. now rewrite <- H.
Qed.

Lemma addedNodes_step l cfg w w1 w2 :
  asCreated cfg = cfg ->
  addedNodes l w w1 ->
  containers w2 = map (setRunning (ID cfg) true) (containers w1 ++ [cfg]) ->
  addedNodes (l ++ [cfg]) w w2.
Proof.
  intros Hcfg (Hm & Hr) Hc. split.
  - rewrite Hc, map_asCreated_setRunning, map_app, Hm. simpl.
    now rewrite Hcfg, <- app_assoc.
  - intros x Hx. rewrite Hc in Hx. apply in_map_iff in Hx.
    destruct Hx as (y & <- & Hy). unfold setRunning.
    destruct (hasID (ID cfg) y) eqn:E; [now left|].
    apply in_app_or in Hy. destruct Hy as [Hy|[<-|[]]]; [now apply Hr|].
    unfold hasID in E. now rewrite String.eqb_refl in E.
Qed.

Lemma try_rollback_Ok {A} D c (m : M A) (g : Error -> Error) w a w' :
  try m (fun err => deleteCluster D c ;;; fail (g err)) w = (Ok a, w') ->
  m w = (Ok a, w').
Proof.
  unfold try. destruct (m w) as [[a0|e| |] w1]; try discriminate; [easy|].
  intros H. exfalso.
  destruct (@rollback_then_fail A D c (g e) w1) as (_ & Hne).
  apply (Hne a). now rewrite H.
Qed.

Lemma createContainer_Ok_world D config w id w' :
  createContainer D config w = (Ok id, w') ->
  containers w' = map (setRunning (ID config) true) (containers w ++ [config]) /\
  networks w' = networks w /\ volumes w' = volumes w /\ dirs w' = dirs w /\
  existsb (fun x => String.eqb (Name x) (Name config)) (containers w) = false.
Proof.
  rewrite createContainer_cases. cbv zeta.
  destruct (oracle D (calls w) _); [discriminate|].
  destruct (existsb _ (containers w)); [discriminate|].
  destruct (oracle D _ (ContainerStart _)); [discriminate|].
  intros H. injection H as _ <-. repeat split.
Qed.

Lemma bootWorker_Ok_created D c spec i w w' :
  bootWorker D c spec i w = (Ok tt, w') ->
  exists id, createContainer D (workerConfig spec i) w = (Ok id, w').
Proof.
  unfold bootWorker, createWorker, bind at 1. intros H.
  destruct (try (createContainer D (workerConfig spec i)) _ w)
    as [[id|e| |] w1] eqn:E; try discriminate H.
  injection H as <-.
  exists id. now apply (try_rollback_Ok D c _ (fun e => e)).
Qed.

Lemma bootWorkers_Ok_world D c spec l : forall done w0 w w',
  forEach (bootWorker D c spec) l w = (Ok tt, w') ->
  rollbackReady spec w ->
  addedNodes done w0 w ->
  rollbackReady spec w' /\
  addedNodes (done ++ map (workerConfig spec) l) w0 w' /\
  networks w' = networks w /\ volumes w' = volumes w.
Proof.
  induction l as [|i l IH]; intros done w0 w w' H Hready Hadd.
  - injection H as <-. simpl. now rewrite app_nil_r.
  - rewrite forEach_cons in H.
    destruct (bootWorker D c spec i w) as [[[]|e| |] w1] eqn:E;
      try discriminate H.
    destruct (bootWorker_Ok_created D c spec i w w1 E) as (id & EC).
    destruct (createContainer_Ok_world D _ w id w1 EC) as (Hc & Hn & Hv & _).
    assert (Hready1 : rollbackReady spec w1).
    { set (w2 := setContainers (containers w ++ [workerConfig spec i]) w).
      apply (rollbackReady_running spec (ID (workerConfig spec i)) true w2 w1 Hc).
      now apply (rollbackReady_worker spec i w w2). }
    assert (Hadd1 : addedNodes (done ++ [workerConfig spec i]) w0 w1)
      by (now apply (addedNodes_step done (workerConfig spec i) w0 w w1)).
    destruct (IH _ w0 w1 w' H Hready1 Hadd1) as (Hr & Ha & Hn' & Hv').
    split; [exact Hr|]. split; [|split; congruence].
    simpl. now rewrite <- app_assoc in Ha.
Qed.

Lemma intRange_empty lo hi : hi <= lo -> intRange lo hi = [].
Proof.
  intros H. unfold intRange.
  replace (Z.to_nat (hi - lo)) with 0%nat by lia. reflexivity.
Qed.

Lemma bind_Ok_inv {A B} (m : M A) (k : A -> M B) w b w' :
  bind m k w = (Ok b, w') ->
  exists a w1, m w = (Ok a, w1) /\ k a w1 = (Ok b, w').
Proof.
  unfold bind. destruct (m w) as [[a|e| |] w1]; try discriminate.
  intros H. now exists a, w1.
Qed.

(** The creation part, when it ends normally, for a name without node
    containers: the server and the workers of ordinals 0 to N-1 have been
    added in this order and run, and they are the nodes a Delete looks
    for. *)
Lemma createNodes_Ok_world D c spec w w' :
  createNodes D c spec w = (Ok tt, w') ->
  clusterContainers (ClusterName spec) w = [] ->
  rollbackReady spec w' /\
  addedNodes (serverConfig spec ::
              map (workerConfig spec) (intRange 0 (Int_ c "workers"))) w w' /\
  networks w' = networks w /\ volumes w' = volumes w.
Proof.
  intros H Hnone. unfold createNodes in H.
  apply bind_Ok_inv in H. destruct H as ([] & w0 & E0 & H).
  assert (Hw0 : containers w0 = containers w /\ networks w0 = networks w /\
                volumes w0 = volumes w).
  { unfold createClusterDir in E0. injection E0 as <-. repeat split. }
  destruct Hw0 as (Hc0 & Hn0 & Hv0).
  apply bind_Ok_inv in H. destruct H as (id & w1 & E & H).
  unfold createServer in E.
  apply (try_rollback_Ok D c _ (fun e => e)) in E.
  destruct (createContainer_Ok_world D _ w0 id w1 E) as (Hc & Hn & Hv & _).
  rewrite Hc0 in Hc.
  assert (Hready1 : rollbackReady spec w1).
  { set (w2 := setContainers (containers w ++ [serverConfig spec]) w).
    apply (rollbackReady_running spec (ID (serverConfig spec)) true w2 w1 Hc).
    now apply (rollbackReady_server spec w w2). }
  assert (Hadd1 : addedNodes [serverConfig spec] w w1).
  { apply (addedNodes_step [] (serverConfig spec) w w w1);
      [reflexivity | now apply addedNodes_refl | exact Hc]. }
  apply bind_Ok_inv in H. destruct H as ([] & w2 & EW & H).
  assert (Hw2 : containers w2 = containers w1 /\ networks w2 = networks w1 /\
                volumes w2 = volumes w1).
  { destruct (IsSet_ c "wait").
    - apply try_rollback_Ok in EW.
      unfold waitForContainerLogMessage, attempt in EW.
      destruct (oracle D (calls w1) _); [discriminate|].
      injection EW as <-. repeat split.
    - injection EW as <-. repeat split. }
  destruct Hw2 as (Hc2 & Hn2 & Hv2).
  assert (Hready2 : rollbackReady spec w2)
    by (now apply (rollbackReady_same spec w1 w2)).
  assert (Hadd2 : addedNodes [serverConfig spec] w w2).
  { destruct Hadd1 as (Ha & Hb). split; [now rewrite Hc2|].
    intros x Hx. apply Hb. now rewrite <- Hc2. }
  apply bind_Ok_inv in H. destruct H as ([] & w3 & EF & H).
  injection H as <-.
  destruct (0 <? Int_ c "workers") eqn:EN.
  - unfold createWorkers in EF.
    destruct (bootWorkers_Ok_world D c spec _ _ w w2 w3 EF Hready2 Hadd2)
      as (Hr & Ha & Hn3 & Hv3).
    split; [exact Hr|]. split; [exact Ha|]. split; congruence.
  - apply Z.ltb_ge in EN. rewrite (intRange_empty 0 _ EN).
    injection EF as <-.
    split; [exact Hready2|]. split; [exact Hadd2|]. split; congruence.
Qed.

(** A successful Create: the checks passed, the network and the volume were
    created, and the creation part ran, and ended normally, with a
    [ClusterSpec] whose environment and server arguments are these. *)
Lemma CreateCluster_Ok_spec D c w w' :
  CreateCluster D c w = (Ok tt, w') ->
  exists spec w1 p,
    let host := if String.eqb (Host p) ""
                then fst (getDockerMachineIp D) else Host p in
    getClusters false (String_ c "name") w = (Ok [], w) /\
    parseAPIPort D (String_ c "api-port") = Some p /\
    ClusterName spec = String_ c "name" /\
    SpecEnv spec =
      ["K3S_KUBECONFIG_OUTPUT=/output/kubeconfig.yaml"]
      ++ StringSlice_ c "env"
      ++ [("K3S_CLUSTER_SECRET=" ++ GenerateRandomString D 20)%string] /\
    ServerArgs spec =
      ["--https-listen-port"; Port p]
      ++ (if negb (String.eqb host "") then ["--tls-san"; host] else [])
      ++ (if IsSet_ c "server-arg" || IsSet_ c "x"
          then StringSlice_ c "server-arg" else []) /\
    containers w1 = containers w /\
    networks w1 = String_ c "name" :: networks w /\
    volumes w1 = String_ c "name" :: volumes w /\
    createNodes D c spec w1 = (Ok tt, w').
Proof.
  intros E. unfold CreateCluster in E.
  destruct (CheckClusterName D (String_ c "name")); [|discriminate E].
  simpl in E.
  apply bind_Ok_inv in E. destruct E as (cl & w0 & EG & E).
  assert (w0 = w) as -> by (unfold getClusters in EG; now injection EG).
  destruct cl as [|cl cls]; [|discriminate E]. simpl in E.
  apply bind_Ok_inv in E. destruct E as (networkID & wn & EN & E).
  rewrite createClusterNetwork_spec in EN.
  destruct (oracle D (calls w) (NetworkCreate _)); [discriminate EN|].
  injection EN as _ <-.
  destruct (parseAPIPort D (String_ c "api-port")) as [p|]; [|discriminate E].
  apply bind_Ok_inv in E. destruct E as (apiPort1 & wl & EA & E).
  set (w1 := setNetworks _ _) in *.
  assert (HA : Host apiPort1 =
               (if String.eqb (Host p) ""
                then fst (getDockerMachineIp D) else Host p) /\
               containers wl = containers w1 /\
               networks wl = networks w1 /\ volumes wl = volumes w1 /\
               calls wl = calls w1).
  { destruct (String.eqb (Host p) "").
    - destruct (getDockerMachineIp D) as [ip [|]];
        injection EA as <- <-; repeat split.
    - injection EA as <- <-. repeat split. }
  destruct HA as (Hh & Hc & Hn & Hv & Hcalls).
  destruct (mapNodesToPortSpecs D _ _) as [portmap|]; [|discriminate E].
  apply bind_Ok_inv in E. destruct E as (imageVolume & wv & EV & E).
  rewrite createImageVolume_spec in EV.
  destruct (oracle D (calls wl) (VolumeCreate _)); [discriminate EV|].
  injection EV as <- <-.
  match type of E with createNodes D c ?sp ?wv = _ => exists sp, wv, p end.
  cbv zeta. cbn [ClusterName SpecEnv ServerArgs].
  split; [exact EG|]. split; [reflexivity|]. split; [reflexivity|].
  split; [reflexivity|]. split.
  { rewrite <- Hh. destruct (negb (String.eqb (Host apiPort1) ""));
      destruct (IsSet_ c "server-arg" || IsSet_ c "x"); simpl;
      rewrite ?app_nil_r; reflexivity. }
  split; [simpl; now rewrite Hc|].
  split; [simpl; now rewrite Hn|].
  split; [simpl; now rewrite Hv|].
  exact E.
Qed.

Lemma clusterContainers_labels nm x w :
  In x (clusterContainers nm w) <->
  In x (containers w) /\
  matches [("app", "k3d"); ("cluster", nm)] (ContainerLabels x) = true.
Proof. unfold clusterContainers. apply filter_In. Qed.

(** When no removal is refused, the Delete of a name whose node containers
    are the server and workers of a [ClusterSpec] leaves nothing of it. *)
Lemma DeleteCluster_complete D c spec w :
  ClusterName spec = String_ c "name" ->
  String_ c "name" <> "" ->
  Bool_ c "all" = false ->
  removalsSucceed D ->
  rollbackReady spec w ->
  fst (DeleteCluster D c w) = Ok tt /\
  nothingLeft (String_ c "name") (snd (DeleteCluster D c w)).
Proof.
  intros Hn Hnm Hall HR Hready.
  rewrite <- Hn in Hnm.
  destruct (getClusters_rollbackReady spec w Hnm Hready)
    as (s & Hs & Hid & Hsrv & HG).
  destruct Hready as (_ & Hall0).
  set (cs := clusterContainers (ClusterName spec) w) in *.
  set (ws := sortBySuffix (filter (isComponent "worker") cs)) in *.
  assert (Hws : forall x, In x ws ->
            In x cs /\ isComponent "worker" x = true).
  { intros x Hx. unfold ws in Hx.
    apply (proj1 (sortBySuffix_In _ _)) in Hx. now apply filter_In in Hx. }
  assert (Hdiff : forall x, In x ws -> ID x <> ID s).
  { intros x Hx. destruct (Hws x Hx) as (Hxc & Hw).
    destruct (Hall0 x Hxc) as [Hsv|(_ & i & Hi)].
    - assert (Hxs : In x (filter (isComponent "server") cs))
        by (apply filter_In; now split).
      rewrite Hsrv in Hxs. destruct Hxs as [<-|[]].
      exfalso. clear - Hsv Hw. unfold isComponent, hasLabel in *. simpl in *.
      destruct (label "component" (ContainerLabels s)) as [v|];
        [|discriminate].
      apply String.eqb_eq in Hsv, Hw. subst. discriminate.
    - rewrite Hi, Hid. apply worker_is_not_server. }
  destruct (deleteOne_complete D (ClusterName spec) s ws w HR Hs Hdiff)
    as (Hr & Hc & Hnet & Hvol).
  set (cl := mkCluster (ClusterName spec) (Some s) ws) in *.
  assert (ED : DeleteCluster D c w = (Ok tt, snd (deleteOne D cl w))).
  { unfold DeleteCluster. rewrite Hall, <- Hn.
    rewrite (bind_Ok _ _ _ _ _ HG). simpl. unfold bind.
    rewrite (pair_eta _ _ Hr). reflexivity. }
  rewrite ED. simpl. split; [reflexivity|].
  rewrite <- Hn. split; [|split; assumption].
  destruct (clusterContainers (ClusterName spec) (snd (deleteOne D cl w)))
    as [|x rest] eqn:E; [reflexivity|].
  exfalso.
  assert (Hx : In x (clusterContainers (ClusterName spec)
                       (snd (deleteOne D cl w))))
    by (rewrite E; now left).
  unfold clusterContainers in Hx. apply filter_In in Hx.
  destruct Hx as [Hx Hm]. destruct (Hc x Hx) as (Hx0 & Hnw & Hns).
  assert (Hxc : In x cs) by (apply filter_In; now split).
  destruct (Hall0 x Hxc) as [Hsv|(Hw & _)].
  - assert (Hxs : In x (filter (isComponent "server") cs))
      by (apply filter_In; now split).
    rewrite Hsrv in Hxs. destruct Hxs as [<-|[]]. now apply Hns.
  - apply Hnw. apply in_map. apply sortBySuffix_In. apply filter_In.
    now split.
Qed.

(** X10. The world after a successful Create of a name that is not empty.
    The containers that were there are still there, in their order; after
    them come the server and the workers of ordinals 0 to N-1, in this
    order, made from one [ClusterSpec] whose environment ends with the
    generated secret; every node container of the cluster runs; and the
    network and the volume of the cluster have been added. *)
Theorem create_adds_the_server_and_the_workers
  (D : Deps) (c : Context) (w w' : World) :
  let nm := String_ c "name" in
  nm <> "" ->
  CreateCluster D c w = (Ok tt, w') ->
  exists spec,
    ClusterName spec = nm /\
    SpecEnv spec =
      ["K3S_KUBECONFIG_OUTPUT=/output/kubeconfig.yaml"]
      ++ StringSlice_ c "env"
      ++ [("K3S_CLUSTER_SECRET=" ++ GenerateRandomString D 20)%string] /\
    map asCreated (containers w') =
      map asCreated (containers w)
      ++ serverConfig spec
         :: map (workerConfig spec) (intRange 0 (Int_ c "workers")) /\
    (forall x, In x (clusterContainers nm w') -> Running x = true) /\
    networks w' = nm :: networks w /\
    volumes w' = nm :: volumes w.
Proof.
  intros nm Hnm E.
  destruct (CreateCluster_Ok_spec D c w w' E)
    as (spec & w1 & p & HG & _ & Hname & Henv & _ & Hc & Hn & Hv & EN).
  cbv zeta in *. fold nm in HG, Hname, Hn, Hv.
  assert (Hfree : clusterContainers nm w = []) by (now apply free_name).
  assert (Hfree1 : clusterContainers (ClusterName spec) w1 = []).
  { rewrite Hname. unfold clusterContainers in *. now rewrite Hc. }
  destruct (createNodes_Ok_world D c spec w1 w' EN Hfree1)
    as (_ & (Hmap & Hrun) & Hn' & Hv').
  exists spec. split; [exact Hname|]. split; [exact Henv|].
  split; [now rewrite Hmap, Hc|].
  split; [|split; congruence].
  intros x Hx. apply clusterContainers_labels in Hx. destruct Hx as (Hx & Hm).
  destruct (Hrun x Hx) as [Hr|Hold]; [exact Hr|]. exfalso.
  assert (Hin : In x (clusterContainers nm w)).
  { apply clusterContainers_labels. rewrite <- Hc. now split. }
  now rewrite Hfree in Hin.
Qed.

(** X11. Delete after Create.  A Delete of the name, run on the world that a
    successful Create of that name has left, with a runtime that refuses no
    removal, returns normally and leaves no node container, no network and
    no volume of that name: Delete finds all that Create has made. *)
Theorem create_then_delete_leaves_nothing
  (D D' : Deps) (c c' : Context) (w w' : World) :
  let nm := String_ c "name" in
  nm <> "" ->
  CreateCluster D c w = (Ok tt, w') ->
  String_ c' "name" = nm ->
  Bool_ c' "all" = false ->
  removalsSucceed D' ->
  fst (DeleteCluster D' c' w') = Ok tt /\
  nothingLeft nm (snd (DeleteCluster D' c' w')).
Proof.
  intros nm Hnm E Hname' Hall HR.
  destruct (CreateCluster_Ok_spec D c w w' E)
    as (spec & w1 & p & HG & _ & Hname & _ & _ & Hc & _ & _ & EN).
  cbv zeta in *. fold nm in HG, Hname.
  assert (Hfree1 : clusterContainers (ClusterName spec) w1 = []).
  { rewrite Hname. pose proof (free_name nm w Hnm HG) as Hfree.
    unfold clusterContainers in *. now rewrite Hc. }
  destruct (createNodes_Ok_world D c spec w1 w' EN Hfree1) as (Hready & _).
  rewrite <- Hname'.
  apply (DeleteCluster_complete D' c' spec w'); try assumption.
  - now rewrite Hname'.
  - now rewrite Hname'.
Qed.

(** Creating the cluster [c] with two workers in the empty world. *)
Lemma create_demo_world :
  let w' := snd (CreateCluster (demoDeps neverFails)
                   (createCtx "c" 2 ["A=b"] None) emptyWorld) in
  networks w' = ["c"] /\ volumes w' = ["c"] /\
  map Name (containers w') = ["c-server"; "c-worker-0"; "c-worker-1"] /\
  map Running (containers w') = [true; true; true].
Proof.
  intros w'.
  destruct (create_adds_the_server_and_the_workers (demoDeps neverFails)
              (createCtx "c" 2 ["A=b"] None) emptyWorld w')
    as (spec & _ & _ & _ & _ & Hn & Hv).
  - discriminate.
  - vm_compute. reflexivity.
  - split; [exact Hn|]. split; [exact Hv|]. split; vm_compute; reflexivity.
Defined.

(** Creating the cluster [c] with two workers in the empty world, then
    deleting it. *)
Lemma create_then_delete_demo :
  let w' := snd (CreateCluster (demoDeps neverFails)
                   (createCtx "c" 2 ["A=b"] None) emptyWorld) in
  fst (DeleteCluster (demoDeps neverFails) (nameCtx false "c") w') = Ok tt /\
  nothingLeft "c" (snd (DeleteCluster (demoDeps neverFails) (nameCtx false "c") w')).
Proof.
  intros w'.
  apply (create_then_delete_leaves_nothing (demoDeps neverFails)
           (demoDeps neverFails) (createCtx "c" 2 ["A=b"] None)
           (nameCtx false "c") emptyWorld w').
  - discriminate.
  - vm_compute. reflexivity.
  - reflexivity.
  - reflexivity.
  - intros tr call _. reflexivity.
Defined.

(** ** [AddNode] after [CreateCluster] *)

Lemma filter_and {A} (p q : A -> bool) l :
  filter (fun x => p x && q x) l = filter q (filter p l).
Proof.
  induction l as [|x l IH]; [reflexivity|]. simpl.
  destruct (p x); simpl; [destruct (q x)|]; now rewrite IH.
Qed.

Lemma serverFilters_split nm ls :
  matches (serverFilters nm) ls =
  matches [("app", "k3d"); ("cluster", nm)] ls
  && hasLabel ls ("component", "server").
Proof.
  unfold serverFilters, filtersAdd, matches. cbn [app forallb].
  destruct (hasLabel ls ("cluster", nm)), (hasLabel ls ("app", "k3d")),
    (hasLabel ls ("component", "server")); reflexivity.
Qed.

Lemma runningServers_split nm w :
  filter (fun x => matches (serverFilters nm) (ContainerLabels x)
                   && (false || Running x)) (containers w) =
  filter Running
    (filter (isComponent "server") (clusterContainers nm w)).
Proof.
  unfold clusterContainers. rewrite <- !filter_and.
  apply filter_ext. intros x. rewrite serverFilters_split.
  unfold isComponent. cbn [orb]. symmetry. apply andb_assoc.
Qed.

Lemma secret_entry_key r :
  envKey ("K3S_CLUSTER_SECRET=" ++ r)%string = "K3S_CLUSTER_SECRET".
Proof. reflexivity. Qed.

Lemma DeriveJoinConfig_created spec (x : Container) pre s p extra :
  asCreated x = serverConfig spec ->
  SpecEnv spec = pre ++ [s] ->
  envKey s = "K3S_CLUSTER_SECRET" ->
  ServerArgs spec = "--https-listen-port" :: p :: extra ->
  p <> "" ->
  ~ In "--https-listen-port" (p :: extra) ->
  DeriveJoinConfig x =
  Ok (s, ("K3S_URL=https://"
            ++ GetContainerName "server" (ClusterName spec) None
            ++ ":" ++ p)%string).
Proof.
  intros Hx Henv Hs Hargs Hp Hflag.
  assert (HE : Env x = pre ++ [s])
    by (rewrite <- Henv; exact (f_equal Env Hx)).
  assert (HC : Cmd x = ["server"] ++ "--https-listen-port" :: p :: extra)
    by (simpl; rewrite <- Hargs; exact (f_equal Cmd Hx)).
  assert (HN : Name x = GetContainerName "server" (ClusterName spec) None)
    by exact (f_equal Name Hx).
  unfold DeriveJoinConfig. rewrite HE, HC, HN.
  rewrite (scanClusterSecret_last pre s [] Hs) by (intros e []).
  rewrite (eqb_empty_false s (envKey_secret_nonempty s Hs)).
  rewrite (scanListenPort_last ["server"] p extra Hflag).
  now rewrite (eqb_empty_false p Hp).
Qed.

Lemma findNetwork_found D nm w :
  queriesSucceed D ->
  In nm (networks w) ->
  fst (findNetwork D nm w) = Ok tt.
Proof.
  intros HQ Hin. unfold findNetwork, NetworkListM, try, bind, attempt, get, ret.
  cbv beta zeta. rewrite (HQ _ (NetworkList _) eq_refl). cbn [fst snd networks record].
  destruct (filter _ (networks w)) as [|n l] eqn:E; [|reflexivity].
  exfalso.
  assert (Hn : In nm (filter
            (fun n => matches
               (filtersDel (serverFilters nm) ("component", "server"))
               (networkLabels n)) (networks w))).
  { apply filter_In. split; [exact Hin|].
    unfold serverFilters, filtersAdd, filtersDel, matches, networkLabels,
      hasLabel, kvEqb.
    simpl. now rewrite !String.eqb_refl. }
  now rewrite E in Hn.
Qed.

Lemma locateServer_found D nm w s rest :
  queriesSucceed D ->
  filter Running (filter (isComponent "server") (clusterContainers nm w))
    = s :: rest ->
  exists x w2,
    locateServer D nm w = (Ok x, w2) /\
    In x (containers w) /\ ID x = ID s /\ networks w2 = networks w.
Proof.
  intros HQ Hf.
  assert (Hs : In s (containers w)).
  { assert (H : In s (s :: rest)) by now left.
    rewrite <- Hf in H. apply filter_In in H. destruct H as [H _].
    apply filter_In in H. destruct H as [H _].
    now apply clusterContainers_labels in H. }
  destruct (find (hasID (ID s)) (containers w)) as [x|] eqn:F.
  2:{ exfalso. pose proof (find_none _ _ F s Hs) as H.
      unfold hasID in H. now rewrite String.eqb_refl in H. }
  destruct (find_some _ _ F) as (Hx & Hid).
  exists x. eexists. split; [|split; [exact Hx|split]].
  - unfold locateServer, ContainerListM, ContainerInspectM, try, bind, attempt,
      get, ret, fail.
    cbv beta zeta.
    rewrite (HQ _ NewClient eq_refl).
    rewrite (HQ _ (ContainerList _ _) eq_refl).
    cbn [fst snd containers record].
    rewrite runningServers_split, Hf.
    rewrite (HQ _ (ContainerInspect _) eq_refl).
    cbn [fst snd containers record]. rewrite F. reflexivity.
  - unfold hasID in Hid. now apply String.eqb_eq in Hid.
  - reflexivity.
Qed.

(** X12. AddNode after Create.  On the world that a successful Create has
    left, with a runtime that answers the queries, and when no container
    from before Create has the identifier of the new server, the preparation
    of [AddNode] for the same name finds the server that Create has made and
    reads back, from its environment, the secret entry that Create has
    generated, whatever the user's [--env] entries are, and, from its
    command, the port of [--api-port], as long as the port is not empty
    and neither it nor the server arguments added after it are the port
    flag.  The URL names the server container and that port. *)
Theorem create_then_join_configuration
  (D D' : Deps) (c : Context) (w w' : World) (p : apiPort) :
  let nm := String_ c "name" in
  let host := if String.eqb (Host p) ""
              then fst (getDockerMachineIp D) else Host p in
  let extra :=
    (if negb (String.eqb host "") then ["--tls-san"; host] else [])
    ++ (if IsSet_ c "server-arg" || IsSet_ c "x"
        then StringSlice_ c "server-arg" else []) in
  nm <> "" ->
  CreateCluster D c w = (Ok tt, w') ->
  (forall x, In x (containers w) -> ID x <> GetContainerName "server" nm None) ->
  parseAPIPort D (String_ c "api-port") = Some p ->
  Port p <> "" ->
  ~ In "--https-listen-port" (Port p :: extra) ->
  queriesSucceed D' ->
  exists sc w2,
    joinPrelude D' nm w' =
    (Ok (sc,
         (("K3S_CLUSTER_SECRET=" ++ GenerateRandomString D 20)%string,
          ("K3S_URL=https://" ++ GetContainerName "server" nm None
             ++ ":" ++ Port p)%string)),
     w2) /\
    In sc (containers w') /\
    Running sc = true /\
    Name sc = GetContainerName "server" nm None.
Proof.
  intros nm host extra Hnm E Hids Hparse Hport Hflag HQ.
  destruct (CreateCluster_Ok_spec D c w w' E)
    as (spec & w1 & p' & HG & Hp' & Hname & Henv & Hargs & Hc & Hn & _ & EN).
  cbv zeta in *. fold nm in HG, Hname, Hn.
  rewrite Hparse in Hp'. injection Hp' as <-.
  fold host in Hargs. fold extra in Hargs.
  assert (Hfree1 : clusterContainers (ClusterName spec) w1 = []).
  { rewrite Hname. pose proof (free_name nm w Hnm HG) as Hfree.
    unfold clusterContainers in *. now rewrite Hc. }
  destruct (createNodes_Ok_world D c spec w1 w' EN Hfree1)
    as (Hready & (Hmap & Hrun) & Hn' & _).
  assert (Hnm' : ClusterName spec <> "") by (now rewrite Hname).
  destruct (getClusters_rollbackReady spec w' Hnm' Hready)
    as (s & Hs & Hid & Hsrv & _).
  rewrite Hname in Hsrv, Hfree1.
  assert (Hsin : In s (filter (isComponent "server") (clusterContainers nm w')))
    by (rewrite Hsrv; now left).
  assert (Hsrun : Running s = true).
  { destruct (Hrun s Hs) as [H|H]; [exact H|]. exfalso.
    apply filter_In in Hsin. destruct Hsin as [Hsin _].
    apply clusterContainers_labels in Hsin. destruct Hsin as [_ Hm].
    assert (Hin : In s (clusterContainers nm w1))
      by (apply clusterContainers_labels; now split).
    now rewrite Hfree1 in Hin. }
  assert (Hf : filter Running
                 (filter (isComponent "server") (clusterContainers nm w'))
               = [s]).
  { rewrite Hsrv. simpl. now rewrite Hsrun. }
  destruct (locateServer_found D' nm w' s [] HQ Hf)
    as (x & w2 & EL & Hx & Hxid & Hn2).
  assert (Hxs : asCreated x = serverConfig spec).
  { pose proof (in_map asCreated _ _ Hx) as Hin. rewrite Hmap in Hin.
    apply in_app_or in Hin. destruct Hin as [Hin|[Hin|Hin]].
    - exfalso. apply in_map_iff in Hin. destruct Hin as (y & Hy & Hyin).
      rewrite Hc in Hyin. apply (Hids y Hyin).
      change (ID y) with (ID (asCreated y)). rewrite Hy. simpl.
      rewrite Hxid, Hid. simpl. now rewrite Hname.
    - now symmetry.
    - exfalso. apply in_map_iff in Hin. destruct Hin as (i & Hi & _).
      apply (worker_is_not_server spec i). rewrite Hi. simpl.
      now rewrite Hxid. }
  assert (Hxrun : Running x = true).
  { destruct (Hrun x Hx) as [H|H]; [exact H|]. exfalso. rewrite Hc in H.
    apply (Hids x H). rewrite Hxid, Hid. simpl. now rewrite Hname. }
  pose proof (DeriveJoinConfig_created spec x
                (["K3S_KUBECONFIG_OUTPUT=/output/kubeconfig.yaml"]
                   ++ StringSlice_ c "env")
                ("K3S_CLUSTER_SECRET=" ++ GenerateRandomString D 20)%string
                (Port p) extra Hxs) as HJ.
  rewrite Hname in HJ.
  assert (EJ : DeriveJoinConfig x =
               Ok (("K3S_CLUSTER_SECRET=" ++ GenerateRandomString D 20)%string,
                   ("K3S_URL=https://" ++ GetContainerName "server" nm None
                      ++ ":" ++ Port p)%string)).
  { apply HJ.
    - rewrite Henv. now rewrite <- app_assoc.
    - apply secret_entry_key.
    - exact Hargs.
    - exact Hport.
    - exact Hflag. }
  assert (Hnet : In nm (networks w2)).
  { rewrite Hn2, Hn', Hn. now left. }
  pose proof (findNetwork_found D' nm w2 HQ Hnet) as HF.
  destruct (findNetwork D' nm w2) as [r w3] eqn:EF. simpl in HF. subst r.
  exists x, w3. split; [|split; [exact Hx|split; [exact Hxrun|]]].
  - unfold joinPrelude. rewrite (bind_Ok _ _ _ _ _ EL).
    unfold lift. rewrite EJ. unfold bind at 1.
    now rewrite (bind_Ok _ _ _ _ _ EF).
  - change (Name x) with (Name (asCreated x)). rewrite Hxs. simpl.
    now rewrite Hname.
Qed.

(** Creating the cluster [c] with a user's entry for the secret key, then
    preparing to add a node: the generated secret [s3cr3t] and the port 6443
    are read back. *)
Lemma create_then_join_demo :
  let w' := snd (CreateCluster (demoDeps neverFails)
                   (createCtx "c" 1 ["K3S_CLUSTER_SECRET=mine"] None)
                   emptyWorld) in
  exists sc w2,
    joinPrelude (demoDeps neverFails) "c" w' =
    (Ok (sc, ("K3S_CLUSTER_SECRET=s3cr3t", "K3S_URL=https://c-server:6443")),
     w2) /\
    In sc (containers w') /\ Running sc = true /\ Name sc = "c-server".
Proof.
  intros w'.
  apply (create_then_join_configuration (demoDeps neverFails)
           (demoDeps neverFails)
           (createCtx "c" 1 ["K3S_CLUSTER_SECRET=mine"] None)
           emptyWorld w' (mkApiPort "" "" "6443")).
  - discriminate.
  - vm_compute. reflexivity.
  - intros x [].
  - reflexivity.
  - discriminate.
  - simpl. intros [H|[]]. discriminate H.
  - intros tr call _. reflexivity.
Defined.

(** ** [StopCluster] and [StartCluster]: the run state of the nodes *)

Lemma setRunning_withRunning id b x :
  setRunning id b x = if hasID id x then withRunning b x else x.
Proof. reflexivity. Qed.

Lemma setRunningOf_nil b x : setRunningOf [] b x = x.
Proof. reflexivity. Qed.

Lemma setRunningOf_ID ids b x : ID (setRunningOf ids b x) = ID x.
Proof. unfold setRunningOf. now destruct (existsb _ ids). Qed.

Lemma setRunning_setRunningOf ids id b x :
  setRunning id b (setRunningOf ids b x) = setRunningOf (ids ++ [id]) b x.
Proof.
  rewrite setRunning_withRunning. unfold hasID. rewrite setRunningOf_ID.
  unfold setRunningOf. rewrite existsb_app. simpl. rewrite orb_false_r.
  destruct (existsb (String.eqb (ID x)) ids); simpl;
    destruct (String.eqb (ID x) id); reflexivity.
Qed.

Lemma existsb_same_members ids ids' (i : string) :
  (forall j, In j ids <-> In j ids') ->
  existsb (String.eqb i) ids = existsb (String.eqb i) ids'.
Proof.
  intros H.
  destruct (existsb (String.eqb i) ids) eqn:E1,
           (existsb (String.eqb i) ids') eqn:E2; try reflexivity.
  - apply existsb_exists in E1. destruct E1 as (j & Hj & Ej).
    assert (E : existsb (String.eqb i) ids' = true)
      by (apply existsb_exists; exists j; split; [now apply H | exact Ej]).
    now rewrite E in E2.
  - apply existsb_exists in E2. destruct E2 as (j & Hj & Ej).
    assert (E : existsb (String.eqb i) ids = true)
      by (apply existsb_exists; exists j; split; [now apply H | exact Ej]).
    now rewrite E in E1.
Qed.

Lemma setRunningOf_same_members ids ids' b x :
  (forall j, In j ids <-> In j ids') ->
  setRunningOf ids b x = setRunningOf ids' b x.
Proof.
  intros H. unfold setRunningOf. now rewrite (existsb_same_members ids ids').
Qed.

Lemma setRunningOf_twice ids b b' x :
  setRunningOf ids b (setRunningOf ids b' x) = setRunningOf ids b x.
Proof.
  unfold setRunningOf at 1. rewrite setRunningOf_ID. unfold setRunningOf.
  destruct (existsb (String.eqb (ID x)) ids); reflexivity.
Qed.

Lemma setRunningOf_there ids x :
  (In (ID x) ids -> Running x = true) -> setRunningOf ids true x = x.
Proof.
  intros H. unfold setRunningOf.
  destruct (existsb (String.eqb (ID x)) ids) eqn:E; [|reflexivity].
  apply existsb_exists in E. destruct E as (j & Hj & Ej).
  apply String.eqb_eq in Ej. subst j. specialize (H Hj).
  destruct x. simpl in *. now subst.
Qed.

Lemma containerExists_In id w :
  containerExists id w = true <-> In id (map ID (containers w)).
Proof.
  unfold containerExists. rewrite existsb_exists, in_map_iff. unfold hasID.
  split; intros (x & H1 & H2).
  - exists x. split; [now apply String.eqb_eq | exact H1].
  - exists x. split; [exact H2 | now apply String.eqb_eq].
Qed.

Lemma ContainerStopM_Ok D id w :
  oracle D (calls w) (ContainerStop id) = false ->
  In id (map ID (containers w)) ->
  ContainerStopM D id w =
  (Ok tt, setContainers (map (setRunning id false) (containers w))
            (record (ContainerStop id) w)).
Proof.
  intros Ho Hin. apply containerExists_In in Hin.
  unfold ContainerStopM, bind, attempt, get, modify. rewrite Ho.
  cbn [fst snd]. unfold containerExists in *. cbn [containers record].
  now rewrite Hin.
Qed.

Lemma ContainerStartM_Ok D id w :
  oracle D (calls w) (ContainerStart id) = false ->
  In id (map ID (containers w)) ->
  ContainerStartM D id w =
  (Ok tt, setContainers (map (setRunning id true) (containers w))
            (record (ContainerStart id) w)).
Proof.
  intros Ho Hin. apply containerExists_In in Hin.
  unfold ContainerStartM, bind, attempt, get, modify. rewrite Ho.
  cbn [fst snd]. unfold containerExists in *. cbn [containers record].
  now rewrite Hin.
Qed.

(** A loop that sets the run state of each of its containers, by
    identifier, and logs the errors. *)
Lemma forEach_setRunning (prim : string -> M unit) b (h : Error -> M unit)
  (l0 : list Container) :
  (forall id w, In id (map ID l0) ->
     map ID (containers w) = map ID l0 ->
     exists w', prim id w = (Ok tt, w') /\
                containers w' = map (setRunning id b) (containers w)) ->
  forall ws done w,
    (forall x, In x ws -> In (ID x) (map ID l0)) ->
    containers w = map (setRunningOf done b) l0 ->
    exists w',
      forEach (fun x => try (prim (ID x)) h) ws w = (Ok tt, w') /\
      containers w' = map (setRunningOf (done ++ map ID ws) b) l0.
Proof.
  intros Hprim. induction ws as [|x ws IH]; intros done w Hin Hc.
  - exists w. split; [reflexivity|]. simpl. now rewrite app_nil_r.
  - assert (Hids : map ID (containers w) = map ID l0).
    { rewrite Hc, map_map. apply map_ext. intros y. apply setRunningOf_ID. }
    destruct (Hprim (ID x) w (Hin x (or_introl eq_refl)) Hids)
      as (w1 & E1 & Hc1).
    assert (Hc1' : containers w1 = map (setRunningOf (done ++ [ID x]) b) l0).
    { rewrite Hc1, Hc, map_map. apply map_ext. intros y.
      apply setRunning_setRunningOf. }
    destruct (IH (done ++ [ID x]) w1) as (w' & E & Hc');
      [intros y Hy; apply Hin; now right | exact Hc1' |].
    exists w'. split.
    + rewrite forEach_cons. unfold try at 1. rewrite E1. exact E.
    + rewrite Hc'. simpl. now rewrite <- app_assoc.
Qed.

Lemma map_ID_setRunningOf ids b l :
  map ID (map (setRunningOf ids b) l) = map ID l.
Proof. rewrite map_map. apply map_ext. intros y. apply setRunningOf_ID. Qed.

Lemma stopOne_effect D cl w :
  (forall tr id, oracle D tr (ContainerStop id) = false) ->
  (forall id, In id (nodeIDs cl) -> In id (map ID (containers w))) ->
  exists w1,
    stopOne D cl w = (Ok tt, w1) /\
    containers w1 = map (setRunningOf (nodeIDs cl) false) (containers w).
Proof.
  intros Ho Hids.
  destruct (forEach_setRunning (ContainerStopM D) false
              (fun err => logLine (LogError err)) (containers w))
    with (ws := workers cl) (done := @nil string) (w := w)
    as (wA & EA & HcA).
  - intros id w0 Hid Hsame. eexists. split.
    + apply ContainerStopM_Ok; [apply Ho | now rewrite Hsame].
    + reflexivity.
  - intros x Hx. apply Hids. right. now apply in_map.
  - symmetry. rewrite <- (map_id (containers w)) at 2. apply map_ext.
    intros y. apply setRunningOf_nil.
  - rewrite stopOne_unfold. unfold stopWorker. rewrite EA. cbn [snd].
    assert (Hsid : In (serverID cl) (map ID (containers wA))).
    { rewrite HcA, map_ID_setRunningOf. apply Hids. now left. }
    unfold try. rewrite (ContainerStopM_Ok D _ wA (Ho _ _) Hsid).
    eexists. split; [reflexivity|]. cbn [containers setContainers].
    rewrite HcA, map_map. apply map_ext. intros y.
    rewrite setRunning_setRunningOf.
    apply setRunningOf_same_members. intros j. unfold nodeIDs. simpl.
    rewrite in_app_iff. simpl. tauto.
Qed.

Lemma startOne_effect D cl w :
  (forall tr id, oracle D tr (ContainerStart id) = false) ->
  (forall id, In id (nodeIDs cl) -> In id (map ID (containers w))) ->
  exists w1,
    startOne D cl w = (Ok tt, w1) /\
    containers w1 = map (setRunningOf (nodeIDs cl) true) (containers w).
Proof.
  intros Ho Hids.
  assert (Hsid : In (serverID cl) (map ID (containers w)))
    by (apply Hids; now left).
  pose proof (ContainerStartM_Ok D _ w (Ho _ _) Hsid) as ES.
  set (wS := setContainers _ _) in ES.
  destruct (forEach_setRunning (ContainerStartM D) true
              (fun err => logLine (LogError err)) (containers w))
    with (ws := workers cl) (done := [serverID cl]) (w := wS)
    as (wA & EA & HcA).
  - intros id w0 Hid Hsame. eexists. split.
    + apply ContainerStartM_Ok; [apply Ho | now rewrite Hsame].
    + reflexivity.
  - intros x Hx. apply Hids. right. now apply in_map.
  - unfold wS. cbn [containers setContainers]. apply map_ext. intros y.
    rewrite <- (setRunningOf_nil true y) at 1.
    apply setRunning_setRunningOf.
  - exists wA. split; [|exact HcA].
    unfold startOne. rewrite forWorkers_forEach.
    assert (E1 : try (ContainerStartM D (serverID cl))
                     (fun err => fail (CouldntStartServer (name cl) err)) w
                 = (Ok tt, wS)) by (unfold try; now rewrite ES).
    rewrite (bind_Ok _ _ _ _ _ E1). exact EA.
Qed.

(** *** The discovery after a change of run states *)

Section DiscoveryMap.

Variable f : Container -> Container.
Hypothesis f_labels : forall x, ContainerLabels (f x) = ContainerLabels x.
Hypothesis f_name : forall x, Name (f x) = Name x.

Lemma clusterLabels_map cs : clusterLabels (map f cs) = clusterLabels cs.
Proof.
  unfold clusterLabels. f_equal.
  induction cs as [|x cs IH]; [reflexivity|]. simpl.
  now rewrite f_labels, IH.
Qed.

Lemma suffixKey_map x : suffixKey (f x) = suffixKey x.
Proof. unfold suffixKey. now rewrite f_name. Qed.

Lemma insertBySuffix_map x l :
  insertBySuffix (f x) (map f l) = map f (insertBySuffix x l).
Proof.
  induction l as [|y l IH]; [reflexivity|]. simpl.
  rewrite !suffixKey_map. destruct (suffixKey x <? suffixKey y).
  - reflexivity.
  - simpl. now rewrite IH.
Qed.

Lemma sortBySuffix_map l : sortBySuffix (map f l) = map f (sortBySuffix l).
Proof.
  unfold sortBySuffix. induction l as [|x l IH]; [reflexivity|]. simpl.
  now rewrite IH, insertBySuffix_map.
Qed.

Lemma discoverOne_map cs n cl :
  discoverOne cs n = Ok cl ->
  discoverOne (map f cs) n = Ok (mapCluster f cl).
Proof.
  unfold discoverOne.
  assert (Hin : forall p l,
            filter (fun x => hasLabel (ContainerLabels x) p) (map f l) =
            map f (filter (fun x => hasLabel (ContainerLabels x) p) l)).
  { intros p l. apply filter_map_same. intros x. now rewrite f_labels. }
  unfold inCluster, isComponent. rewrite !Hin, length_map.
  destruct (1 <? List.length _)%nat; [discriminate|].
  intros [= <-]. unfold mapCluster. cbn [name server workers].
  rewrite sortBySuffix_map. f_equal. f_equal.
  now destruct (filter _ (filter _ cs)).
Qed.

Lemma discoverAll_map cs names : forall cls,
  discoverAll cs names = Ok cls ->
  discoverAll (map f cs) names = Ok (map (mapCluster f) cls).
Proof.
  induction names as [|n names IH]; intros cls H.
  - injection H as <-. reflexivity.
  - cbn [discoverAll] in *.
    destruct (discoverOne cs n) as [cl|e| |] eqn:E1; try discriminate H.
    rewrite (discoverOne_map cs n cl E1).
    destruct (discoverAll cs names) as [rest|e| |] eqn:E2; try discriminate H.
    injection H as <-. now rewrite (IH rest eq_refl).
Qed.

Lemma getClusters_map all nm w w' cls :
  containers w' = map f (containers w) ->
  getClusters all nm w = (Ok cls, w) ->
  getClusters all nm w' = (Ok (map (mapCluster f) cls), w').
Proof.
  unfold getClusters. intros Hc H.
  assert (Hd : discovered all nm w' = map f (discovered all nm w)).
  { unfold discovered. rewrite Hc. apply filter_map_same.
    intros x. now rewrite f_labels. }
  apply (f_equal fst) in H. cbn [fst] in H.
  rewrite Hd, clusterLabels_map. now rewrite (discoverAll_map _ _ cls H).
Qed.

End DiscoveryMap.

Lemma discoverOne_members cs n cl :
  discoverOne cs n = Ok cl ->
  (forall x, In x (workers cl) -> In x cs) /\
  (forall s, server cl = Some s -> In s cs).
Proof.
  unfold discoverOne. destruct (1 <? List.length _)%nat; [discriminate|].
  intros [= <-]. cbn [workers server]. split.
  - intros x Hx. apply (proj1 (sortBySuffix_In _ _)) in Hx.
    apply filter_In in Hx. destruct Hx as [Hx _].
    apply filter_In in Hx. apply Hx.
  - intros s Hs.
    destruct (filter (isComponent "server") (filter (inCluster n) cs))
      as [|s0 rest] eqn:E; [discriminate|].
    injection Hs as <-.
    assert (H : In s0 (filter (isComponent "server") (filter (inCluster n) cs)))
      by (rewrite E; now left).
    apply filter_In in H. destruct H as [H _].
    apply filter_In in H. apply H.
Qed.

Lemma discoverAll_members cs names : forall cls cl,
  discoverAll cs names = Ok cls -> In cl cls ->
  (forall x, In x (workers cl) -> In x cs) /\
  (forall s, server cl = Some s -> In s cs).
Proof.
  induction names as [|n names IH]; intros cls cl H Hin.
  - injection H as <-. destruct Hin.
  - cbn [discoverAll] in H.
    destruct (discoverOne cs n) as [cl0|e| |] eqn:E1; try discriminate H.
    destruct (discoverAll cs names) as [rest|e| |] eqn:E2; try discriminate H.
    injection H as <-. destruct Hin as [<-|Hin].
    + now apply (discoverOne_members cs n).
    + now apply (IH rest).
Qed.

(** The nodes of a discovered cluster that has a server are containers of
    the world. *)
Lemma getClusters_nodeIDs all nm w cls cl id :
  getClusters all nm w = (Ok cls, w) ->
  In cl cls -> server cl <> None -> In id (nodeIDs cl) ->
  In id (map ID (containers w)).
Proof.
  unfold getClusters. intros H Hcl Hsrv Hid.
  apply (f_equal fst) in H. cbn [fst] in H.
  destruct (discoverAll_members _ _ cls cl H Hcl) as (Hw & Hs).
  assert (Hsub : forall x, In x (discovered all nm w) -> In x (containers w)).
  { intros x Hx. unfold discovered in Hx. apply filter_In in Hx. apply Hx. }
  destruct Hid as [<-|Hid].
  - unfold serverID. destruct (server cl) as [s|]; [|contradiction].
    apply in_map, Hsub, Hs. reflexivity.
  - apply in_map_iff in Hid. destruct Hid as (x & <- & Hx).
    apply in_map, Hsub, Hw, Hx.
Qed.

Lemma nodeIDs_mapCluster f cl :
  (forall x, ID (f x) = ID x) -> nodeIDs (mapCluster f cl) = nodeIDs cl.
Proof.
  intros H. unfold nodeIDs, mapCluster, serverID. cbn [server workers].
  rewrite map_map. f_equal.
  - destruct (server cl); simpl; [apply H | reflexivity].
  - apply map_ext. exact H.
Qed.

Lemma flat_map_nodeIDs_map f cls :
  (forall x, ID (f x) = ID x) ->
  flat_map nodeIDs (map (mapCluster f) cls) = flat_map nodeIDs cls.
Proof.
  intros H. induction cls as [|cl cls IH]; [reflexivity|].
  cbn [map flat_map]. now rewrite IH, (nodeIDs_mapCluster f cl H).
Qed.

Lemma setRunningOf_labels ids b x :
  ContainerLabels (setRunningOf ids b x) = ContainerLabels x.
Proof. unfold setRunningOf. now destruct (existsb _ ids). Qed.

Lemma setRunningOf_name ids b x : Name (setRunningOf ids b x) = Name x.
Proof. unfold setRunningOf. now destruct (existsb _ ids). Qed.

Lemma setRunningOf_app ids1 ids2 b x :
  setRunningOf ids2 b (setRunningOf ids1 b x) = setRunningOf (ids1 ++ ids2) b x.
Proof.
  unfold setRunningOf at 1. rewrite setRunningOf_ID. unfold setRunningOf.
  rewrite existsb_app.
  destruct (existsb (String.eqb (ID x)) ids1),
           (existsb (String.eqb (ID x)) ids2); reflexivity.
Qed.

(** A loop over clusters whose body sets the run state of the nodes of its
    cluster. *)
Lemma forEach_clusters_setRunning (body : Cluster -> M unit) b
  (l0 : list Container) :
  (forall cl w,
     (forall id, In id (nodeIDs cl) -> In id (map ID (containers w))) ->
     exists w', body cl w = (Ok tt, w') /\
                containers w' = map (setRunningOf (nodeIDs cl) b) (containers w)) ->
  forall clusters done w,
    (forall cl id, In cl clusters -> In id (nodeIDs cl) -> In id (map ID l0)) ->
    containers w = map (setRunningOf done b) l0 ->
    exists w',
      forEach body clusters w = (Ok tt, w') /\
      containers w' = map (setRunningOf (done ++ flat_map nodeIDs clusters) b) l0.
Proof.
  intros Hbody. induction clusters as [|cl cls IH]; intros done w Hin Hc.
  - exists w. split; [reflexivity|]. simpl. now rewrite app_nil_r.
  - destruct (Hbody cl w) as (w1 & E1 & Hc1).
    { intros id Hid. rewrite Hc, map_ID_setRunningOf.
      apply (Hin cl id); [now left | exact Hid]. }
    destruct (IH (done ++ nodeIDs cl) w1) as (w' & E & Hc').
    { intros cl' id Hcl'. apply Hin. now right. }
    { rewrite Hc1, Hc, map_map. apply map_ext. intros y.
      apply setRunningOf_app. }
    exists w'. split.
    + rewrite forEach_cons, E1. exact E.
    + rewrite Hc'. cbn [flat_map]. now rewrite <- app_assoc.
Qed.

Lemma StopCluster_effect D c w clusters :
  (forall tr, oracle D tr NewClient = false) ->
  (forall tr id, oracle D tr (ContainerStop id) = false) ->
  getClusters (Bool_ c "all") (String_ c "name") w = (Ok clusters, w) ->
  (forall cl, In cl clusters -> server cl <> None) ->
  exists w1,
    StopCluster D c w = (Ok tt, w1) /\
    containers w1 =
      map (setRunningOf (flat_map nodeIDs clusters) false) (containers w).
Proof.
  intros Hclient Hstop HG Hsrv.
  rewrite (StopCluster_loop D c w clusters HG (Hclient _)).
  destruct (forEach_clusters_setRunning (stopOne D) false (containers w))
    with (clusters := clusters) (done := @nil string)
         (w := record NewClient w) as (w1 & E & Hc).
  - intros cl w0 Hids. now apply stopOne_effect.
  - intros cl id Hcl Hid.
    now apply (getClusters_nodeIDs _ _ w clusters cl id HG Hcl (Hsrv cl Hcl)).
  - cbn [containers record]. symmetry.
    rewrite <- (map_id (containers w)) at 2. apply map_ext.
    intros y. apply setRunningOf_nil.
  - exists w1. split; [exact E | exact Hc].
Qed.

Lemma StartCluster_effect D c w clusters :
  (forall tr, oracle D tr NewClient = false) ->
  (forall tr id, oracle D tr (ContainerStart id) = false) ->
  getClusters (Bool_ c "all") (String_ c "name") w = (Ok clusters, w) ->
  (forall cl, In cl clusters -> server cl <> None) ->
  exists w1,
    StartCluster D c w = (Ok tt, w1) /\
    containers w1 =
      map (setRunningOf (flat_map nodeIDs clusters) true) (containers w).
Proof.
  intros Hclient Hstart HG Hsrv.
  rewrite (StartCluster_loop D c w clusters HG (Hclient _)).
  destruct (forEach_clusters_setRunning (startOne D) true (containers w))
    with (clusters := clusters) (done := @nil string)
         (w := record NewClient w) as (w1 & E & Hc).
  - intros cl w0 Hids. now apply startOne_effect.
  - intros cl id Hcl Hid.
    now apply (getClusters_nodeIDs _ _ w clusters cl id HG Hcl (Hsrv cl Hcl)).
  - cbn [containers record]. symmetry.
    rewrite <- (map_id (containers w)) at 2. apply map_ext.
    intros y. apply setRunningOf_nil.
  - exists w1. split; [exact E | exact Hc].
Qed.

(** X13. What Stop and Start do to the nodes of the discovered clusters.
    When the runtime refuses no client, no stop and no start, and every
    discovered cluster has a server, Stop returns normally and leaves
    exactly the nodes of the discovered clusters not running; Start returns
    normally and leaves exactly them running; every other container keeps
    its run state, and nothing else changes in any container.  A Start
    after the Stop discovers the same nodes and starts them all: if they all
    ran before, the containers are back as they were. *)
Theorem stop_then_start_round_trip
  (D : Deps) (c : Context) (w : World) (clusters : list Cluster) :
  (forall tr, oracle D tr NewClient = false) ->
  (forall tr id, oracle D tr (ContainerStop id) = false) ->
  (forall tr id, oracle D tr (ContainerStart id) = false) ->
  getClusters (Bool_ c "all") (String_ c "name") w = (Ok clusters, w) ->
  (forall cl, In cl clusters -> server cl <> None) ->
  let ids := flat_map nodeIDs clusters in
  let w1 := snd (StopCluster D c w) in
  let w2 := snd (StartCluster D c w1) in
  fst (StopCluster D c w) = Ok tt /\
  containers w1 = map (setRunningOf ids false) (containers w) /\
  fst (StartCluster D c w) = Ok tt /\
  containers (snd (StartCluster D c w)) =
    map (setRunningOf ids true) (containers w) /\
  fst (StartCluster D c w1) = Ok tt /\
  containers w2 = map (setRunningOf ids true) (containers w) /\
  ((forall x, In x (containers w) -> In (ID x) ids -> Running x = true) ->
   containers w2 = containers w).
Proof.
  intros Hclient Hstop Hstart HG Hsrv ids w1 w2.
  destruct (StopCluster_effect D c w clusters Hclient Hstop HG Hsrv)
    as (wa & E1 & Hc1).
  destruct (StartCluster_effect D c w clusters Hclient Hstart HG Hsrv)
    as (wc & E0 & Hc0).
  fold ids in Hc1, Hc0.
  assert (Hw1 : w1 = wa) by (unfold w1; now rewrite E1).
  set (f := setRunningOf ids false) in *.
  assert (HG1 : getClusters (Bool_ c "all") (String_ c "name") w1 =
                (Ok (map (mapCluster f) clusters), w1)).
  { apply (getClusters_map f (setRunningOf_labels ids false)
             (setRunningOf_name ids false) _ _ w w1 clusters);
      [now rewrite Hw1 | exact HG]. }
  assert (Hids1 : flat_map nodeIDs (map (mapCluster f) clusters) = ids).
  { apply flat_map_nodeIDs_map. intros x. apply setRunningOf_ID. }
  assert (Hsrv1 : forall cl, In cl (map (mapCluster f) clusters) ->
                             server cl <> None).
  { intros cl Hcl. apply in_map_iff in Hcl. destruct Hcl as (cl0 & <- & Hcl0).
    specialize (Hsrv cl0 Hcl0). unfold mapCluster. cbn [server].
    destruct (server cl0); [discriminate | contradiction]. }
  destruct (StartCluster_effect D c w1 _ Hclient Hstart HG1 Hsrv1)
    as (wb & E2 & Hc2).
  rewrite Hids1 in Hc2.
  assert (Hw2 : w2 = wb) by (unfold w2; now rewrite E2).
  assert (Hc : containers w2 = map (setRunningOf ids true) (containers w)).
  { rewrite Hw2, Hc2, Hw1, Hc1, map_map. apply map_ext. intros y.
    apply setRunningOf_twice. }
  split; [now rewrite E1|]. split; [now rewrite Hw1|].
  split; [now rewrite E0|]. split; [now rewrite E0|].
  split; [now rewrite E2|]. split; [exact Hc|].
  intros Hran. rewrite Hc. rewrite <- (map_id (containers w)) at 2.
  apply map_ext_in. intros y Hy. apply setRunningOf_there.
  now apply Hran.
Qed.

(** Stop and then Start with [--all] on the clusters [c] and [d], whose
    five nodes run. *)
Lemma stop_then_start_two_clusters :
  let D := demoDeps neverFails in
  let w1 := snd (StopCluster D (nameCtx true "") twoClusters) in
  map Running (containers w1) = [false; false; false; false; false] /\
  containers (snd (StartCluster D (nameCtx true "") w1)) = containers twoClusters.
Proof.
  intros D w1.
  destruct (stop_then_start_round_trip D (nameCtx true "") twoClusters
              [clusterCView; clusterDView])
    as (_ & H1 & _ & _ & _ & _ & H2).
  - reflexivity.
  - reflexivity.
  - reflexivity.
  - reflexivity.
  - intros cl [<-|[<-|[]]]; discriminate.
  - split.
    + unfold w1. rewrite H1. vm_compute. reflexivity.
    + apply H2. intros x Hx _.
      assert (Hall : forallb Running (containers twoClusters) = true)
        by (vm_compute; reflexivity).
      rewrite forallb_forall in Hall. now apply Hall.
Defined.

(** ** [CreateCluster] after [CreateCluster] *)

(** X14. A name can be created once.  On the world that a successful Create
    of a name has left, a Create of the same name, with whatever other
    flags, returns the "already exists" error before it asks the runtime for
    anything: the world is as it was, and no rollback removes the cluster
    that is there. *)
Theorem create_of_a_created_name_is_refused
  (D D' : Deps) (c c' : Context) (w w' : World) :
  let nm := String_ c "name" in
  nm <> "" ->
  CreateCluster D c w = (Ok tt, w') ->
  String_ c' "name" = nm ->
  CheckClusterName D' nm = true ->
  CreateCluster D' c' w' = (Fail (ClusterExists nm), w').
Proof.
  intros nm Hnm E Hname' HV.
  destruct (CreateCluster_Ok_spec D c w w' E)
    as (spec & w1 & p & HG & _ & Hname & _ & _ & Hc & _ & _ & EN).
  cbv zeta in *. fold nm in HG, Hname.
  assert (Hfree1 : clusterContainers (ClusterName spec) w1 = []).
  { rewrite Hname. pose proof (free_name nm w Hnm HG) as Hfree.
    unfold clusterContainers in *. now rewrite Hc. }
  destruct (createNodes_Ok_world D c spec w1 w' EN Hfree1) as (Hready & _).
  assert (Hnm' : ClusterName spec <> "") by (now rewrite Hname).
  destruct (getClusters_rollbackReady spec w' Hnm' Hready)
    as (s & _ & _ & _ & HG').
  rewrite Hname in HG'.
  unfold CreateCluster. rewrite Hname', HV. cbn [negb].
  now rewrite (bind_Ok _ _ _ _ _ HG').
Qed.

(** Creating the cluster [c] twice. *)
Lemma create_twice_demo :
  let D := demoDeps neverFails in
  let w' := snd (CreateCluster D (createCtx "c" 2 [] None) emptyWorld) in
  CreateCluster D (createCtx "c" 5 ["A=b"] None) w'
    = (Fail (ClusterExists "c"), w').
Proof.
  intros D w'.
  apply (create_of_a_created_name_is_refused D D (createCtx "c" 2 [] None)
           (createCtx "c" 5 ["A=b"] None) emptyWorld w').
  - discriminate.
  - vm_compute. reflexivity.
  - reflexivity.
  - reflexivity.
Defined.

(** ** [CreateCluster]: the rollback when the server container is refused *)

Lemma getClusters_same_containers all nm w w' r :
  containers w' = containers w ->
  getClusters all nm w = (r, w) ->
  getClusters all nm w' = (r, w').
Proof.
  unfold getClusters, discovered. intros -> H. injection H as <-. reflexivity.
Qed.

(** X15. The rollback of Create finds a cluster by its containers.  When
    Create has made the network, the volume and the directory, and the
    runtime refuses to create the server container, the rollback runs, finds
    no cluster of that name and asks the runtime for nothing: Create returns
    the runtime's error, and the network and the volume that it has made are
    left behind. *)
Theorem create_server_refused_leaves_the_network_and_the_volume
  (D : Deps) (c : Context) (w : World) :
  let nm := String_ c "name" in
  reachedCreation D c w ->
  Bool_ c "all" = false ->
  (forall tr config,
     Name config = GetContainerName "server" nm None ->
     oracle D tr (ContainerCreate config) = true) ->
  exists config,
    Name config = GetContainerName "server" nm None /\
    fst (CreateCluster D c w) = Fail (RuntimeError (ContainerCreate config)) /\
    let w' := snd (CreateCluster D c w) in
    calls w' = calls w ++ [NetworkCreate nm; VolumeCreate nm;
                           ClusterDirCreate nm; ContainerCreate config] /\
    In LogRollingBack (logs w') /\
    containers w' = containers w /\
    networks w' = nm :: networks w /\
    volumes w' = nm :: volumes w /\
    ~ nothingLeft nm w'.
Proof.
  intros nm (spec & w1 & HV & HG & Hname & _ & _ & Hc & Hn & Hv & Hcalls & E)
         Hall Hrefused.
  fold nm in HG, Hname, Hn, Hv, Hcalls.
  set (cfg := serverConfig spec).
  assert (Hcfg : Name cfg = GetContainerName "server" nm None)
    by (unfold cfg, serverConfig; simpl; now rewrite Hname).
  set (w0 := snd (createClusterDir nm w1)).
  set (wF := record (ContainerCreate cfg) w0).
  set (wL := snd (logLine LogRollingBack wF)).
  assert (EC : createContainer D cfg w0 =
               (Fail (RuntimeError (ContainerCreate cfg)), wF)).
  { rewrite createContainer_cases. cbv zeta.
    now rewrite (Hrefused (calls w0) cfg Hcfg). }
  assert (EG : getClusters false nm wL = (Ok [], wL)).
  { apply (getClusters_same_containers false nm w wL); [|exact HG].
    unfold wL, wF, w0. simpl. exact Hc. }
  assert (ED : DeleteCluster D c wL = (Ok tt, wL)).
  { unfold DeleteCluster. rewrite Hall. fold nm.
    now rewrite (bind_Ok _ _ _ _ _ EG). }
  assert (ER : deleteCluster D c wF = (Ok tt, wL)).
  { unfold deleteCluster.
    assert (E0 : logLine LogRollingBack wF = (Ok tt, wL)) by reflexivity.
    rewrite (bind_Ok _ _ _ _ _ E0). unfold try. now rewrite ED. }
  assert (ET : try (createServer D spec)
                   (fun err => deleteCluster D c ;;; fail err) w0
               = (Fail (RuntimeError (ContainerCreate cfg)), wL)).
  { unfold try, createServer. fold cfg. rewrite EC.
    now rewrite (bind_Ok _ _ _ _ _ ER). }
  assert (EN : createNodes D c spec w1 =
               (Fail (RuntimeError (ContainerCreate cfg)), wL)).
  { unfold createNodes. fold nm.
    assert (E0 : createClusterDir nm w1 = (Ok tt, w0)) by reflexivity.
    rewrite (bind_Ok _ _ _ _ _ E0). now apply bind_Fail. }
  exists cfg. split; [exact Hcfg|]. rewrite E, EN. cbn [fst snd].
  split; [reflexivity|].
  split; [unfold wL, wF, w0; simpl; rewrite Hcalls;
          now rewrite <- !app_assoc|].
  split; [unfold wL, wF, w0; simpl; apply in_or_app; right; now left|].
  split; [unfold wL, wF, w0; simpl; exact Hc|].
  split; [unfold wL, wF, w0; simpl; exact Hn|].
  split; [unfold wL, wF, w0; simpl; exact Hv|].
  intros (_ & H & _). apply H. unfold wL, wF, w0. simpl. rewrite Hn. now left.
Qed.

(** Creating the cluster [demo] with a runtime that refuses to create the
    container [demo-server]. *)
Lemma create_demo_server_refused :
  let r := CreateCluster (demoDeps serverRefused)
             (createCtx "demo" 0 [] None) emptyWorld in
  (exists config,
     Name config = "demo-server" /\
     fst r = Fail (RuntimeError (ContainerCreate config))) /\
  networks (snd r) = ["demo"] /\
  volumes (snd r) = ["demo"].
Proof.
  intros r.
  destruct (create_server_refused_leaves_the_network_and_the_volume
              (demoDeps serverRefused) (createCtx "demo" 0 [] None) emptyWorld)
    as (config & Hname & Hr & _ & _ & _ & Hn & Hv & _).
  - destruct (CreateCluster_run (demoDeps serverRefused)
                (createCtx "demo" 0 [] None) emptyWorld) as [(_ & _ & H)|H];
      [vm_compute in H; discriminate H | exact H].
  - reflexivity.
  - intros tr config H. unfold demoDeps, serverRefused, failing, isCreate.
    simpl. simpl in H. now rewrite H.
  - split; [exists config; split; [exact Hname | exact Hr]|].
    split; [exact Hn | exact Hv].
Defined.

(** ** The image that Create and AddNode hand on *)

(** Create stops before its creation part, having asked for no container, or
    it runs the creation part with a [ClusterSpec] of the cluster's name
    whose image is the image flag with the default registry. *)
Lemma CreateCluster_run_image D c w :
  stoppedEarly D c w \/
  exists spec w1,
    ClusterName spec = String_ c "name" /\
    SpecImage spec = withRegistry (String_ c "image") /\
    createdConfigs (calls w1) = createdConfigs (calls w) /\
    CreateCluster D c w = createNodes D c spec w1.
Proof.
  unfold stoppedEarly.
  destruct (CreateCluster D c w) as [r w'] eqn:E. simpl.
  unfold CreateCluster in E.
  destruct (CheckClusterName D (String_ c "name")) eqn:EV; simpl in E.
  2:{ injection E as <- <-. left. split; [discriminate | split; reflexivity]. }
  unfold bind at 1 in E.
  destruct (getClusters false (String_ c "name") w) as [r0 w0] eqn:EG.
  assert (w0 = w) as -> by (unfold getClusters in EG; now injection EG).
  destruct r0 as [[|cl cls]|e| |]; simpl in E;
    try (injection E as <- <-; left;
         split; [discriminate | split; reflexivity]).
  unfold bind at 1 in E. rewrite createClusterNetwork_spec in E.
  destruct (oracle D (calls w) (NetworkCreate _)).
  { injection E as <- <-. left. split; [discriminate | split; [reflexivity|]].
    simpl. rewrite createdConfigs_app. apply app_nil_r. }
  destruct (parseAPIPort D (String_ c "api-port")) as [apiPort0|].
  2:{ injection E as <- <-. left.
      split; [discriminate | split; [reflexivity|]].
      simpl. rewrite createdConfigs_app. apply app_nil_r. }
  set (w1 := setNetworks _ _) in E.
  match type of E with
  | bind ?m _ w1 = _ =>
      assert (HA : exists a wl, m w1 = (Ok a, wl) /\
                     containers wl = containers w1 /\ calls wl = calls w1)
  end.
  { destruct (String.eqb (Host apiPort0) ""); [|now eexists _, w1].
    destruct (getDockerMachineIp D) as [ip [|]];
      eexists _, _; (split; [reflexivity|]); repeat split. }
  destruct HA as (apiPort1 & wl & HA & Hc & Hcalls).
  rewrite (bind_Ok _ _ _ _ _ HA) in E.
  assert (Hwl : createdConfigs (calls wl) = createdConfigs (calls w)).
  { rewrite Hcalls. unfold w1. simpl. rewrite createdConfigs_app.
    apply app_nil_r. }
  destruct (mapNodesToPortSpecs D _ _) as [portmap|].
  2:{ injection E as <- <-. left.
      split; [discriminate | split; [exact Hc | exact Hwl]]. }
  unfold bind at 1 in E. rewrite createImageVolume_spec in E.
  destruct (oracle D (calls wl) (VolumeCreate _)).
  { injection E as <- <-. left.
    split; [discriminate | split; [exact Hc|]].
    simpl. rewrite createdConfigs_app, Hwl. apply app_nil_r. }
  right.
  match type of E with createNodes D c ?sp ?wv = _ => exists sp, wv end.
  split; [reflexivity|]. split; [reflexivity|].
  split; [|symmetry; exact E].
  simpl. rewrite createdConfigs_app, Hwl. apply app_nil_r.
Qed.

Lemma Creates_AddNode_image D c :
  Creates (fun cfg => Image cfg = withRegistry (String_ c "image"))
          (AddNode D c).
Proof.
  unfold AddNode.
  destruct (String.eqb (nodeRoleOf c) "server");
    [apply Creates_ReadOnly, ReadOnly_fail|].
  apply Creates_bind; [apply Creates_ReadOnly, ReadOnly_joinPrelude|].
  intros prelude.
  apply Creates_bind; [apply Creates_ReadOnly, ReadOnly_highestWorkerSuffix|].
  intros h. destruct (String.eqb (nodeRoleOf c) "agent");
    [|apply Creates_ReadOnly, ReadOnly_ret].
  apply Creates_forEach. intros i. unfold addWorker, createWorker.
  apply Creates_bind; [|intros; apply Creates_ReadOnly, ReadOnly_ret].
  apply Creates_try; [|intros e; apply Creates_ReadOnly, ReadOnly_fail].
  now apply Creates_createContainer.
Qed.

(** X2. The image that Create and AddNode hand on is the image flag with the
    default registry.  The [ClusterSpec] with which Create runs its creation
    part has that image, and so has the server container it asks for; every
    container that AddNode asks for has it.  An image with at most two
    fields between slashes gets the registry [docker.io] as a new first
    field, also when its first field already names a registry; an image with
    three fields or more is handed on as it is. *)
Theorem default_registry_is_prepended_to_short_images
  (D : Deps) (c : Context) (w : World) :
  let image := String_ c "image" in
  let handedOn :=
    if (List.length (Split image "/") <=? 2)%nat
    then ("docker.io/" ++ image)%string else image in
  withRegistry image = handedOn /\
  (stoppedEarly D c w \/
   exists spec w1,
     SpecImage spec = handedOn /\
     CreateCluster D c w = createNodes D c spec w1) /\
  (exists l,
     createdConfigs (calls (snd (CreateCluster D c w)))
       = createdConfigs (calls w) ++ l /\
     Forall (fun cfg =>
               Name cfg = GetContainerName "server" (String_ c "name") None ->
               Image cfg = handedOn) l) /\
  (exists l,
     createdConfigs (calls (snd (AddNode D c w)))
       = createdConfigs (calls w) ++ l /\
     Forall (fun cfg => Image cfg = handedOn) l) /\
  Split handedOn "/" =
    (if (List.length (Split image "/") <=? 2)%nat
     then "docker.io" :: Split image "/"
     else Split image "/") /\
  (2 <= List.length (Split handedOn "/"))%nat /\
  (handedOn = image <-> (3 <= List.length (Split image "/"))%nat).
Proof.
  intros image handedOn.
  assert (HW : withRegistry image = handedOn) by reflexivity.
  split; [exact HW|]. rewrite <- HW.
  split; [|split; [|split; [|apply withRegistry_fields]]].
  - destruct (CreateCluster_run_image D c w)
      as [H|(spec & w1 & _ & Hi & _ & E)]; [now left|].
    right. now exists spec, w1.
  - destruct (CreateCluster_run_image D c w)
      as [(_ & _ & Hsame)|(spec & w1 & Hn & Hi & Hcc & E)].
    + exists []. rewrite app_nil_r. split; [exact Hsame | constructor].
    + rewrite E.
      destruct (Creates_createNodes D c spec w1) as (l & Hl & HP).
      exists l. split; [now rewrite Hl, Hcc|].
      eapply Forall_impl; [|exact HP].
      intros x [->|(i & ->)] Hname; [exact Hi|].
      exfalso. apply (worker_is_not_server spec i).
      change (ID (workerConfig spec i)) with (Name (workerConfig spec i)).
      rewrite Hname. unfold serverConfig. simpl. now rewrite Hn.
  - apply (Creates_AddNode_image D c w).
Qed.

(** Creating the cluster [demo], and adding a worker to the cluster [c],
    with the image [rancher/k3s:latest]; an image that names its registry
    and has three fields is left as it is. *)
Lemma withRegistry_examples :
  map Image (createdConfigs (calls (snd
    (CreateCluster (demoDeps neverFails) (createCtx "demo" 0 [] None)
                   emptyWorld))))
    = ["docker.io/rancher/k3s:latest"] /\
  map Image (createdConfigs (calls (snd
    (AddNode (demoDeps neverFails) (addNodeCtx "c" "worker" 1) clusterC))))
    = ["docker.io/rancher/k3s:latest"] /\
  withRegistry "quay.io/org/k3s" = "quay.io/org/k3s".
Proof.
  destruct (default_registry_is_prepended_to_short_images
              (demoDeps neverFails) (createCtx "demo" 0 [] None) emptyWorld)
    as (_ & _ & (l1 & H1 & P1) & _).
  destruct (default_registry_is_prepended_to_short_images
              (demoDeps neverFails) (addNodeCtx "c" "worker" 1) clusterC)
    as (_ & _ & _ & (l2 & H2 & P2) & _).
  split; [|split].
  - rewrite H1. cbn [calls emptyWorld createdConfigs flat_map app].
    assert (E : exists cfg, l1 = [cfg] /\ Name cfg = "demo-server").
    { vm_compute in H1. subst l1. eexists. split; reflexivity. }
    destruct E as (cfg & -> & Hn). apply Forall_inv in P1.
    simpl. now rewrite (P1 Hn).
  - rewrite H2. cbn [calls clusterC createdConfigs flat_map app].
    assert (E : exists cfg, l2 = [cfg]).
    { vm_compute in H2. subst l2. eexists. reflexivity. }
    destruct E as (cfg & ->). apply Forall_inv in P2.
    simpl. now rewrite P2.
  - reflexivity.
Defined.
